(** * Educational-analytics pipeline: data cleaning and analysis

    A shallow embedding of [src/data_loader.py] ([clean_data]) and of
    [src/analyzer.py] ([analyze_performance], [identify_at_risk_students],
    [predict_final_grades], [generate_recommendations],
    [calculate_subject_statistics], [calculate_learning_metrics]), followed
    by the properties of these functions.

    Conventions of the embedding.
    - A Python float is a [pyfloat]: a rational, or [NaN].  pandas uses NaN
      for a missing number, so a missing grade is [NaN].  Arithmetic is exact
      (no rounding error, no overflow); every computed value is reduced with
      [Qred], so that a float has one representation.  The program computes
      in binary64, so a computed mean, rate or quantile agrees with the one
      here up to its last digits only.  What is proved of a computed float
      is therefore what these digits cannot change: orders, bounds, counts,
      comparisons of a value the result itself carries, the same operation
      applied to the same values, and conditions that hold with a margin.
      Where a property is about which arguments [np.polyfit] receives, the
      function is written over an arbitrary fit ([predict_final_grades_with],
      [trend_factors_with]).
    - A standard deviation is kept as [Sqrt v], the square root of the
      variance [v]; it is compared with a constant on the squares, and rounded
      or printed through the integer square root.
    - A table is a list of column names and a list of rows.  The columns have
      the types of the data model: [student_id], [subject], [group] and
      [day_of_week] hold text, [grade] and [attendance] floats, [week] and
      [month] integers, [date] a day.  A field of a row is only read after its
      column was found among the names; a missing column raises [KeyError].
    - A call that can raise returns a [result].  [analyze_performance], which
      assigns into the table of its caller, is written in a state-and-error
      monad over that table.
    - The numerical library calls whose values are not computed here
      (correlation, scaling, k-means, ill-posed least squares) are the fields
      of the class [Numerics]; the properties hold for every instance. *)

From Stdlib Require Import Bool List String Ascii ZArith QArith Qround Qabs Lia Lqa.
From Stdlib Require Import Sorted Permutation DecimalString.
Import ListNotations.

Open Scope string_scope.
Open Scope Z_scope.
Open Scope Q_scope.

(* ================================================================= *)
(** ** Exceptions and results *)

Inductive exn : Type := Exn (cls : string) (msg : string).

Definition KeyError (k : string) : exn := Exn "KeyError" ("'" ++ k ++ "'").
Definition TypeError (m : string) : exn := Exn "TypeError" m.
Definition ValueError (m : string) : exn := Exn "ValueError" m.
Definition LinAlgError (m : string) : exn := Exn "LinAlgError" m.
Definition ZeroDivisionError : exn := Exn "ZeroDivisionError" "division by zero".

(** [str(e)] *)
Definition exn_str (e : exn) : string := let (_, m) := e in m.

Inductive result (A : Type) : Type :=
| Ok (a : A)
| Raise (e : exn).
Arguments Ok {A} a.
Arguments Raise {A} e.

Definition rbind {A B} (r : result A) (k : A -> result B) : result B :=
  match r with
  | Ok a => k a
  | Raise e => Raise e
  end.

Notation "x <- e ;; k" := (rbind e (fun x => k))
  (at level 61, e at next level, right associativity).

Fixpoint rmap_list {A B} (f : A -> result B) (l : list A) : result (list B) :=
  match l with
  | [] => Ok []
  | a :: t => b <- f a ;; bs <- rmap_list f t ;; Ok (b :: bs)
  end.

(* ================================================================= *)
(** ** Python floats *)

Inductive pyfloat : Type :=
| NaN
| Num (q : Q).

(** The square root of a float, kept symbolically. *)
Inductive pysqrt : Type := Sqrt (radicand : pyfloat).

Definition Qltb (a b : Q) : bool := negb (Qle_bool b a).

(** Comparisons: every comparison with NaN is false. *)
Definition pf_lt (a b : pyfloat) : bool :=
  match a, b with
  | Num x, Num y => Qltb x y
  | _, _ => false
  end.
Definition pf_gt (a b : pyfloat) : bool := pf_lt b a.
Definition pf_le (a b : pyfloat) : bool :=
  match a, b with
  | Num x, Num y => Qle_bool x y
  | _, _ => false
  end.
Definition pf_ge (a b : pyfloat) : bool := pf_le b a.

(** Python's builtin [min(a, b)] and [max(a, b)]: the first argument is kept
    unless the second compares strictly below (above) it. *)
Definition py_min (a b : pyfloat) : pyfloat := if pf_lt b a then b else a.
Definition py_max (a b : pyfloat) : pyfloat := if pf_gt b a then b else a.

Definition pf_map2 (f : Q -> Q -> Q) (a b : pyfloat) : pyfloat :=
  match a, b with
  | Num x, Num y => Num (Qred (f x y))
  | _, _ => NaN
  end.
Definition pf_add := pf_map2 Qplus.
Definition pf_sub := pf_map2 Qminus.
Definition pf_mul := pf_map2 Qmult.

Definition pf_isnan (a : pyfloat) : bool :=
  match a with NaN => true | Num _ => false end.

(** Equality of two cells of a float column, as [drop_duplicates] sees it:
    two missing values are the same value. *)
Definition pf_same (a b : pyfloat) : bool :=
  match a, b with
  | NaN, NaN => true
  | Num x, Num y => Qeq_bool x y
  | _, _ => false
  end.

(** [sqrt(v) > c] for a constant [c >= 0]. *)
Definition sqrt_gt (s : pysqrt) (c : Q) : bool :=
  let (v) := s in pf_gt v (Num (c * c)).

(* ----------------------------------------------------------------- *)
(** *** Rounding and formatting *)

(** Nearest integer, ties to the even one. *)
Definition round_half_even (q : Q) : Z :=
  let n := Qnum q in
  let d := Zpos (Qden q) in
  let f := (n / d)%Z in
  let r2 := (2 * (n - f * d))%Z in
  if (r2 <? d)%Z then f
  else if (d <? r2)%Z then (f + 1)%Z
  else if Z.even f then f else (f + 1)%Z.

Definition pow10 (k : nat) : Z := (10 ^ Z.of_nat k)%Z.

(** The integer [round(q * 10^k)]. *)
Definition scaled_round (k : nat) (q : Q) : Z :=
  round_half_even (q * inject_Z (pow10 k)).

(** The integer [round(sqrt(v) * 10^k)], for [v >= 0]. *)
Definition scaled_round_sqrt (k : nat) (v : Q) : Z :=
  let x := v * inject_Z (4 * pow10 k * pow10 k) in
  let fx := Qfloor x in
  let n := Z.sqrt fx in
  if Qeq_bool x (inject_Z fx) && (n * n =? fx)%Z && Z.odd n
  then let lo := ((n - 1) / 2)%Z in if Z.even lo then lo else (lo + 1)%Z
  else ((n + 1) / 2)%Z.

Definition unscale (k : nat) (z : Z) : Q := Qred (inject_Z z / inject_Z (pow10 k)).

(** [round(x, k)] of numpy and pandas. *)
Definition round_to (k : nat) (a : pyfloat) : pyfloat :=
  match a with
  | NaN => NaN
  | Num q => Num (unscale k (scaled_round k q))
  end.

Definition round_sqrt_to (k : nat) (s : pysqrt) : pyfloat :=
  match s with
  | Sqrt NaN => NaN
  | Sqrt (Num v) => Num (unscale k (scaled_round_sqrt k v))
  end.

Definition string_of_N (n : N) : string := NilZero.string_of_uint (N.to_uint n).

Fixpoint zeros (n : nat) : string :=
  match n with O => "" | S m => String "0" (zeros m) end.

(** Decimal rendering of [z / 10^k] with exactly [k] fractional digits
    ([k >= 1]); [neg] decides the sign that is printed. *)
Definition render_fixed (k : nat) (neg : bool) (z : Z) : string :=
  let digits := string_of_N (Z.to_N (Z.abs z)) in
  let padded := zeros (S k - String.length digits) ++ digits in
  let split := (String.length padded - k)%nat in
  (if neg then "-" else "") ++
  substring 0 split padded ++ "." ++ substring split k padded.

(** [f"{x:.kf}"] *)
Definition format_f (k : nat) (a : pyfloat) : string :=
  match a with
  | NaN => "nan"
  | Num q => render_fixed k (Qltb q 0) (scaled_round k q)
  end.

Definition format_sqrt_f (k : nat) (s : pysqrt) : string :=
  match s with
  | Sqrt NaN => "nan"
  | Sqrt (Num v) => render_fixed k false (scaled_round_sqrt k v)
  end.

(* ================================================================= *)
(** ** Series of floats *)

Fixpoint dropna (l : list pyfloat) : list Q :=
  match l with
  | [] => []
  | NaN :: t => dropna t
  | Num q :: t => q :: dropna t
  end.

Definition Qsum (l : list Q) : Q := fold_right Qplus 0 l.

Definition Qnat (n : nat) : Q := inject_Z (Z.of_nat n).

Definition Qlen {A} (l : list A) : Q := Qnat (List.length l).

Definition Qmean (l : list Q) : Q := Qsum l / Qlen l.

(** [Series.mean()]: missing values are skipped; NaN when nothing is left. *)
Definition series_mean (l : list pyfloat) : pyfloat :=
  match dropna l with
  | [] => NaN
  | v => Num (Qred (Qmean v))
  end.

(** [np.mean(a)]: NaN as soon as one entry is NaN, and on an empty array. *)
Definition np_mean (l : list pyfloat) : pyfloat :=
  if existsb pf_isnan l then NaN else series_mean l.

(** Sum of the squared deviations from [m]. *)
Definition sq_dev (m : Q) (l : list Q) : Q :=
  Qsum (map (fun x => (x - m) * (x - m)) l).

(** The sample variance (ddof = 1) of the values present. *)
Definition series_var (l : list pyfloat) : pyfloat :=
  match dropna l with
  | [] | [_] => NaN
  | v => Num (Qred (sq_dev (Qmean v) v / (Qlen v - 1)))
  end.

(** [Series.std()] *)
Definition series_std (l : list pyfloat) : pysqrt := Sqrt (series_var l).

(** Stable sort by a comparison [before a b]: [a] may stand before [b]. *)
Section SortBy.
Context {A : Type} (before : A -> A -> bool).

Fixpoint insert_by (x : A) (l : list A) : list A :=
  match l with
  | [] => [x]
  | y :: t => if before x y then x :: l else y :: insert_by x t
  end.

Definition sort_by (l : list A) : list A := fold_right insert_by [] l.
End SortBy.

Definition Qsort (l : list Q) : list Q := sort_by Qle_bool l.

(** [Series.median()] *)
Definition series_median (l : list pyfloat) : pyfloat :=
  let v := Qsort (dropna l) in
  let n := List.length v in
  match n with
  | O => NaN
  | _ =>
    if Nat.even n
    then Num (Qred ((nth (n / 2 - 1) v 0 + nth (n / 2) v 0) / 2))
    else Num (Qred (nth (n / 2) v 0))
  end.

Definition series_min (l : list pyfloat) : pyfloat :=
  match Qsort (dropna l) with
  | [] => NaN
  | x :: _ => Num x
  end.

Definition series_max (l : list pyfloat) : pyfloat :=
  match rev (Qsort (dropna l)) with
  | [] => NaN
  | x :: _ => Num x
  end.

(** [(s >= c).mean() * 100] for a boolean mask: the share of [true], NaN on
    an empty mask. *)
Definition mask_rate (mask : list bool) : pyfloat :=
  match mask with
  | [] => NaN
  | _ => Num (Qred (Qlen (filter (fun b => b) mask) / Qlen mask * 100))
  end.

(* ----------------------------------------------------------------- *)
(** *** Distinct values in order of first appearance *)

Section Unique.
Context {A : Type} (eqb : A -> A -> bool).

Definition mem (x : A) (l : list A) : bool := existsb (eqb x) l.

(** [Series.unique()], and the loop
    [for x in xs: if x not in seen: seen.append(x)]. *)
Definition unique (l : list A) : list A :=
  fold_left (fun seen x => if mem x seen then seen else (seen ++ [x])%list) l [].

(** The same list, described by its head: keep the first element and
    remove its later copies. *)
Fixpoint dedup_first (l : list A) : list A :=
  match l with
  | [] => []
  | x :: t => x :: filter (fun y => negb (eqb x y)) (dedup_first t)
  end.
End Unique.

Definition opt_eqb {A} (eqb : A -> A -> bool) (a b : option A) : bool :=
  match a, b with
  | Some x, Some y => eqb x y
  | None, None => true
  | _, _ => false
  end.

(** Python's [==] on a cell that may be missing: a missing value is equal to
    nothing, itself included. *)
Definition cell_eq {A} (eqb : A -> A -> bool) (a b : option A) : bool :=
  match a, b with
  | Some x, Some y => eqb x y
  | _, _ => false
  end.

Fixpoint somes {A} (l : list (option A)) : list A :=
  match l with
  | [] => []
  | Some x :: t => x :: somes t
  | None :: t => somes t
  end.

(** [Series.nunique()]: the number of distinct values present. *)
Definition nunique {A} (eqb : A -> A -> bool) (l : list (option A)) : nat :=
  List.length (unique eqb (somes l)).

(* ================================================================= *)
(** ** Tables *)

Record row : Type := mkRow {
  student_id : option string;
  subject : option string;
  grade : pyfloat;
  group : option string;
  week : option Z;
  date : option Z;          (* days since 1970-01-01 *)
  attendance : pyfloat;
  month : option Z;
  day_of_week : option string
}.

Record DataFrame : Type := mkDF {
  columns : list string;
  rows : list row
}.

Definition has_column (df : DataFrame) (c : string) : bool :=
  existsb (String.eqb c) (columns df).

(** [df[c]]: the column, or KeyError. *)
Definition column {A} (df : DataFrame) (c : string) (f : row -> A)
  : result (list A) :=
  if has_column df c then Ok (map f (rows df)) else Raise (KeyError c).

(** [df[c] = values], the values given row by row. *)
Definition add_column (cols : list string) (c : string) : list string :=
  if existsb (String.eqb c) cols then cols else (cols ++ [c])%list.

(** A row as far as the columns [cols] show it. *)
Definition restrict (cols : list string) (r : row) : row :=
  let has c := existsb (String.eqb c) cols in
  {| student_id := if has "student_id" then student_id r else None;
     subject := if has "subject" then subject r else None;
     grade := if has "grade" then grade r else NaN;
     group := if has "group" then group r else None;
     week := if has "week" then week r else None;
     date := if has "date" then date r else None;
     attendance := if has "attendance" then attendance r else NaN;
     month := if has "month" then month r else None;
     day_of_week := if has "day_of_week" then day_of_week r else None |}.

Definition row_eqb (a b : row) : bool :=
  opt_eqb String.eqb (student_id a) (student_id b) &&
  opt_eqb String.eqb (subject a) (subject b) &&
  pf_same (grade a) (grade b) &&
  opt_eqb String.eqb (group a) (group b) &&
  opt_eqb Z.eqb (week a) (week b) &&
  opt_eqb Z.eqb (date a) (date b) &&
  pf_same (attendance a) (attendance b) &&
  opt_eqb Z.eqb (month a) (month b) &&
  opt_eqb String.eqb (day_of_week a) (day_of_week b).

(** Two rows of a table with columns [cols] are exact duplicates. *)
Definition same_row (cols : list string) (a b : row) : bool :=
  row_eqb (restrict cols a) (restrict cols b).

(** [df.drop_duplicates()]: the first of each set of identical rows. *)
Definition drop_duplicates (df : DataFrame) : DataFrame :=
  mkDF (columns df) (unique (same_row (columns df)) (rows df)).

(** No two rows of the table are identical across all columns: a row [a]
    and a later row [b] always differ. *)
Definition no_duplicate_rows (df : DataFrame) : Prop :=
  ForallOrdPairs (fun a b => same_row (columns df) a b = false) (rows df).

(** [df[mask]] *)
Definition select (p : row -> bool) (df : DataFrame) : DataFrame :=
  mkDF (columns df) (filter p (rows df)).

Definition map_rows (f : row -> row) (df : DataFrame) : DataFrame :=
  mkDF (columns df) (map f (rows df)).

(* ----------------------------------------------------------------- *)
(** *** Calendar accessors of a date column *)

Definition days_from_civil (y m d : Z) : Z :=
  let y' := if (m <=? 2)%Z then (y - 1)%Z else y in
  let era := (y' / 400)%Z in
  let yoe := (y' - era * 400)%Z in
  let mp := if (2 <? m)%Z then (m - 3)%Z else (m + 9)%Z in
  let doy := ((153 * mp + 2) / 5 + d - 1)%Z in
  let doe := (yoe * 365 + yoe / 4 - yoe / 100 + doy)%Z in
  (era * 146097 + doe - 719468)%Z.

(** Year and month of a day number. *)
Definition civil_from_days (z : Z) : Z * Z :=
  let z := (z + 719468)%Z in
  let era := (z / 146097)%Z in
  let doe := (z - era * 146097)%Z in
  let yoe := ((doe - doe / 1460 + doe / 36524 - doe / 146096) / 365)%Z in
  let doy := (doe - (365 * yoe + yoe / 4 - yoe / 100))%Z in
  let mp := ((5 * doy + 2) / 153)%Z in
  let m := if (mp <? 10)%Z then (mp + 3)%Z else (mp - 9)%Z in
  let y := (yoe + era * 400)%Z in
  (if (m <=? 2)%Z then (y + 1)%Z else y, m).

(** Monday is 0. *)
Definition weekday (d : Z) : Z := ((d + 3) mod 7)%Z.

(** [dt.isocalendar().week] *)
Definition isocalendar_week (d : Z) : Z :=
  let thursday := (d - weekday d + 3)%Z in
  let y := fst (civil_from_days thursday) in
  ((thursday - days_from_civil y 1 1) / 7 + 1)%Z.

(** [dt.month] *)
Definition dt_month (d : Z) : Z := snd (civil_from_days d).

(** [dt.day_name()] *)
Definition dt_day_name (d : Z) : string :=
  nth (Z.to_nat (weekday d))
    ["Monday"; "Tuesday"; "Wednesday"; "Thursday"; "Friday"; "Saturday"; "Sunday"]
    "".

(** [df['week'] = df['date'].dt.isocalendar().week] *)
Definition assign_week_from_date (df : DataFrame) : DataFrame :=
  mkDF (add_column (columns df) "week")
       (map (fun r =>
          mkRow (student_id r) (subject r) (grade r) (group r)
                (option_map isocalendar_week (date r))
                (date r) (attendance r) (month r) (day_of_week r))
          (rows df)).

(* ================================================================= *)
(** ** data_loader.py: [clean_data] *)

Definition fillna (a b : pyfloat) : pyfloat :=
  match a with NaN => b | Num _ => a end.

Definition set_grade (g : pyfloat) (r : row) : row :=
  mkRow (student_id r) (subject r) g (group r) (week r) (date r)
        (attendance r) (month r) (day_of_week r).

Definition set_attendance (a : pyfloat) (r : row) : row :=
  mkRow (student_id r) (subject r) (grade r) (group r) (week r) (date r)
        a (month r) (day_of_week r).

(** [astype(str)] on a column of strings: a string is kept, a missing value
    becomes the text ["nan"]. *)
Definition astype_str (o : option string) : option string :=
  Some (match o with Some s => s | None => "nan" end).

Definition student_id_astype_str (r : row) : row :=
  mkRow (astype_str (student_id r)) (subject r) (grade r) (group r) (week r)
        (date r) (attendance r) (month r) (day_of_week r).

Definition group_astype_str (r : row) : row :=
  mkRow (student_id r) (subject r) (grade r) (astype_str (group r)) (week r)
        (date r) (attendance r) (month r) (day_of_week r).

(** The three fields derived from [date]. *)
Definition derive_date_fields (r : row) : row :=
  mkRow (student_id r) (subject r) (grade r) (group r)
        (option_map isocalendar_week (date r)) (date r) (attendance r)
        (option_map dt_month (date r)) (option_map dt_day_name (date r)).

(** The rows of one subject: [df[df['subject'] == s]]. *)
Definition subject_is (s : option string) (r : row) : bool :=
  cell_eq String.eqb (subject r) s.

(** [df.groupby('subject')['grade'].transform('median')], at row [r]. *)
Definition subject_median (df : DataFrame) (r : row) : pyfloat :=
  match subject r with
  | None => NaN
  | Some s => series_median (map grade (filter (subject_is (Some s)) (rows df)))
  end.

Definition important_columns : list string := ["student_id"; "grade"; "subject"].

Definition important_present (r : row) : bool :=
  match student_id r, grade r, subject r with
  | Some _, Num _, Some _ => true
  | _, _, _ => false
  end.

(** [str(names)] for a list of column names: ['a', 'b']. *)
Definition str_of_names (names : list string) : string :=
  "[" ++ String.concat ", " (map (fun c => "'" ++ c ++ "'") names) ++ "]".

(** [df.dropna(subset=important_columns)]; the [KeyError] carries the list
    of the columns that are missing. *)
Definition dropna_important (df : DataFrame) : result DataFrame :=
  match filter (fun c => negb (has_column df c)) important_columns with
  | [] => Ok (select important_present df)
  | missing => Raise (Exn "KeyError" (str_of_names missing))
  end.

Definition grade_in_range (r : row) : bool :=
  pf_ge (grade r) (Num 1) && pf_le (grade r) (Num 10).

(** Missing grades are filled with the median of their subject. *)
Definition fill_grades (df : DataFrame) : result DataFrame :=
  if has_column df "grade" then
    if has_column df "subject" then
      Ok (map_rows
            (fun r => set_grade (fillna (grade r) (subject_median df r)) r) df)
    else Raise (KeyError "subject")
  else Ok df.

(** Missing attendance is filled with 1.0. *)
Definition fill_attendance (df : DataFrame) : DataFrame :=
  if has_column df "attendance"
  then map_rows (fun r => set_attendance (fillna (attendance r) (Num 1)) r) df
  else df.

(** Grades outside [1, 10] are removed. *)
Definition keep_valid_grades (df : DataFrame) : DataFrame :=
  if has_column df "grade" then select grade_in_range df else df.

(** [student_id] and [group] are converted to text. *)
Definition convert_types (df : DataFrame) : DataFrame :=
  let df :=
    if has_column df "student_id" then map_rows student_id_astype_str df
    else df in
  if has_column df "group" then map_rows group_astype_str df else df.

(** With a date column, the week, the month and the weekday are assigned. *)
Definition add_date_fields (df : DataFrame) : DataFrame :=
  if has_column df "date" then
    mkDF (add_column (add_column (add_column (columns df) "week") "month")
                     "day_of_week")
         (map derive_date_fields (rows df))
  else df.

(** [clean_data(df)].  The function works on a copy of [df]; its messages on
    standard output are not part of the model. *)
Definition clean_data (df : DataFrame) : result DataFrame :=
  let df_clean := df in
  let df_clean := drop_duplicates df_clean in
  df_clean <- fill_grades df_clean ;;
  let df_clean := fill_attendance df_clean in
  df_clean <- dropna_important df_clean ;;
  let df_clean := keep_valid_grades df_clean in
  let df_clean := convert_types df_clean in
  let df_clean := add_date_fields df_clean in
  Ok df_clean.

(** The table of [test_clean_data]. *)
Definition raw_row (sid subj : string) (g a : pyfloat) : row :=
  mkRow (Some sid) (Some subj) g None None None a None None.

Definition test_data : DataFrame :=
  mkDF ["student_id"; "grade"; "subject"; "attendance"]
       [ raw_row "STD001" "Math" (Num (85 # 10)) (Num 1);
         raw_row "STD001" "Math" (Num (85 # 10)) (Num 1);
         raw_row "STD002" "Physics" (Num 12) (Num (1 # 2));
         raw_row "STD003" "Math" (Num (-1)) NaN;
         raw_row "STD003" "Physics" (Num (75 # 10)) (Num (8 # 10)) ].


(* ================================================================= *)
(** ** analyzer.py: [generate_recommendations] *)

(** [key in s] on strings: [key] occurs in [s] as a substring. *)
Fixpoint contains (key s : string) : bool :=
  prefix key s ||
  match s with
  | EmptyString => false
  | String _ t => contains key t
  end.

(** The dictionary, in the order of its literal. *)
Definition recommendations_map : list (string * list string) :=
  [ ("Низкая средняя оценка",
     [ "Обратиться за помощью к преподавателю";
       "Составить индивидуальный план обучения";
       "Увеличить время подготовки к занятиям" ]);
    ("Высокая изменчивость оценок",
     [ "Проанализировать причины колебаний успеваемости";
       "Разработать стратегию стабильной подготовки";
       "Обратить внимание на организацию времени" ]);
    ("Снижение успеваемости",
     [ "Провести диагностику причин снижения мотивации";
       "Установить краткосрочные учебные цели";
       "Увеличить частоту самопроверок" ]);
    ("Резкое падение успеваемости",
     [ "Срочно обратиться к куратору группы";
       "Провести индивидуальную консультацию с преподавателем";
       "Пересмотреть учебную нагрузку" ]);
    ("Низкая посещаемость",
     [ "Проанализировать причины пропусков";
       "Составить график посещения занятий";
       "Установить систему напоминаний" ]) ].

(** The two nested loops that [extend] the list. *)
Definition collect_recommendations (risk_factors : list string) : list string :=
  fold_left
    (fun recommendations factor =>
       fold_left
         (fun recommendations entry =>
            let '(key, rec_list) := entry in
            if contains key factor
            then (recommendations ++ rec_list)%list
            else recommendations)
         recommendations_map recommendations)
    risk_factors [].

Definition generate_recommendations (risk_factors : list string) : list string :=
  let recommendations := collect_recommendations risk_factors in
  let unique_recommendations := unique String.eqb recommendations in
  firstn 5 unique_recommendations.

(** The description of section 4.3: for each factor the remediation lists of
    the keys it matches, concatenated, de-duplicated keeping each first
    occurrence, truncated to five. *)
Definition matched_lists (factor : string) : list string :=
  List.concat (map snd (filter (fun entry => contains (fst entry) factor)
                          recommendations_map)).

Definition recommendations_spec (risk_factors : list string) : list string :=
  firstn 5 (dedup_first String.eqb (List.concat (map matched_lists risk_factors))).

(* ================================================================= *)
(** ** numpy: [polyfit] of degree 1, [arange] *)

Definition arange (n : nat) : list Q :=
  map (fun i => inject_Z (Z.of_nat i)) (seq 0 n).

Definition dot (x y : list Q) : Q :=
  Qsum (map (fun p => fst p * snd p) (combine x y)).

(** [n * sum(x^2) - sum(x)^2]: zero exactly when the abscissae are all equal,
    where the fit of a line is not determined. *)
Definition spread (x : list Q) : Q :=
  Qlen x * dot x x - Qsum x * Qsum x.

(** Slope and intercept of the least-squares line through the points
    [(x_i, y_i)]. *)
Definition lstsq_line (x y : list Q) : Q * Q :=
  let m := (Qlen x * dot x y - Qsum x * Qsum y) / spread x in
  (Qred m, Qred ((Qsum y - m * Qsum x) / Qlen x)).

(** The sum of the squared residuals of the line [m * x + c]. *)
Definition sq_residuals (m c : Q) (x y : list Q) : Q :=
  Qsum (map (fun p => (snd p - (m * fst p + c)) * (snd p - (m * fst p + c)))
            (combine x y)).

Definition Zsort (l : list Z) : list Z := sort_by Z.leb l.

(* ================================================================= *)
(** ** analyzer.py *)

(** *** Records of the results *)

(** A field that holds a structured value, or the message of a failure. *)
Inductive field (A : Type) : Type :=
| Value (a : A)
| Message (text : string).
Arguments Value {A} a.
Arguments Message {A} text.

(** The value of [current_week]: a Python int given by the caller or the
    default 10, or the numpy number [df['week'].max()]. *)
Inductive week_number : Type :=
| PyInt (z : Z)
| NpNumber (a : pyfloat).

(** One entry of [results] in [identify_at_risk_students], later a row of
    [risk_df]. *)
Module RiskInfo.
Record t : Type := mk {
  student_id : option string;
  avg_grade : pyfloat;
  grade_std : pysqrt;
  subject_count : nat;
  total_grades : nat;
  risk_factors : list string;
  risk_score : nat;
  recommendations : list string;
  group : option (option string)   (* no key without a group column *)
}.
End RiskInfo.

(** One entry of [predictions] in [predict_final_grades]. *)
Module Prediction.
Record t : Type := mk {
  student_id : option string;
  subject : option string;
  current_week : week_number;
  weeks_available : nat;
  current_avg_grade : pyfloat;
  predicted_final_grade : pyfloat;
  prediction_confidence : pyfloat;
  trend : string;
  trend_slope : pyfloat;
  group : option (option string)
}.
End Prediction.

(** [results['overall']] *)
Module Overall.
Record t : Type := mk {
  total_records : nat;
  total_students : nat;
  total_subjects : nat;
  mean_grade : pyfloat;
  median_grade : pyfloat;
  std_grade : pysqrt;
  min_grade : pyfloat;
  max_grade : pyfloat;
  grade_distribution : list (Q * nat);
  total_groups : option nat
}.
End Overall.

(** [results['by_subject'][subject]] *)
Module SubjectStats.
Record t : Type := mk {
  mean_grade : pyfloat;
  median_grade : pyfloat;
  std_grade : pysqrt;
  student_count : nat;
  record_count : nat;
  pass_rate : pyfloat;
  excellent_rate : pyfloat;
  grade_distribution : list (Q * nat)   (* keyed by the grade; the source keys by its text *)
}.
End SubjectStats.

(** [results['by_group'][group]] *)
Module GroupStats.
Record t : Type := mk {
  mean_grade : pyfloat;
  median_grade : pyfloat;
  student_count : nat;
  subject_count : nat;
  pass_rate : pyfloat;
  attendance_rate : option pyfloat
}.
End GroupStats.

(** A row of [student_stats]. *)
Module StudentStats.
Record t : Type := mk {
  student_id : string;
  avg_grade : pyfloat;
  grade_count : nat;
  grade_std : pyfloat;
  subject_count : nat
}.
End StudentStats.

(** An entry of [results['risk_students']]. *)
Module RiskStudent.
Record t : Type := mk {
  student_id : string;
  avg_grade : pyfloat;
  grade_count : nat;
  grade_std : pyfloat;
  subject_count : nat;
  risk_level : string;
  groups : option (list (option string));
  trend : option (string * pyfloat)   (* 'trend' and 'trend_slope' *)
}.
End RiskStudent.

(** [results['trends']] *)
Module Trends.
Record overall_trend : Type := mk_overall {
  slope : pyfloat;
  intercept : pyfloat;
  direction : string;
  prediction_next_week : pyfloat
}.
Record t : Type := mk {
  weekly : option (list Z * list pyfloat);   (* 'weeks' and 'mean_grades' *)
  overall : option overall_trend
}.
End Trends.

(** An entry of [results['correlations']]. *)
Module Correlation.
Record t : Type := mk {
  subject1 : string;
  subject2 : string;
  correlation : Q;
  strength : string
}.
End Correlation.

(** [results['clusters'][f'cluster_{cluster_id}']] *)
Module ClusterInfo.
Record t : Type := mk {
  student_count : nat;
  avg_grade_mean : pyfloat;
  avg_grade_std : pysqrt;
  student_ids : list string
}.
End ClusterInfo.

(** The dictionary returned by [analyze_performance]; the keys
    'correlations' and 'clusters' are only set on some paths. *)
Module Results.
Record t : Type := mk {
  overall : Overall.t;
  by_subject : list (option string * SubjectStats.t);
  by_group : list (option string * GroupStats.t);
  risk_students : list RiskStudent.t;
  trends : Trends.t;
  timestamp : string;
  correlations : option (field (list Correlation.t));
  clusters : option (field (list (string * ClusterInfo.t)))
}.
End Results.

(** The student-by-subject table of mean grades after [dropna(thresh=3)], as
    far as the analysis looks at it: its subject columns, its number of rows,
    and what [corr()] does on it. *)
Record PivotData : Type := mkPivot {
  pivot_columns : list string;
  pivot_len : nat;
  pivot_corr : result (nat -> nat -> pyfloat)
}.

(** The numerical library calls whose results are not computed here.
    - [lstsq_degenerate]: what numpy's [lstsq] does where the least-squares
      line is not determined or not finite (a NaN ordinate, or abscissae that
      are all equal, a single point included): it may raise [LinAlgError] or
      return coefficients, NaN among them.
    - [pivot_table_dropna]: [df.pivot_table(...).dropna(thresh=3)].
    - [fit_transform]: [StandardScaler().fit_transform(features)].
    - [fit_predict]: [KMeans(n_clusters, ...).fit_predict(scaled)].
    Each of them may raise.  The analyses are verified for every behaviour of
    these calls. *)
Class Numerics : Type := {
  lstsq_degenerate : list Q -> list pyfloat -> result (pyfloat * pyfloat);
  pivot_table_dropna : DataFrame -> result PivotData;
  fit_transform : list (pyfloat * pyfloat * pyfloat) -> result (list (list pyfloat));
  fit_predict : nat -> list (list pyfloat) -> result (list nat)
}.

Section Analyzer.
Context `{Numerics}.

(** [np.polyfit(x, y, 1)]: (slope, intercept). *)
Definition polyfit (x : list Q) (y : list pyfloat)
  : result (pyfloat * pyfloat) :=
  match x with
  | [] => Raise (TypeError "expected non-empty vector for x")
  | _ =>
    if negb (List.length x =? List.length y)%nat
    then Raise (TypeError "expected x and y to have same length")
    else if existsb pf_isnan y || Qeq_bool (spread x) 0
    then lstsq_degenerate x y
    else let (m, c) := lstsq_line x (dropna y) in Ok (Num m, Num c)
  end.

(* --------------------------------------------------------------- *)
(** *** Selections shared by the analyses *)

Definition week_is (w : Z) (r : row) : bool := cell_eq Z.eqb (week r) (Some w).

(** [data.groupby('week')['grade'].mean()]: one entry per week present,
    by increasing week, with the mean of the grades of that week. *)
Definition weekly_grades (data : list row) : list (Z * pyfloat) :=
  map (fun w => (w, series_mean (map grade (filter (week_is w) data))))
      (Zsort (unique Z.eqb (somes (map week data)))).

(** [df[df['student_id'] == sid]] *)
Definition student_is (sid : option string) (r : row) : bool :=
  cell_eq String.eqb (student_id r) sid.

(** [df[c].unique()] for a column of strings; one entry stands for the
    missing values. *)
Definition unique_cells (l : list (option string)) : list (option string) :=
  unique (opt_eqb String.eqb) l.

Definition index_error : exn :=
  Exn "IndexError" "single positional indexer is out-of-bounds".

(** [data['group'].iloc[0]] under [if 'group' in data.columns]. *)
Definition first_group (df : DataFrame) (data : list row)
  : result (option (option string)) :=
  if has_column df "group" then
    match data with
    | [] => Raise index_error
    | r :: _ => Ok (Some (group r))
    end
  else Ok None.

(* --------------------------------------------------------------- *)
(** *** [identify_at_risk_students] *)

(** The part guarded by [if 'week' in student_data.columns and ...]:
    the factors of the weekly trend. *)
Definition trend_factors (df_copy : DataFrame) (student_data : list row)
           (min_weeks : Z) (decline_threshold : Q) : result (list string) :=
  if has_column df_copy "week" &&
     (min_weeks <=? Z.of_nat (nunique Z.eqb (map week student_data)))%Z
  then
    let weekly_grades := weekly_grades student_data in
    if (min_weeks <=? Z.of_nat (List.length weekly_grades))%Z then
      let x := arange (List.length weekly_grades) in
      let y := map snd weekly_grades in
      fit <- polyfit x y ;;
      let slope := fst fit in
      let declining :=
        if pf_lt slope (Num (-(2 # 10)))
        then ["Снижение успеваемости (тренд: " ++ format_f 2 slope ++ "/неделю)"]
        else [] in
      let first_half := np_mean (firstn (List.length y / 2) y) in
      let second_half := np_mean (skipn (List.length y / 2) y) in
      let sharp_drop :=
        if pf_gt (pf_sub first_half second_half) (Num decline_threshold)
        then ["Резкое падение успеваемости (" ++ format_f 1 first_half ++
              " → " ++ format_f 1 second_half ++ ")"]
        else [] in
      Ok (declining ++ sharp_drop)%list
    else Ok []
  else Ok [].

(** The risk factors of one student, in the order the checks append them. *)
Definition student_risk_factors (df_copy : DataFrame) (student_data : list row)
           (threshold : Q) (min_weeks : Z) (decline_threshold : Q)
  : result (list string) :=
  let avg_grade := series_mean (map grade student_data) in
  let grade_std := series_std (map grade student_data) in
  let low_average :=
    if pf_lt avg_grade (Num threshold)
    then ["Низкая средняя оценка (" ++ format_f 2 avg_grade ++ ")"]
    else [] in
  let variability :=
    if sqrt_gt grade_std (25 # 10)
    then ["Высокая изменчивость оценок (σ=" ++ format_sqrt_f 2 grade_std ++ ")"]
    else [] in
  trend <- trend_factors df_copy student_data min_weeks decline_threshold ;;
  let low_attendance :=
    if has_column df_copy "attendance" then
      let attendance_rate := series_mean (map attendance student_data) in
      if pf_lt attendance_rate (Num (7 # 10))
      then ["Низкая посещаемость (" ++
            format_f 1 (pf_mul attendance_rate (Num 100)) ++ "%)"]
      else []
    else [] in
  Ok (low_average ++ variability ++ trend ++ low_attendance)%list.

(** The body of the loop over the students: the entry appended to
    [results], if any. *)
Definition assess_student (df_copy : DataFrame) (threshold : Q)
           (min_weeks : Z) (decline_threshold : Q) (sid : option string)
  : result (option RiskInfo.t) :=
  let student_data := filter (student_is sid) (rows df_copy) in
  if negb (has_column df_copy "grade") then Raise (KeyError "grade") else
  if negb (has_column df_copy "subject") then Raise (KeyError "subject") else
  risk_factors <- student_risk_factors df_copy student_data threshold
                                       min_weeks decline_threshold ;;
  match risk_factors with
  | [] => Ok None
  | _ =>
    grp <- first_group df_copy student_data ;;
    Ok (Some (RiskInfo.mk sid
                (series_mean (map grade student_data))
                (series_std (map grade student_data))
                (nunique String.eqb (map subject student_data))
                (List.length student_data)
                risk_factors (List.length risk_factors)
                (generate_recommendations risk_factors) grp))
  end.

(** Order of a float column in [sort_values], ascending: missing values
    come last. *)
Definition na_last_leb (a b : pyfloat) : bool :=
  match a, b with
  | Num x, Num y => Qle_bool x y
  | _, NaN => true
  | NaN, Num _ => false
  end.

(** [sort_values(['risk_score', 'avg_grade'], ascending=[False, True])] *)
Definition risk_before (a b : RiskInfo.t) : bool :=
  (RiskInfo.risk_score b <? RiskInfo.risk_score a)%nat ||
  ((RiskInfo.risk_score a =? RiskInfo.risk_score b)%nat &&
   na_last_leb (RiskInfo.avg_grade a) (RiskInfo.avg_grade b)).

(** The copy of the table, with the week derived from the date if the
    table has no week. *)
Definition with_week (df : DataFrame) : DataFrame :=
  if negb (has_column df "week") && has_column df "date"
  then assign_week_from_date df
  else df.

(** [identify_at_risk_students(df, threshold, min_weeks, decline_threshold)]:
    the rows of the returned table (none for the empty table). *)
Definition identify_at_risk_students (df : DataFrame) (threshold : Q)
           (min_weeks : Z) (decline_threshold : Q) : result (list RiskInfo.t) :=
  let df_copy := with_week df in
  ids <- column df_copy "student_id" student_id ;;
  results <- rmap_list
               (assess_student df_copy threshold min_weeks decline_threshold)
               (unique_cells ids) ;;
  Ok (sort_by risk_before (somes results)).

(* --------------------------------------------------------------- *)
(** *** [predict_final_grades] *)

(** [df['week'].max()] *)
Definition max_week (df : DataFrame) : pyfloat :=
  match rev (Zsort (somes (map week (rows df)))) with
  | [] => NaN
  | w :: _ => Num (inject_Z w)
  end.

(** [min(1.0, n / current_week)].  Dividing by a Python int 0 raises;
    dividing the positive [n] by a numpy zero gives infinity, and the
    minimum is then 1.0. *)
Definition confidence (n : nat) (current_week : week_number) : result pyfloat :=
  match current_week with
  | PyInt z =>
    if (z =? 0)%Z then Raise ZeroDivisionError
    else Ok (py_min (Num 1) (Num (Qred (Qnat n / inject_Z z))))
  | NpNumber NaN => Ok (py_min (Num 1) NaN)
  | NpNumber (Num q) =>
    if Qeq_bool q 0 then Ok (Num 1)
    else Ok (py_min (Num 1) (Num (Qred (Qnat n / q))))
  end.

(** [max(1, min(10, x))] *)
Definition clamp_grade (x : pyfloat) : pyfloat :=
  py_max (Num 1) (py_min (Num 10) x).

Definition trend_label (slope : pyfloat) : string :=
  if pf_gt slope (Num (5 # 100)) then "improving"
  else if pf_lt slope (Num (-(5 # 100))) then "declining"
  else "stable".

(** The abscissae of the fit in [predict_final_grades]: the week numbers
    themselves, [np.array(weekly_grades.index)]. *)
Definition week_axis (weekly : list (Z * pyfloat)) : list Q :=
  map (fun p => inject_Z (fst p)) weekly.

(** The abscissae of the fit in [identify_at_risk_students]: the positions,
    [np.arange(len(weekly_grades))]. *)
Definition position_axis (weekly : list (Z * pyfloat)) : list Q :=
  arange (List.length weekly).

(** The records of one student in one subject. *)
Definition pair_data (df : DataFrame) (sid subj : option string) : list row :=
  filter (subject_is subj) (filter (student_is sid) (rows df)).

(** The body of the inner loop, for one student and one subject. *)
Definition predict_pair (df : DataFrame) (current_week : week_number)
           (sid subj : option string) : result (option Prediction.t) :=
  let subject_data := pair_data df sid subj in
  if has_column df "week" then
    if negb (has_column df "grade") then Raise (KeyError "grade") else
    let weekly_grades := weekly_grades subject_data in
    if (2 <=? List.length weekly_grades)%nat then
      let weeks := week_axis weekly_grades in
      let grades := map snd weekly_grades in
      fit <- polyfit weeks grades ;;
      let (slope, intercept) := fit in
      let final_grade_pred := pf_add (pf_mul slope (Num 16)) intercept in
      let final_grade_pred := clamp_grade final_grade_pred in
      let current_avg := np_mean grades in
      conf <- confidence (List.length weekly_grades) current_week ;;
      grp <- first_group df subject_data ;;
      Ok (Some (Prediction.mk sid subj current_week (List.length weekly_grades)
                              current_avg final_grade_pred conf
                              (trend_label slope) slope grp))
    else Ok None
  else Ok None.

(** The loop over the subjects of one student. *)
Definition predict_student (df : DataFrame) (current_week : week_number)
           (sid : option string) : result (list Prediction.t) :=
  let student_data := filter (student_is sid) (rows df) in
  if negb (has_column df "subject") then Raise (KeyError "subject") else
  found <- rmap_list (predict_pair df current_week sid)
                     (unique_cells (map subject student_data)) ;;
  Ok (somes found).

Definition opt_string_leb (a b : option string) : bool :=
  match a, b with
  | Some x, Some y => String.leb x y
  | _, None => true
  | None, Some _ => false
  end.

(** [sort_values(['student_id', 'subject'])] *)
Definition prediction_before (a b : Prediction.t) : bool :=
  if opt_eqb String.eqb (Prediction.student_id a) (Prediction.student_id b)
  then opt_string_leb (Prediction.subject a) (Prediction.subject b)
  else opt_string_leb (Prediction.student_id a) (Prediction.student_id b).

(** [predict_final_grades(df, current_week)]: the rows of the returned
    table. *)
Definition predict_final_grades (df : DataFrame) (current_week : option Z)
  : result (list Prediction.t) :=
  let current_week :=
    match current_week with
    | Some z => PyInt z
    | None => if has_column df "week" then NpNumber (max_week df) else PyInt 10
    end in
  ids <- column df "student_id" student_id ;;
  per_student <- rmap_list (predict_student df current_week) (unique_cells ids) ;;
  Ok (sort_by prediction_before (List.concat per_student)).

(* --------------------------------------------------------------- *)
(** *** [analyze_performance] *)

(** The function reads and, in its fifth step, assigns into the table the
    caller passed: a computation takes the table and gives it back next to
    its result or its exception. *)
Definition M (A : Type) : Type := DataFrame -> result A * DataFrame.

Definition ret {A} (a : A) : M A := fun df => (Ok a, df).

Definition bind {A B} (m : M A) (k : A -> M B) : M B :=
  fun df =>
    match m df with
    | (Ok a, df') => k a df'
    | (Raise e, df') => (Raise e, df')
    end.

Definition get : M DataFrame := fun df => (Ok df, df).
Definition put (df' : DataFrame) : M unit := fun _ => (Ok tt, df').
Definition lift {A} (r : result A) : M A := fun df => (r, df).

Notation "x <~ e ;; k" := (bind e (fun x => k))
  (at level 61, e at next level, right associativity).

(** [s.value_counts().sort_index().to_dict()] *)
Definition value_counts (l : list pyfloat) : list (Q * nat) :=
  let v := dropna l in
  map (fun g => (g, List.length (filter (Qeq_bool g) v)))
      (sort_by Qle_bool (unique Qeq_bool v)).

Definition at_least (c : Q) (g : pyfloat) : bool := pf_ge g (Num c).

(** Step 1. *)
Definition overall_stats (df : DataFrame) : result Overall.t :=
  let total_records := List.length (rows df) in
  ids <- column df "student_id" student_id ;;
  subjects <- column df "subject" subject ;;
  grades <- column df "grade" grade ;;
  Ok (Overall.mk total_records
        (nunique String.eqb ids)
        (nunique String.eqb subjects)
        (series_mean grades) (series_median grades) (series_std grades)
        (series_min grades) (series_max grades)
        (value_counts grades)
        (if has_column df "group"
         then Some (nunique String.eqb (map group (rows df)))
         else None)).

(** Step 2, for one subject. *)
Definition subject_stats (df : DataFrame) (subj : option string)
  : SubjectStats.t :=
  let subject_data := filter (subject_is subj) (rows df) in
  let grades := map grade subject_data in
  SubjectStats.mk
    (series_mean grades) (series_median grades) (series_std grades)
    (nunique String.eqb (map student_id subject_data))
    (List.length subject_data)
    (mask_rate (map (at_least 4) grades))
    (mask_rate (map (at_least 9) grades))
    (value_counts grades).

Definition by_subject_stats (df : DataFrame)
  : list (option string * SubjectStats.t) :=
  map (fun subj => (subj, subject_stats df subj))
      (unique_cells (map subject (rows df))).

Definition group_is (g : option string) (r : row) : bool :=
  cell_eq String.eqb (group r) g.

(** Step 3, for one group. *)
Definition group_stats (df : DataFrame) (g : option string) : GroupStats.t :=
  let group_data := filter (group_is g) (rows df) in
  let grades := map grade group_data in
  GroupStats.mk
    (series_mean grades) (series_median grades)
    (nunique String.eqb (map student_id group_data))
    (nunique String.eqb (map subject group_data))
    (mask_rate (map (at_least 4) grades))
    (if has_column df "attendance"
     then Some (pf_mul (series_mean (map attendance group_data)) (Num 100))
     else None).

Definition by_group_stats (df : DataFrame)
  : list (option string * GroupStats.t) :=
  if has_column df "group"
  then map (fun g => (g, group_stats df g)) (unique_cells (map group (rows df)))
  else [].

(** Step 4: [df.groupby('student_id').agg(...).round(2)], one row per
    student present, by increasing identifier. *)
Definition student_stats_table (df : DataFrame) : list StudentStats.t :=
  map (fun sid =>
         let data := filter (student_is (Some sid)) (rows df) in
         StudentStats.mk sid
           (round_to 2 (series_mean (map grade data)))
           (List.length (dropna (map grade data)))
           (round_sqrt_to 2 (series_std (map grade data)))
           (nunique String.eqb (map subject data)))
      (sort_by String.leb (unique String.eqb (somes (map student_id (rows df))))).

(** The trend of a student of the risk list. *)
Definition risk_student_trend (df : DataFrame) (sid : string)
  : result (option (string * pyfloat)) :=
  if has_column df "week" || has_column df "date" then
    let student_data := select (student_is (Some sid)) df in
    let student_data :=
      if negb (has_column student_data "week") && has_column student_data "date"
      then assign_week_from_date student_data
      else student_data in
    if has_column student_data "week" then
      let weekly_grades := weekly_grades (rows student_data) in
      if (1 <? List.length weekly_grades)%nat then
        fit <- polyfit (arange (List.length weekly_grades)) (map snd weekly_grades) ;;
        let slope := fst fit in
        Ok (Some (if pf_gt slope (Num (1 # 10)) then "positive"
                  else if pf_lt slope (Num (-(1 # 10))) then "negative"
                  else "stable",
                  slope))
      else Ok None
    else Ok None
  else Ok None.

Definition risk_student_info (df : DataFrame) (student : StudentStats.t)
  : result RiskStudent.t :=
  let sid := StudentStats.student_id student in
  tr <- risk_student_trend df sid ;;
  Ok (RiskStudent.mk sid
        (StudentStats.avg_grade student)
        (StudentStats.grade_count student)
        (StudentStats.grade_std student)
        (StudentStats.subject_count student)
        (if pf_lt (StudentStats.avg_grade student) (Num 4) then "high" else "medium")
        (if has_column df "group"
         then Some (unique_cells
                      (map group (filter (student_is (Some sid)) (rows df))))
         else None)
        tr).

(** Step 5.  Without a week column the week is assigned into [df] itself. *)
Definition trends_stage : M Trends.t :=
  df <~ get ;;
  if has_column df "week" || has_column df "date" then
    _ <~ (if negb (has_column df "week")
          then put (assign_week_from_date df)
          else ret tt) ;;
    df <~ get ;;
    let weekly_trend := weekly_grades (rows df) in
    let weekly := (map fst weekly_trend, map (fun p => round_to 2 (snd p)) weekly_trend) in
    if (1 <? List.length weekly_trend)%nat then
      fit <~ lift (polyfit (arange (List.length weekly_trend)) (map snd weekly_trend)) ;;
      let (slope, intercept) := fit in
      ret (Trends.mk (Some weekly)
             (Some (Trends.mk_overall slope intercept (trend_label slope)
                      (pf_add (pf_mul slope (Num (Qlen weekly_trend))) intercept))))
    else ret (Trends.mk (Some weekly) None)
  else ret (Trends.mk None None).

Definition Qabs_gt (q c : Q) : bool := Qltb c (Qabs q).

(** The pairs [(i, j)] with [i < j < n], in the order of the two loops. *)
Definition index_pairs (n : nat) : list (nat * nat) :=
  flat_map (fun i => map (fun j => (i, j)) (seq (S i) (n - S i))) (seq 0 n).

(** Step 6, the body of [try]. *)
Definition correlation_body (df : DataFrame)
  : result (option (list Correlation.t)) :=
  pivot_data <- pivot_table_dropna df ;;
  if (1 <? List.length (pivot_columns pivot_data))%nat && (5 <? pivot_len pivot_data)%nat
  then
    corr_matrix <- pivot_corr pivot_data ;;
    let cols := pivot_columns pivot_data in
    let correlations :=
      flat_map
        (fun ij =>
           match corr_matrix (fst ij) (snd ij) with
           | NaN => []
           | Num corr_value =>
             if Qabs_gt corr_value (3 # 10)
             then [Correlation.mk (nth (fst ij) cols "") (nth (snd ij) cols "")
                     corr_value
                     (if Qabs_gt corr_value (7 # 10) then "strong"
                      else if Qabs_gt corr_value (5 # 10) then "moderate"
                      else "weak")]
             else []
           end)
        (index_pairs (List.length cols)) in
    let correlations :=
      sort_by (fun a b => Qle_bool (Qabs (Correlation.correlation b))
                                   (Qabs (Correlation.correlation a)))
              correlations in
    Ok (Some (firstn 10 correlations))
  else Ok None.

(** [try: ... except Exception as e: results[key] = f"...: {str(e)}"] *)
Definition try_field {A} (body : result (option A)) (prefix : string)
  : option (field A) :=
  match body with
  | Ok (Some v) => Some (Value v)
  | Ok None => None
  | Raise e => Some (Message (prefix ++ exn_str e))
  end.

Definition correlation_stage (df : DataFrame)
  : option (field (list Correlation.t)) :=
  try_field (correlation_body df) "Не удалось вычислить корреляции: ".

(** Step 7, the body of [try]. *)
Definition clustering_body (student_stats : list StudentStats.t)
  : result (option (list (string * ClusterInfo.t))) :=
  if (10 <=? List.length student_stats)%nat then
    let cluster_features :=
      map (fun s => (fillna (StudentStats.avg_grade s) (Num 0),
                     Num (Qnat (StudentStats.grade_count s)),
                     fillna (StudentStats.grade_std s) (Num 0)))
          student_stats in
    scaled_features <- fit_transform cluster_features ;;
    let n_clusters := Nat.min 4 (List.length student_stats / 3) in
    clusters <- fit_predict n_clusters scaled_features ;;
    if negb (List.length clusters =? List.length student_stats)%nat
    then Raise (ValueError "Length of values does not match length of index")
    else
      let labelled := combine student_stats clusters in
      Ok (Some
            (map (fun cluster_id =>
                    let cluster_data :=
                      map fst (filter (fun p => (snd p =? cluster_id)%nat) labelled) in
                    ("cluster_" ++ string_of_N (N.of_nat cluster_id),
                     ClusterInfo.mk
                       (List.length cluster_data)
                       (series_mean (map StudentStats.avg_grade cluster_data))
                       (series_std (map StudentStats.avg_grade cluster_data))
                       (firstn 10 (map StudentStats.student_id cluster_data))))
                 (seq 0 n_clusters)))
  else Ok None.

Definition clustering_stage (student_stats : list StudentStats.t)
  : option (field (list (string * ClusterInfo.t))) :=
  try_field (clustering_body student_stats) "Не удалось выполнить кластеризацию: ".

(** The students with enough records: those kept for the risk list and for
    the clustering ([student_stats] after its filter). *)
Definition kept_students (df : DataFrame) (min_records : Z)
  : list StudentStats.t :=
  filter (fun s => (min_records <=? Z.of_nat (StudentStats.grade_count s))%Z)
         (student_stats_table df).

(** The students below the risk threshold ([risk_students]). *)
Definition risk_candidates (df : DataFrame) (risk_threshold : Q)
           (min_records : Z) : list StudentStats.t :=
  filter (fun s => pf_lt (StudentStats.avg_grade s) (Num risk_threshold))
         (kept_students df min_records).

(** [analyze_performance(df, risk_threshold, min_records)].  [now] is the
    text of [datetime.now().isoformat()]. *)
Definition analyze_performance (risk_threshold : Q) (min_records : Z)
           (now : string) : M Results.t :=
  df <~ get ;;
  overall <~ lift (overall_stats df) ;;
  let by_subject := by_subject_stats df in
  let by_group := by_group_stats df in
  let student_stats := kept_students df min_records in
  let risk_students := risk_candidates df risk_threshold min_records in
  risk_list <~ lift (rmap_list (risk_student_info df) risk_students) ;;
  trends <~ trends_stage ;;
  df <~ get ;;
  let correlations := correlation_stage df in
  let clusters := clustering_stage student_stats in
  ret (Results.mk overall by_subject by_group risk_list trends now
                  correlations clusters).

End Analyzer.

(* ================================================================= *)
(** ** Vocabulary of the properties *)

(** The table has the three required columns. *)
Definition has_required (df : DataFrame) : bool :=
  has_column df "student_id" && has_column df "subject" && has_column df "grade".

(** The invariant of a cleaned row. *)
Definition clean_row (r : row) : Prop :=
  student_id r <> None /\ subject r <> None /\
  exists g, grade r = Num g /\ 1 <= g /\ g <= 10.

Definition present {A} (o : option A) : bool :=
  match o with Some _ => true | None => false end.

(** Cleaning has nothing to fill in or to overwrite: no grade is missing, no
    attendance and no group of a table that has these columns, and a table
    with a date column has none of the three columns derived from it. *)
Definition nothing_to_impute (df : DataFrame) : bool :=
  forallb (fun r =>
             negb (pf_isnan (grade r)) &&
             (negb (has_column df "attendance") || negb (pf_isnan (attendance r))) &&
             (negb (has_column df "group") || present (group r)))
          (rows df) &&
  (negb (has_column df "date") ||
   negb (has_column df "week" || has_column df "month" || has_column df "day_of_week")).

(** Ascending order of a float column with the missing values last. *)
Definition na_last_le (a b : pyfloat) : Prop :=
  match a, b with
  | Num x, Num y => x <= y
  | _, NaN => True
  | NaN, Num _ => False
  end.

(** The order of the risk list: a row [a] that stands before a row [b] has
    at least the risk score of [b], and with equal scores at most its mean
    grade. *)
Definition risk_order (a b : RiskInfo.t) : Prop :=
  (RiskInfo.risk_score b <= RiskInfo.risk_score a)%nat /\
  (RiskInfo.risk_score a = RiskInfo.risk_score b ->
   na_last_le (RiskInfo.avg_grade a) (RiskInfo.avg_grade b)).

(** The weeks follow one another without a gap. *)
Definition consecutive (weeks : list Z) : Prop :=
  forall i, (S i < List.length weeks)%nat ->
            nth (S i) weeks 0%Z = (nth i weeks 0 + 1)%Z.

(** No grade of the table is missing, as after [clean_data]. *)
Definition all_graded (data : list row) : bool :=
  forallb (fun r => negb (pf_isnan (grade r))) data.

(** How the text of the declining-trend factor begins. *)
Definition declining_prefix : string := "Снижение успеваемости".

(** The two factors of the scenario with the weekly means 8, 8, 8, 8, 4, 4:
    the slope is -32/35, the halves have the means 8 and 16/3. *)
Definition declining_text : string :=
  "Снижение успеваемости (тренд: -0.91/неделю)".
Definition sharp_drop_text : string :=
  "Резкое падение успеваемости (8.0 → 5.3)".

(* ================================================================= *)
(** ** Tables of the scenarios *)

(** Two raw rows that differ only by a missing grade. *)
Definition gap_table : DataFrame :=
  mkDF ["student_id"; "subject"; "grade"]
       [ mkRow (Some "s1") (Some "Math") NaN None None None NaN None None;
         mkRow (Some "s1") (Some "Math") (Num 8) None None None NaN None None ].

(** A raw table with a repeated row, a grade out of range and dates. *)
Definition dated_table : DataFrame :=
  mkDF ["student_id"; "subject"; "grade"; "group"; "date"; "attendance"]
       [ mkRow (Some "s1") (Some "Math") (Num 8) (Some "G1") None
               (Some (days_from_civil 2024 1 1)) (Num 1) None None;
         mkRow (Some "s1") (Some "Math") (Num 8) (Some "G1") None
               (Some (days_from_civil 2024 1 1)) (Num 1) None None;
         mkRow (Some "s2") (Some "Math") (Num 12) (Some "G1") None
               (Some (days_from_civil 2024 1 8)) (Num (1 # 2)) None None;
         mkRow (Some "s2") (Some "Physics") (Num (75 # 10)) (Some "G2") None
               (Some (days_from_civil 2024 1 8)) (Num 1) None None ].

(** Numerical calls that all fail. *)
Definition failing_numerics : Numerics :=
  {| lstsq_degenerate := fun _ _ => Raise (LinAlgError "SVD did not converge in Linear Least Squares");
     pivot_table_dropna := fun _ => Raise (ValueError "No objects to concatenate");
     fit_transform := fun _ => Raise (ValueError "Input contains NaN");
     fit_predict := fun _ _ => Raise (ValueError "n_samples should be >= n_clusters") |}.

(** Numerical calls that answer: a pivot of two subjects and six students
    whose correlation is 0.8, features passed through, and the students
    assigned to the clusters in turn. *)
Definition answering_numerics : Numerics :=
  {| lstsq_degenerate := fun _ _ => Ok (NaN, NaN);
     pivot_table_dropna := fun _ =>
       Ok (mkPivot ["Math"; "Physics"] 6
                   (Ok (fun i j => if (i =? j)%nat then Num 1 else Num (8 # 10))));
     fit_transform := fun features =>
       Ok (map (fun f => [fst (fst f); snd (fst f); snd f]) features);
     fit_predict := fun n_clusters scaled =>
       Ok (map (fun i => (i mod n_clusters)%nat) (seq 0 (List.length scaled))) |}.

Definition weekly_row (sid subj : string) (w : Z) (g : Q) : row :=
  mkRow (Some sid) (Some subj) (Num g) None (Some w) None NaN None None.

(** Student A has the weekly means 8, 8, 8, 8, 4, 4; D and B are below the
    threshold 5; C is not at risk. *)
Definition risk_table : DataFrame :=
  mkDF ["student_id"; "subject"; "grade"; "week"]
       [ weekly_row "A" "Math" 1 8; weekly_row "A" "Math" 2 8;
         weekly_row "A" "Math" 3 8; weekly_row "A" "Math" 4 8;
         weekly_row "A" "Math" 5 4; weekly_row "A" "Math" 6 4;
         weekly_row "D" "Math" 1 4; weekly_row "D" "Physics" 2 4;
         weekly_row "B" "Math" 1 3; weekly_row "B" "Math" 2 4;
         weekly_row "C" "Math" 1 9; weekly_row "C" "Math" 2 9 ].

(** One student, one subject, the weeks 1, 3 and 5. *)
Definition gap_weeks_table : DataFrame :=
  mkDF ["student_id"; "subject"; "grade"; "week"]
       [ weekly_row "A" "Math" 1 8; weekly_row "A" "Math" 3 6;
         weekly_row "A" "Math" 5 4 ].

(** [pd.DataFrame()], and a table with the required columns and no row. *)
Definition no_columns_table : DataFrame := mkDF [] [].
Definition no_rows_table : DataFrame := mkDF ["student_id"; "subject"; "grade"] [].

(** A table with a date and no week. *)
Definition date_only_table : DataFrame :=
  mkDF ["student_id"; "subject"; "grade"; "date"]
       [ mkRow (Some "A") (Some "Math") (Num 5) None None
               (Some (days_from_civil 2024 1 1)) NaN None None ].

(** Ten students with one grade each. *)
Definition ten_students_table : DataFrame :=
  mkDF ["student_id"; "subject"; "grade"]
       (map (fun sid => mkRow (Some sid) (Some "Math") (Num 7) None None None NaN None None)
            ["S0"; "S1"; "S2"; "S3"; "S4"; "S5"; "S6"; "S7"; "S8"; "S9"]).

(** An uncleaned table: the second record has no subject. *)
Definition missing_subject_table : DataFrame :=
  mkDF ["student_id"; "subject"; "grade"]
       [ mkRow (Some "A") (Some "Math") (Num 9) None None None NaN None None;
         mkRow (Some "A") None (Num 3) None None None NaN None None ].

(* ================================================================= *)
(** ** Vocabulary of the further properties *)

(** What cleaning settles in a row of the table [out], beyond [clean_row]:
    the attendance and the group of a table that has these columns are
    present, and with a date column the week, the month and the weekday are
    those of the date. *)
Definition settled_row (out : DataFrame) (r : row) : Prop :=
  (has_column out "attendance" = true -> exists a, attendance r = Num a) /\
  (has_column out "group" = true -> exists g, group r = Some g) /\
  (has_column out "date" = true ->
   week r = option_map isocalendar_week (date r) /\
   month r = option_map dt_month (date r) /\
   day_of_week r = option_map dt_day_name (date r)).




(** The week [predict_final_grades] works with: the one passed, or the
    greatest week of the table, or 10 for a table without weeks. *)
Definition resolved_week (df : DataFrame) (current_week : option Z)
  : week_number :=
  match current_week with
  | Some z => PyInt z
  | None => if has_column df "week" then NpNumber (max_week df) else PyInt 10
  end.

(** A prediction [a] stands strictly before [b] in the order of the student
    identifier, then of the subject. *)
Definition prediction_lt (a b : Prediction.t) : Prop :=
  exists s j s' j',
    Prediction.student_id a = Some s /\ Prediction.subject a = Some j /\
    Prediction.student_id b = Some s' /\ Prediction.subject b = Some j' /\
    (String.ltb s s' = true \/ (s = s' /\ String.ltb j j' = true)).

(** The student and the subject of a prediction. *)
Definition prediction_key (p : Prediction.t) : option string * option string :=
  (Prediction.student_id p, Prediction.subject p).

(** The grades of the records of one student. *)
Definition student_grades (df : DataFrame) (sid : string) : list pyfloat :=
  map grade (filter (student_is (Some sid)) (rows df)).

(* ================================================================= *)
(** ** analyzer.py: [calculate_subject_statistics] *)

(** The value at the rank [(n - 1) * q] of the sorted values [v], with the
    linear interpolation between the two nearest ranks. *)
Definition rank_value (q : Q) (v : list Q) : Q :=
  let pos := Qnat (List.length v - 1) * q in
  let lo := Z.to_nat (Qfloor pos) in
  let frac := pos - inject_Z (Qfloor pos) in
  let a := nth lo v 0 in
  let b := nth (S lo) v a in
  a + (b - a) * frac.

(** [Series.quantile(q)]: missing values are skipped; NaN when nothing is
    left. *)
Definition series_quantile (q : Q) (l : list pyfloat) : pyfloat :=
  match Qsort (dropna l) with
  | [] => NaN
  | v => Num (Qred (rank_value q v))
  end.

(** [int(mask.sum())] for the mask of a condition on the grades. *)
Definition count_where (p : pyfloat -> bool) (l : list pyfloat) : nat :=
  List.length (filter p l).

(** [stats['basic']] *)
Module SubjectBasic.
Record t : Type := mk {
  mean : pyfloat;
  median : pyfloat;
  std : pysqrt;
  min : pyfloat;
  max : pyfloat;
  range : pyfloat;
  iqr : pyfloat
}.
End SubjectBasic.

(** [stats['counts']] *)
Module SubjectCounts.
Record t : Type := mk {
  total_students : nat;
  total_records : nat;
  unique_weeks : option nat    (* None without a week column *)
}.
End SubjectCounts.

(** [stats['distribution']] *)
Module SubjectDistribution.
Record t : Type := mk {
  excellent_count : nat;
  good_count : nat;
  satisfactory_count : nat;
  fail_count : nat;
  excellent_percentage : pyfloat;
  pass_percentage : pyfloat
}.
End SubjectDistribution.

(** [stats['percentiles']] *)
Module SubjectPercentiles.
Record t : Type := mk {
  p10 : pyfloat;
  p25 : pyfloat;
  p50 : pyfloat;
  p75 : pyfloat;
  p90 : pyfloat
}.
End SubjectPercentiles.

(** [stats['by_group'][group]] *)
Module SubjectGroup.
Record t : Type := mk {
  mean : pyfloat;
  count : nat;
  std : pysqrt;
  pass_rate : pyfloat
}.
End SubjectGroup.

(** [stats['trend']] *)
Module SubjectTrend.
Record t : Type := mk {
  weekly_means : list (Z * pyfloat);
  trend_slope : option pyfloat;
  volatility : pysqrt
}.
End SubjectTrend.

(** [subject_stats[subject]]; the keys 'by_group' and 'trend' are only set
    on some paths. *)
Module SubjectDetail.
Record t : Type := mk {
  basic : SubjectBasic.t;
  counts : SubjectCounts.t;
  distribution : SubjectDistribution.t;
  percentiles : SubjectPercentiles.t;
  by_group : option (list (option string * SubjectGroup.t));
  trend : option SubjectTrend.t
}.
End SubjectDetail.

Section SubjectStatistics.
Context `{Numerics}.

(** The entry of one group of a subject. *)
Definition subject_group_stats (subject_data : list row) (g : option string)
  : SubjectGroup.t :=
  let group_data := filter (group_is g) subject_data in
  let group_grades := map grade group_data in
  SubjectGroup.mk (series_mean group_grades)
                  (List.length group_data)
                  (series_std group_grades)
                  (mask_rate (map (at_least 5) group_grades)).

(** The part under [if 'week' in subject_data.columns and ...]. *)
Definition subject_trend (df : DataFrame) (subject_data : list row)
  : result (option SubjectTrend.t) :=
  if has_column df "week" && (1 <? nunique Z.eqb (map week subject_data))%nat
  then
    let weekly_avg := weekly_grades subject_data in
    slope <- (if (1 <? List.length weekly_avg)%nat
              then fit <- polyfit (arange (List.length weekly_avg))
                                  (map snd weekly_avg) ;;
                   Ok (Some (fst fit))
              else Ok None) ;;
    Ok (Some (SubjectTrend.mk
                (map (fun p => (fst p, round_to 2 (snd p))) weekly_avg)
                slope
                (series_std (map snd weekly_avg))))
  else Ok None.

(** The body of the loop, for one subject. *)
Definition subject_detail (df : DataFrame) (subj : option string)
  : result SubjectDetail.t :=
  let subject_data := filter (subject_is subj) (rows df) in
  if negb (has_column df "grade") then Raise (KeyError "grade") else
  let grades := map grade subject_data in
  let basic :=
    SubjectBasic.mk
      (series_mean grades) (series_median grades) (series_std grades)
      (series_min grades) (series_max grades)
      (pf_sub (series_max grades) (series_min grades))
      (pf_sub (series_quantile (75 # 100) grades)
              (series_quantile (25 # 100) grades)) in
  if negb (has_column df "student_id") then Raise (KeyError "student_id") else
  let counts :=
    SubjectCounts.mk
      (nunique String.eqb (map student_id subject_data))
      (List.length subject_data)
      (if has_column df "week"
       then Some (nunique Z.eqb (map week subject_data))
       else None) in
  let distribution :=
    SubjectDistribution.mk
      (count_where (at_least 9) grades)
      (count_where (fun g => at_least 7 g && pf_lt g (Num 9)) grades)
      (count_where (fun g => at_least 5 g && pf_lt g (Num 7)) grades)
      (count_where (fun g => pf_lt g (Num 5)) grades)
      (mask_rate (map (at_least 9) grades))
      (mask_rate (map (at_least 5) grades)) in
  let percentiles :=
    SubjectPercentiles.mk
      (series_quantile (10 # 100) grades)
      (series_quantile (25 # 100) grades)
      (series_quantile (50 # 100) grades)
      (series_quantile (75 # 100) grades)
      (series_quantile (90 # 100) grades) in
  let by_group :=
    if has_column df "group"
    then Some (map (fun g => (g, subject_group_stats subject_data g))
                   (unique_cells (map group subject_data)))
    else None in
  trend <- subject_trend df subject_data ;;
  Ok (SubjectDetail.mk basic counts distribution percentiles by_group trend).

(** [calculate_subject_statistics(df)]: the dictionary, in the order in
    which the subjects first appear. *)
Definition calculate_subject_statistics (df : DataFrame)
  : result (list (option string * SubjectDetail.t)) :=
  subjects <- column df "subject" subject ;;
  rmap_list (fun subj => detail <- subject_detail df subj ;; Ok (subj, detail))
            (unique_cells subjects).

End SubjectStatistics.

(* ================================================================= *)
(** ** analyzer.py: [calculate_learning_metrics] *)

(** The mean of the square roots of the values that are present: the value
    of [df.groupby('week')['grade'].std().mean()], kept symbolically. *)
Inductive std_mean : Type := MeanOfSqrt (variances : list pyfloat).

(** [100 - min(100, v * 10)] for such a mean [v], kept symbolically. *)
Inductive stability : Type := Stability (weekly_variance : std_mean).

(** [metrics['overall_efficiency']] *)
Module Efficiency.
Record t : Type := mk {
  average_grade : pyfloat;
  pass_rate : pyfloat;
  excellence_rate : pyfloat;
  failure_rate : pyfloat;
  student_subject_ratio : Q
}.
End Efficiency.

(** [metrics['grade_distribution']], by label: the shares, in percent, of
    the bins (0, 4], (4, 6], (6, 8] and (8, 10]. *)
Module GradeBins.
Record t : Type := mk {
  unsatisfactory : pyfloat;
  satisfactory : pyfloat;
  good : pyfloat;
  excellent : pyfloat
}.
End GradeBins.

(** [metrics['consistency']] *)
Module Consistency.
Record t : Type := mk {
  weekly_variance : std_mean;
  stability_score : stability
}.
End Consistency.

(** [metrics['subject_efficiency'][subject]] *)
Module SubjectEfficiency.
Record t : Type := mk {
  average_grade : pyfloat;
  pass_rate : pyfloat;
  student_count : nat;
  grade_std : pysqrt
}.
End SubjectEfficiency.

(** [metrics['improvement_metrics']] *)
Module Improvement.
Record t : Type := mk {
  first_half_avg : pyfloat;
  second_half_avg : pyfloat;
  improvement : pyfloat;
  improvement_percentage : pyfloat
}.
End Improvement.

(** The dictionary returned by [calculate_learning_metrics]; the keys
    'consistency' and 'improvement_metrics' are only set on some paths. *)
Module Metrics.
Record t : Type := mk {
  overall_efficiency : Efficiency.t;
  grade_distribution : GradeBins.t;
  consistency : option Consistency.t;
  subject_efficiency : list (option string * SubjectEfficiency.t);
  improvement_metrics : option Improvement.t
}.
End Metrics.

(** A grade falls in the bin [(lo, hi]] of [pd.cut]. *)
Definition in_bin (lo hi : Q) (g : pyfloat) : bool :=
  pf_gt g (Num lo) && pf_le g (Num hi).

(** The grades that [pd.cut(df['grade'], bins=[0, 4, 6, 8, 10])] puts in a
    bin. *)
Definition binned (l : list pyfloat) : list pyfloat := filter (in_bin 0 10) l.

(** [value_counts(normalize=True) * 100], rounded to two decimals, for one
    bin. *)
Definition bin_share (lo hi : Q) (l : list pyfloat) : pyfloat :=
  match binned l with
  | [] => NaN
  | b => round_to 2 (Num (Qred (Qlen (filter (in_bin lo hi) l) / Qlen b * 100)))
  end.

(** [df.groupby('week')['grade'].std()]: the variances, week by week. *)
Definition weekly_variances (data : list row) : list pyfloat :=
  map (fun w => series_var (map grade (filter (week_is w) data)))
      (Zsort (unique Z.eqb (somes (map week data)))).

Definition subject_efficiency (df : DataFrame) (subj : option string)
  : SubjectEfficiency.t :=
  let subject_data := filter (subject_is subj) (rows df) in
  let grades := map grade subject_data in
  SubjectEfficiency.mk
    (series_mean grades)
    (mask_rate (map (at_least 5) grades))
    (nunique String.eqb (map student_id subject_data))
    (series_std grades).

(** [df[df['week'] <= h]] and [df[df['week'] > h]] *)
Definition week_at_most (h : Z) (r : row) : bool :=
  match week r with Some w => (w <=? h)%Z | None => false end.
Definition week_above (h : Z) (r : row) : bool :=
  match week r with Some w => (h <? w)%Z | None => false end.

(** The part under [if 'week' in df.columns and df['week'].nunique() > 1]. *)
Definition improvement_metrics (df : DataFrame) : option Improvement.t :=
  if has_column df "week" && (1 <? nunique Z.eqb (map week (rows df)))%nat then
    match rev (Zsort (somes (map week (rows df)))) with
    | [] => None
    | max :: _ =>
      let half := (max / 2)%Z in
      let first_half := filter (week_at_most half) (rows df) in
      let second_half := filter (week_above half) (rows df) in
      match first_half, second_half with
      | _ :: _, _ :: _ =>
        let first_avg := series_mean (map grade first_half) in
        let second_avg := series_mean (map grade second_half) in
        let improvement := pf_sub second_avg first_avg in
        Some (Improvement.mk first_avg second_avg improvement
                (if pf_gt first_avg (Num 0)
                 then pf_mul (pf_map2 Qdiv improvement first_avg) (Num 100)
                 else Num 0))
      | _, _ => None
      end
    end
  else None.

(** [calculate_learning_metrics(df)] *)
Definition calculate_learning_metrics (df : DataFrame) : result Metrics.t :=
  ids <- column df "student_id" student_id ;;
  subjects <- column df "subject" subject ;;
  grades <- column df "grade" grade ;;
  let total_students := nunique String.eqb ids in
  let total_subjects := nunique String.eqb subjects in
  let overall :=
    Efficiency.mk
      (series_mean grades)
      (mask_rate (map (at_least 5) grades))
      (mask_rate (map (at_least 9) grades))
      (mask_rate (map (fun g => pf_lt g (Num 5)) grades))
      (if (0 <? total_subjects)%nat
       then Qred (Qnat total_students / Qnat total_subjects)
       else 0) in
  let distribution :=
    GradeBins.mk (bin_share 0 4 grades) (bin_share 4 6 grades)
                 (bin_share 6 8 grades) (bin_share 8 10 grades) in
  let consistency :=
    if has_column df "week"
    then let weekly_variance := MeanOfSqrt (weekly_variances (rows df)) in
         Some (Consistency.mk weekly_variance (Stability weekly_variance))
    else None in
  let by_subject :=
    map (fun subj => (subj, subject_efficiency df subj))
        (unique_cells subjects) in
  Ok (Metrics.mk overall distribution consistency by_subject
                 (improvement_metrics df)).

(* ================================================================= *)
(** ** analyzer.py: the two fits, for any result of [np.polyfit]

    [np.polyfit] computes in binary floating point, so its coefficients are
    those of [polyfit] only up to the last digits.  The two functions that
    fit a line are written here over a function [fit] that stands for the
    call [np.polyfit(x, y, 1)]: what is proved of them holds whatever the
    call returns or raises. *)

(** The binary64 number that the literal [-0.2] denotes: it lies below
    [-1/5], by less than [2e-17]. *)
Definition float_minus_0_2 : Q :=
  -(3602879701896397 # 18014398509481984).

(** The text of the declining-trend factor for the slope [slope]. *)
Definition declining_trend_text (slope : pyfloat) : string :=
  "Снижение успеваемости (тренд: " ++ format_f 2 slope ++ "/неделю)".

Section FitCalls.
Variable fit : list Q -> list pyfloat -> result (pyfloat * pyfloat).

(** The part of [identify_at_risk_students] guarded by
    [if 'week' in student_data.columns and ...]. *)
Definition trend_factors_with (df_copy : DataFrame) (student_data : list row)
           (min_weeks : Z) (decline_threshold : Q) : result (list string) :=
  if has_column df_copy "week" &&
     (min_weeks <=? Z.of_nat (nunique Z.eqb (map week student_data)))%Z
  then
    let weekly_grades := weekly_grades student_data in
    if (min_weeks <=? Z.of_nat (List.length weekly_grades))%Z then
      let x := arange (List.length weekly_grades) in
      let y := map snd weekly_grades in
      coefficients <- fit x y ;;
      let slope := fst coefficients in
      let declining :=
        if pf_lt slope (Num (-(2 # 10)))
        then ["Снижение успеваемости (тренд: " ++ format_f 2 slope ++ "/неделю)"]
        else [] in
      let first_half := np_mean (firstn (List.length y / 2) y) in
      let second_half := np_mean (skipn (List.length y / 2) y) in
      let sharp_drop :=
        if pf_gt (pf_sub first_half second_half) (Num decline_threshold)
        then ["Резкое падение успеваемости (" ++ format_f 1 first_half ++
              " → " ++ format_f 1 second_half ++ ")"]
        else [] in
      Ok (declining ++ sharp_drop)%list
    else Ok []
  else Ok [].

(** The body of the inner loop of [predict_final_grades]. *)
Definition predict_pair_with (df : DataFrame) (current_week : week_number)
           (sid subj : option string) : result (option Prediction.t) :=
  let subject_data := pair_data df sid subj in
  if has_column df "week" then
    if negb (has_column df "grade") then Raise (KeyError "grade") else
    let weekly_grades := weekly_grades subject_data in
    if (2 <=? List.length weekly_grades)%nat then
      let weeks := week_axis weekly_grades in
      let grades := map snd weekly_grades in
      coefficients <- fit weeks grades ;;
      let (slope, intercept) := coefficients in
      let final_grade_pred := pf_add (pf_mul slope (Num 16)) intercept in
      let final_grade_pred := clamp_grade final_grade_pred in
      let current_avg := np_mean grades in
      conf <- confidence (List.length weekly_grades) current_week ;;
      grp <- first_group df subject_data ;;
      Ok (Some (Prediction.mk sid subj current_week (List.length weekly_grades)
                              current_avg final_grade_pred conf
                              (trend_label slope) slope grp))
    else Ok None
  else Ok None.

(** The loop over the subjects of one student. *)
Definition predict_student_with (df : DataFrame) (current_week : week_number)
           (sid : option string) : result (list Prediction.t) :=
  let student_data := filter (student_is sid) (rows df) in
  if negb (has_column df "subject") then Raise (KeyError "subject") else
  found <- rmap_list (predict_pair_with df current_week sid)
                     (unique_cells (map subject student_data)) ;;
  Ok (somes found).

(** [predict_final_grades(df, current_week)] *)
Definition predict_final_grades_with (df : DataFrame) (current_week : option Z)
  : result (list Prediction.t) :=
  let current_week :=
    match current_week with
    | Some z => PyInt z
    | None => if has_column df "week" then NpNumber (max_week df) else PyInt 10
    end in
  ids <- column df "student_id" student_id ;;
  per_student <- rmap_list (predict_student_with df current_week)
                           (unique_cells ids) ;;
  Ok (sort_by prediction_before (List.concat per_student)).

End FitCalls.

(* ================================================================= *)
(** ** Further tables of the scenarios *)

(** A table with grades and no subject column. *)
Definition no_subject_table : DataFrame :=
  mkDF ["student_id"; "grade"]
       [ mkRow (Some "s1") None (Num 8) None None None NaN None None ].

(** The table [dated_table] after cleaning. *)
Definition cleaned_dated_table : DataFrame :=
  mkDF ["student_id"; "subject"; "grade"; "group"; "date"; "attendance";
        "week"; "month"; "day_of_week"]
       [ mkRow (Some "s1") (Some "Math") (Num 8) (Some "G1") (Some 1%Z)
               (Some 19723%Z) (Num 1) (Some 1%Z) (Some "Monday");
         mkRow (Some "s2") (Some "Physics") (Num (75 # 10)) (Some "G2") (Some 2%Z)
               (Some 19730%Z) (Num 1) (Some 1%Z) (Some "Monday") ].

(* ================================================================= *)
(** ** The characters of a printed number *)

(** The characters that [format_f] and [format_sqrt_f] print: the digits,
    the point, the sign and the letters of "nan". *)
Definition numeric_char (c : ascii) : bool :=
  existsb (Ascii.eqb c) (list_ascii_of_string "0123456789.-na").

Fixpoint all_numeric (s : string) : bool :=
  match s with
  | EmptyString => true
  | String c t => numeric_char c && all_numeric t
  end.

(** A text without its numeric characters. *)
Fixpoint strip_numeric (s : string) : string :=
  match s with
  | EmptyString => EmptyString
  | String c t => if numeric_char c then strip_numeric t
                  else String c (strip_numeric t)
  end.

(** The five keys of the dictionary of [generate_recommendations], and the
    advice of the [i]-th. *)
Definition recommendation_keys : list string := map fst recommendations_map.

Definition advice (i : nat) : list string :=
  nth i (map snd recommendations_map) [].

(** The text of a risk factor of the [i]-th kind, in the order of the
    checks of [identify_at_risk_students]: a fixed wording around one or two
    printed numbers. *)
Definition factor_text (i : nat) (f : string) : Prop :=
  match i with
  | 0%nat => exists v, all_numeric v = true /\
                       f = "Низкая средняя оценка (" ++ v ++ ")"
  | 1%nat => exists v, all_numeric v = true /\
                       f = "Высокая изменчивость оценок (σ=" ++ v ++ ")"
  | 2%nat => exists v, all_numeric v = true /\
                       f = "Снижение успеваемости (тренд: " ++ v ++ "/неделю)"
  | 3%nat => exists v w, all_numeric v = true /\ all_numeric w = true /\
                         f = "Резкое падение успеваемости (" ++ v ++ " → " ++ w ++ ")"
  | 4%nat => exists v, all_numeric v = true /\
                       f = "Низкая посещаемость (" ++ v ++ "%)"
  | _ => False
  end.

(** At most one factor, of the kind [i]. *)
Definition factor_slot (i : nat) (l : list string) : Prop :=
  l = [] \/ exists f, l = [f] /\ factor_text i f.

(* ================================================================= *)
(** * Properties *)

(** ** Checks of the numeric and calendar helpers *)

Example format_f_neg : format_f 2 (Num (-(32 # 35))) = "-0.91".
Proof. reflexivity. Qed.
Example format_f_one : format_f 1 (Num (16 # 3)) = "5.3".
Proof. reflexivity. Qed.
Example format_f_tie : format_f 1 (Num (25 # 100)) = "0.2".
Proof. reflexivity. Qed.
Example format_sqrt_f_ex : format_sqrt_f 2 (Sqrt (Num (64 # 15))) = "2.07".
Proof. reflexivity. Qed.
Example round_to_ex : round_to 2 (Num (20 # 3)) = Num (667 # 100).
Proof. reflexivity. Qed.
Example iso_week_2024_01_01 :
  isocalendar_week (days_from_civil 2024 1 1) = 1%Z /\
  dt_day_name (days_from_civil 2024 1 1) = "Monday".
Proof. split; reflexivity. Qed.
Example iso_week_2021_01_01 :
  isocalendar_week (days_from_civil 2021 1 1) = 53%Z /\
  dt_month (days_from_civil 2021 1 1) = 1%Z.
Proof. split; reflexivity. Qed.
Example iso_week_2023_03_15 :
  isocalendar_week (days_from_civil 2023 3 15) = 11%Z /\
  dt_day_name (days_from_civil 2023 3 15) = "Wednesday" /\
  dt_month (days_from_civil 2023 3 15) = 3%Z.
Proof. repeat split; reflexivity. Qed.
Example clean_test_data :
  clean_data test_data =
  Ok (mkDF ["student_id"; "grade"; "subject"; "attendance"]
        [ raw_row "STD001" "Math" (Num (85 # 10)) (Num 1);
          raw_row "STD003" "Physics" (Num (75 # 10)) (Num (8 # 10)) ]).
Proof. reflexivity. Qed.

(* ================================================================= *)
(** ** Results and lists *)

Lemma rmap_list_ok {A B} (f : A -> result B) (l : list A) (bs : list B) :
  rmap_list f l = Ok bs -> Forall2 (fun a b => f a = Ok b) l bs.
Proof.
  revert bs; induction l as [|a t IH]; simpl; intros bs E.
  - injection E as <-. constructor.
  - destruct (f a) as [b|e] eqn:Ea; simpl in E; [|discriminate].
    destruct (rmap_list f t) as [bs'|e] eqn:Et; simpl in E; [|discriminate].
    injection E as <-. constructor; auto.
Qed.

Lemma rmap_list_total {A B} (f : A -> result B) (l : list A) :
  Forall (fun a => exists b, f a = Ok b) l -> exists bs, rmap_list f l = Ok bs.
Proof.
  induction 1 as [|a t [b Eb] _ [bs Ebs]]; simpl.
  - now exists [].
  - rewrite Eb; simpl. rewrite Ebs; simpl. now exists (b :: bs).
Qed.

Lemma in_somes {A} (l : list (option A)) (x : A) :
  In x (somes l) <-> In (Some x) l.
Proof.
  induction l as [|[y|] t IH]; simpl.
  - tauto.
  - rewrite IH. split; intros [E|E]; auto; left; congruence.
  - rewrite IH. split; [auto|]. intros [E|E]; [discriminate|auto].
Qed.

(* ----------------------------------------------------------------- *)
(** *** [unique]: the loop and its description *)

Section UniqueFacts.
Context {A : Type} (eqb : A -> A -> bool).

Let step (seen : list A) (x : A) : list A :=
  if mem eqb x seen then seen else (seen ++ [x])%list.

Lemma existsb_false_forall (p : A -> bool) (l : list A) :
  existsb p l = false <-> Forall (fun a => p a = false) l.
Proof.
  induction l as [|a t IH]; simpl.
  - split; auto.
  - rewrite orb_false_iff, IH. split.
    + intros [? ?]; constructor; auto.
    + intros F; inversion F; auto.
Qed.

Lemma ForallOrdPairs_snoc (R : A -> A -> Prop) (l : list A) (x : A) :
  ForallOrdPairs R l -> Forall (fun a => R a x) l ->
  ForallOrdPairs R (l ++ [x]).
Proof.
  induction 1 as [|a t Ha Ht IH]; simpl; intros F.
  - constructor; constructor.
  - inversion F; subst. constructor; auto.
    apply Forall_app; split; auto.
Qed.

(** Every element the loop keeps differs from those kept before it. *)
Lemma unique_loop_distinct (l seen : list A) :
  ForallOrdPairs (fun a b => eqb b a = false) seen ->
  ForallOrdPairs (fun a b => eqb b a = false) (fold_left step l seen).
Proof.
  revert seen; induction l as [|x t IH]; simpl; intros seen D; auto.
  apply IH. unfold step. destruct (mem eqb x seen) eqn:E; auto.
  apply ForallOrdPairs_snoc; auto.
  now apply existsb_false_forall.
Qed.

Lemma unique_distinct (l : list A) :
  ForallOrdPairs (fun a b => eqb b a = false) (unique eqb l).
Proof. apply unique_loop_distinct. constructor. Qed.

Lemma unique_loop_incl (l seen : list A) (x : A) :
  In x (fold_left step l seen) -> In x seen \/ In x l.
Proof.
  revert seen; induction l as [|y t IH]; simpl; intros seen I; auto.
  apply IH in I. unfold step in I.
  destruct (mem eqb y seen); [tauto|].
  destruct I as [I|I]; auto.
  apply in_app_or in I; simpl in I. tauto.
Qed.

Lemma unique_incl (l : list A) (x : A) : In x (unique eqb l) -> In x l.
Proof. intros I. apply unique_loop_incl in I. simpl in I. tauto. Qed.

Hypothesis eqb_eq : forall x y, eqb x y = true <-> x = y.

Lemma eqb_same (x : A) : eqb x x = true.
Proof. now apply eqb_eq. Qed.

Lemma eqb_swap (x y : A) : eqb x y = eqb y x.
Proof.
  destruct (eqb x y) eqn:E, (eqb y x) eqn:F; auto.
  - apply eqb_eq in E; subst. now rewrite eqb_same in F.
  - apply eqb_eq in F; subst. now rewrite eqb_same in E.
Qed.

Lemma filter_filter_comm (p q : A -> bool) (l : list A) :
  filter p (filter q l) = filter q (filter p l).
Proof.
  induction l as [|a t IH]; simpl; auto.
  destruct (p a) eqn:P, (q a) eqn:Q; simpl; rewrite ?P, ?Q, IH; auto.
Qed.

Lemma filter_all_true (p : A -> bool) (l : list A) :
  (forall y, In y l -> p y = true) -> filter p l = l.
Proof.
  induction l as [|a t IH]; simpl; intros F; auto.
  rewrite (F a), IH; auto.
Qed.

Lemma dedup_first_filter (p : A -> bool) (l : list A) :
  dedup_first eqb (filter p l) = filter p (dedup_first eqb l).
Proof.
  induction l as [|x t IH]; simpl; auto.
  destruct (p x) eqn:P; simpl.
  - rewrite IH. f_equal. apply filter_filter_comm.
  - rewrite IH, filter_filter_comm.
    symmetry. apply filter_all_true. intros y I.
    apply filter_In in I as [_ Py].
    destruct (eqb x y) eqn:E; auto.
    apply eqb_eq in E; subst. congruence.
Qed.

Lemma unique_loop_dedup (l seen : list A) :
  fold_left step l seen =
  (seen ++ dedup_first eqb (filter (fun x => negb (mem eqb x seen)) l))%list.
Proof.
  revert seen; induction l as [|x t IH]; simpl; intros seen.
  - now rewrite app_nil_r.
  - unfold step at 2. destruct (mem eqb x seen) eqn:E; simpl.
    + apply IH.
    + rewrite IH, <- app_assoc. simpl. do 2 f_equal.
      rewrite <- dedup_first_filter, filter_filter_comm.
      f_equal. rewrite <- filter_filter_comm.
      set (g := fun y => negb (eqb x y) && negb (mem eqb y seen)).
      transitivity (filter g t).
      * apply filter_ext. intros y. unfold g, mem.
        rewrite existsb_app; simpl. rewrite orb_false_r, negb_orb.
        rewrite (eqb_swap y x). apply andb_comm.
      * clear. induction t as [|a t IH]; simpl; auto. unfold g at 1.
        destruct (mem eqb a seen); simpl.
        -- rewrite andb_false_r. auto.
        -- rewrite andb_true_r. destruct (eqb x a); simpl; rewrite IH; auto.
Qed.

(** The loop computes the list described by [dedup_first]. *)
Lemma unique_dedup_first (l : list A) : unique eqb l = dedup_first eqb l.
Proof.
  unfold unique. fold step. rewrite unique_loop_dedup. simpl.
  f_equal. clear. induction l; simpl; congruence.
Qed.

Lemma dedup_first_incl (l : list A) (x : A) :
  In x (dedup_first eqb l) -> In x l.
Proof.
  revert x; induction l as [|a t IH]; simpl; auto.
  intros x [E|I]; auto. apply filter_In in I as [I _]. auto.
Qed.

Lemma dedup_first_NoDup (l : list A) : NoDup (dedup_first eqb l).
Proof.
  induction l as [|a t IH]; simpl; constructor.
  - intros I. apply filter_In in I as [_ E]. now rewrite eqb_same in E.
  - now apply NoDup_filter.
Qed.
End UniqueFacts.

Lemma NoDup_firstn_of {A} (n : nat) (l : list A) : NoDup l -> NoDup (firstn n l).
Proof.
  revert n; induction l as [|a t IH]; intros [|n] N; simpl; try constructor.
  - inversion N; subst. intros I. apply H1. revert I. clear.
    revert n; induction t as [|b t IH]; intros [|n]; simpl; try tauto.
    intros [E|I]; eauto.
  - inversion N; auto.
Qed.

(* ================================================================= *)
(** ** [generate_recommendations] *)

Lemma collect_inner (factor : string) (m : list (string * list string))
      (acc : list string) :
  fold_left
    (fun recommendations entry =>
       let '(key, rec_list) := entry in
       if contains key factor
       then (recommendations ++ rec_list)%list else recommendations)
    m acc =
  (acc ++ List.concat
     (map snd (filter (fun entry => contains (fst entry) factor) m)))%list.
Proof.
  revert acc; induction m as [|[key recs] t IH]; simpl; intros acc.
  - now rewrite app_nil_r.
  - rewrite IH. destruct (contains key factor); simpl; auto.
    now rewrite app_assoc.
Qed.

Lemma collect_outer (m : list (string * list string))
      (risk_factors acc : list string) :
  fold_left
    (fun recommendations factor =>
       fold_left
         (fun recommendations entry =>
            let '(key, rec_list) := entry in
            if contains key factor
            then (recommendations ++ rec_list)%list else recommendations)
         m recommendations)
    risk_factors acc =
  (acc ++ List.concat
     (map (fun factor =>
             List.concat
               (map snd (filter (fun entry => contains (fst entry) factor) m)))
          risk_factors))%list.
Proof.
  revert acc; induction risk_factors as [|f t IH]; intros acc.
  - simpl. now rewrite app_nil_r.
  - cbn [fold_left map List.concat].
    rewrite IH, collect_inner. now rewrite app_assoc.
Qed.

Lemma collect_recommendations_concat (risk_factors : list string) :
  collect_recommendations risk_factors =
  List.concat (map matched_lists risk_factors).
Proof. apply (collect_outer recommendations_map). Qed.

(** C8.  [generate_recommendations] returns at most five entries, without a
    duplicate, and they are the remediation lists of the matched keys,
    concatenated factor by factor, de-duplicated keeping each first
    occurrence (and cut after the fifth). *)
Theorem generate_recommendations_bounded_distinct (risk_factors : list string) :
  (List.length (generate_recommendations risk_factors) <= 5)%nat /\
  NoDup (generate_recommendations risk_factors) /\
  generate_recommendations risk_factors = recommendations_spec risk_factors.
Proof.
  assert (E : generate_recommendations risk_factors
              = recommendations_spec risk_factors).
  { unfold generate_recommendations, recommendations_spec.
    rewrite collect_recommendations_concat.
    now rewrite (unique_dedup_first String.eqb String.eqb_eq). }
  split; [|split]; auto.
  - unfold generate_recommendations. apply firstn_le_length.
  - rewrite E. apply NoDup_firstn_of, dedup_first_NoDup, String.eqb_eq.
Qed.

(* ================================================================= *)
(** ** [clean_data] *)

Lemma ForallOrdPairs_filter {A} (R : A -> A -> Prop) (p : A -> bool) (l : list A) :
  ForallOrdPairs R l -> ForallOrdPairs R (filter p l).
Proof.
  induction 1 as [|a t Ha Ht IH]; simpl; [constructor|].
  destruct (p a); auto. constructor; auto.
  rewrite Forall_forall in *. intros x I. apply filter_In in I as [I _]. auto.
Qed.

Lemma ForallOrdPairs_map {A B} (R : B -> B -> Prop) (f : A -> B) (l : list A) :
  ForallOrdPairs (fun a b => R (f a) (f b)) l -> ForallOrdPairs R (map f l).
Proof.
  induction 1 as [|a t Ha Ht IH]; simpl; constructor; auto.
  rewrite Forall_forall in *. intros x I.
  apply in_map_iff in I as (y & <- & I). auto.
Qed.

Lemma ForallOrdPairs_impl_in {A} (R S : A -> A -> Prop) (l : list A) :
  (forall a b, In a l -> In b l -> R a b -> S a b) ->
  ForallOrdPairs R l -> ForallOrdPairs S l.
Proof.
  intros I F. induction F as [|a t Ha Ht IH]; constructor.
  - rewrite Forall_forall in *. intros x Ix. apply I; simpl; auto.
  - apply IH. intros; apply I; simpl; auto.
Qed.

Lemma opt_eqb_sym {A} (eqb : A -> A -> bool) (a b : option A) :
  (forall x y, eqb x y = eqb y x) -> opt_eqb eqb a b = opt_eqb eqb b a.
Proof. intros S. destruct a, b; simpl; auto. Qed.

Lemma pf_same_sym (a b : pyfloat) : pf_same a b = pf_same b a.
Proof. destruct a, b; simpl; auto. apply Qeq_bool_comm. Qed.

Lemma row_eqb_sym (a b : row) : row_eqb a b = row_eqb b a.
Proof.
  unfold row_eqb.
  rewrite (opt_eqb_sym String.eqb (student_id a) _ String.eqb_sym).
  rewrite (opt_eqb_sym String.eqb (subject a) _ String.eqb_sym).
  rewrite (opt_eqb_sym String.eqb (group a) _ String.eqb_sym).
  rewrite (opt_eqb_sym String.eqb (day_of_week a) _ String.eqb_sym).
  rewrite (opt_eqb_sym Z.eqb (week a) _ Z.eqb_sym).
  rewrite (opt_eqb_sym Z.eqb (date a) _ Z.eqb_sym).
  rewrite (opt_eqb_sym Z.eqb (month a) _ Z.eqb_sym).
  now rewrite (pf_same_sym (grade a)), (pf_same_sym (attendance a)).
Qed.

Lemma same_row_sym (cols : list string) (a b : row) :
  same_row cols a b = same_row cols b a.
Proof. apply row_eqb_sym. Qed.

Lemma drop_duplicates_no_duplicate_rows (df : DataFrame) :
  no_duplicate_rows (drop_duplicates df).
Proof.
  unfold no_duplicate_rows, drop_duplicates; simpl.
  eapply ForallOrdPairs_impl_in; [|apply unique_distinct].
  intros a b _ _ E. now rewrite same_row_sym.
Qed.

Lemma existsb_add_column (cols : list string) (c d : string) :
  existsb (String.eqb c) (add_column cols d) =
  existsb (String.eqb c) cols || String.eqb c d.
Proof.
  unfold add_column. destruct (existsb (String.eqb d) cols) eqn:E.
  - destruct (String.eqb c d) eqn:F; [|now rewrite orb_false_r].
    apply String.eqb_eq in F; subst. now rewrite E.
  - rewrite existsb_app; simpl. now rewrite orb_false_r.
Qed.

Lemma clean_row_student_id_astype_str (r : row) :
  clean_row r -> clean_row (student_id_astype_str r).
Proof. intros (S & J & G). repeat split; auto. simpl. discriminate. Qed.

Lemma clean_row_group_astype_str (r : row) :
  clean_row r -> clean_row (group_astype_str r).
Proof. intros (S & J & G). repeat split; auto. Qed.

Lemma clean_row_derive_date_fields (r : row) :
  clean_row r -> clean_row (derive_date_fields r).
Proof. intros (S & J & G). repeat split; auto. Qed.

Lemma clean_row_selected (r : row) :
  important_present r = true -> grade_in_range r = true -> clean_row r.
Proof.
  unfold important_present, grade_in_range, clean_row.
  destruct (student_id r), (grade r) as [|g], (subject r); try discriminate.
  intros _ R. apply andb_true_iff in R as [L U].
  simpl in L, U. apply Qle_bool_iff in L, U.
  repeat split; try discriminate. now exists g.
Qed.

Lemma has_column_same (a b : DataFrame) (c : string) :
  columns a = columns b -> has_column a c = has_column b c.
Proof. unfold has_column. now intros ->. Qed.

Lemma set_grade_same (r : row) : set_grade (grade r) r = r.
Proof. now destruct r. Qed.

Lemma set_attendance_same (r : row) : set_attendance (attendance r) r = r.
Proof. now destruct r. Qed.

Lemma map_same_in {A} (f : A -> A) (l : list A) :
  (forall a, In a l -> f a = a) -> map f l = l.
Proof.
  intros E. rewrite <- (map_id l) at 2. now apply map_ext_in.
Qed.

Ltac eval_string_eqb :=
  repeat match goal with
         | |- context [String.eqb ?a ?b] =>
           let v := eval vm_compute in (String.eqb a b) in
           lazymatch v with
           | true => change (String.eqb a b) with true
           | false => change (String.eqb a b) with false
           end
         end.

(** A derived column cannot make two rows equal that differed before, when
    the table had none of the derived columns. *)
Lemma same_row_derive_date_fields (cols : list string) (a b : row) :
  existsb (String.eqb "week") cols = false ->
  existsb (String.eqb "month") cols = false ->
  existsb (String.eqb "day_of_week") cols = false ->
  same_row cols a b = false ->
  same_row (add_column (add_column (add_column cols "week") "month") "day_of_week")
           (derive_date_fields a) (derive_date_fields b) = false.
Proof.
  intros W M D. unfold same_row, row_eqb.
  cbv beta zeta delta [restrict derive_date_fields].
  cbn [student_id subject grade group week date attendance month day_of_week].
  rewrite !existsb_add_column, W, M, D. eval_string_eqb.
  rewrite !orb_false_r. cbn [opt_eqb orb]. rewrite !andb_true_r.
  repeat match goal with
         | |- context [opt_eqb ?f ?x ?y] => generalize (opt_eqb f x y); intro
         | |- context [pf_same ?x ?y] => generalize (pf_same x y); intro
         end.
  repeat match goal with c : bool |- _ => destruct c end;
    simpl; congruence.
Qed.

Lemma columns_fill_attendance (df : DataFrame) :
  columns (fill_attendance df) = columns df.
Proof. unfold fill_attendance. now destruct (has_column df "attendance"). Qed.

Lemma columns_keep_valid_grades (df : DataFrame) :
  columns (keep_valid_grades df) = columns df.
Proof. unfold keep_valid_grades. now destruct (has_column df "grade"). Qed.

Lemma columns_convert_types (df : DataFrame) :
  columns (convert_types df) = columns df.
Proof.
  unfold convert_types.
  destruct (has_column df "student_id"); simpl;
    match goal with |- context [has_column ?d "group"] =>
      destruct (has_column d "group") end; reflexivity.
Qed.

Lemma fill_grades_ok (df : DataFrame) :
  has_column df "grade" = true -> has_column df "subject" = true ->
  exists out, fill_grades df = Ok out /\ columns out = columns df /\
    (Forall (fun r => grade r <> NaN) (rows df) -> rows out = rows df).
Proof.
  intros G S. unfold fill_grades. rewrite G, S.
  eexists; split; [reflexivity|]. split; [reflexivity|].
  intros F. simpl. apply map_same_in. intros r I.
  rewrite Forall_forall in F. specialize (F r I).
  destruct (grade r) eqn:E; [congruence|]. simpl.
  rewrite <- E. apply set_grade_same.
Qed.

Lemma rows_fill_attendance (df : DataFrame) :
  Forall (fun r => has_column df "attendance" = true -> attendance r <> NaN)
         (rows df) ->
  rows (fill_attendance df) = rows df.
Proof.
  intros F. unfold fill_attendance.
  destruct (has_column df "attendance") eqn:A; auto. simpl.
  apply map_same_in. intros r I.
  rewrite Forall_forall in F. specialize (F r I eq_refl).
  destruct (attendance r) eqn:E; [congruence|]. simpl.
  rewrite <- E. apply set_attendance_same.
Qed.

Lemma dropna_important_ok (df : DataFrame) :
  has_required df = true ->
  dropna_important df = Ok (select important_present df).
Proof.
  unfold has_required, dropna_important, important_columns. intros R.
  apply andb_true_iff in R as [R Hg]. apply andb_true_iff in R as [Hs Hj].
  simpl. now rewrite Hs, Hj, Hg.
Qed.

Lemma rows_convert_types (df : DataFrame) :
  Forall (fun r => student_id r <> None /\
                   (has_column df "group" = true -> group r <> None)) (rows df) ->
  rows (convert_types df) = rows df.
Proof.
  intros F. rewrite Forall_forall in F. unfold convert_types.
  assert (E1 : map student_id_astype_str (rows df) = rows df).
  { apply map_same_in. intros r I. destruct (F r I) as [S _].
    destruct r as [[s|] ? ? ? ? ? ? ? ?]; cbn in S |- *; [reflexivity|congruence]. }
  assert (E2 : has_column df "group" = true ->
               map group_astype_str (rows df) = rows df).
  { intros G. apply map_same_in. intros r I. destruct (F r I) as [_ S].
    specialize (S G).
    destruct r as [? ? ? [g|] ? ? ? ? ?]; cbn in S |- *; [reflexivity|congruence]. }
  destruct (has_column df "student_id"); simpl.
  - change (has_column (map_rows student_id_astype_str df) "group")
      with (has_column df "group").
    destruct (has_column df "group"); simpl; rewrite ?map_map.
    + rewrite <- map_map, E1. auto.
    + auto.
  - destruct (has_column df "group"); simpl; auto.
Qed.

Lemma clean_rows_convert_types (df : DataFrame) :
  Forall clean_row (rows df) -> Forall clean_row (rows (convert_types df)).
Proof.
  intros F. unfold convert_types.
  destruct (has_column df "student_id"); simpl;
    match goal with |- context [has_column ?d "group"] =>
      destruct (has_column d "group") end; simpl; auto;
    rewrite ?Forall_map; rewrite ?Forall_forall in *; intros r I;
    auto using clean_row_student_id_astype_str, clean_row_group_astype_str.
Qed.

Lemma clean_rows_add_date_fields (df : DataFrame) :
  Forall clean_row (rows df) -> Forall clean_row (rows (add_date_fields df)).
Proof.
  intros F. unfold add_date_fields. destruct (has_column df "date"); auto.
  simpl. rewrite Forall_map. rewrite Forall_forall in *.
  auto using clean_row_derive_date_fields.
Qed.

Lemma no_duplicate_rows_add_date_fields (df : DataFrame) :
  (has_column df "date" = true ->
   has_column df "week" = false /\ has_column df "month" = false /\
   has_column df "day_of_week" = false) ->
  no_duplicate_rows df -> no_duplicate_rows (add_date_fields df).
Proof.
  intros C N. unfold add_date_fields. destruct (has_column df "date"); auto.
  destruct (C eq_refl) as (W & M & D).
  unfold no_duplicate_rows in *. simpl.
  apply ForallOrdPairs_map.
  eapply ForallOrdPairs_impl_in; [|exact N].
  intros a b _ _. now apply same_row_derive_date_fields.
Qed.

Lemma nothing_to_impute_rows (df : DataFrame) (r : row) :
  nothing_to_impute df = true -> In r (rows df) ->
  grade r <> NaN /\
  (has_column df "attendance" = true -> attendance r <> NaN) /\
  (has_column df "group" = true -> group r <> None).
Proof.
  unfold nothing_to_impute. intros N I.
  apply andb_true_iff in N as [N _].
  rewrite forallb_forall in N. specialize (N r I).
  apply andb_true_iff in N as [N G]. apply andb_true_iff in N as [N A].
  repeat split.
  - destruct (grade r); [discriminate|congruence].
  - intros E. rewrite E in A. destruct (attendance r); [discriminate|congruence].
  - intros E. rewrite E in G. destruct (group r); [congruence|discriminate].
Qed.

Lemma nothing_to_impute_date (df : DataFrame) :
  nothing_to_impute df = true -> has_column df "date" = true ->
  has_column df "week" = false /\ has_column df "month" = false /\
  has_column df "day_of_week" = false.
Proof.
  unfold nothing_to_impute. intros N D.
  apply andb_true_iff in N as [_ N]. rewrite D in N. simpl in N.
  apply negb_true_iff in N.
  apply orb_false_iff in N as [N ?]. apply orb_false_iff in N as [? ?]. auto.
Qed.

(** C1, as the code has it.  On a table with the three required columns
    [clean_data] returns a table in which every row has a student, a subject
    and a grade between 1 and 10.  The duplicates of the raw table are
    removed before anything is filled in, so the returned table is free of
    duplicate rows when cleaning has nothing to fill in or overwrite. *)
Theorem clean_data_rows_valid (df : DataFrame) :
  has_required df = true ->
  exists out, clean_data df = Ok out /\ Forall clean_row (rows out) /\
              (nothing_to_impute df = true -> no_duplicate_rows out).
Proof.
  intros R. pose proof R as R'. unfold has_required in R'.
  apply andb_true_iff in R' as [R' Hg]. apply andb_true_iff in R' as [Hs Hj].
  set (d0 := drop_duplicates df).
  destruct (fill_grades_ok d0 Hg Hj) as (d1 & E1 & C1 & K1).
  set (d2 := fill_attendance d1).
  assert (C2 : columns d2 = columns df).
  { unfold d2. now rewrite columns_fill_attendance, C1. }
  assert (R2 : has_required d2 = true).
  { unfold has_required. now rewrite !(has_column_same d2 df _ C2). }
  set (d3 := select important_present d2).
  assert (E4 : keep_valid_grades d3 = select grade_in_range d3).
  { unfold keep_valid_grades.
    change (has_column d3 "grade") with (has_column d2 "grade").
    now rewrite (has_column_same d2 df _ C2), Hg. }
  exists (add_date_fields (convert_types (keep_valid_grades d3))).
  split; [|split].
  - unfold clean_data. fold d0. rewrite E1. cbn [rbind]. fold d2.
    now rewrite (dropna_important_ok d2 R2).
  - apply clean_rows_add_date_fields, clean_rows_convert_types.
    rewrite E4. simpl. rewrite Forall_forall. intros r I.
    apply filter_In in I as [I G]. apply filter_In in I as [_ P].
    now apply clean_row_selected.
  - intros N.
    assert (In0 : forall r, In r (rows d0) -> In r (rows df)).
    { intros r I. apply unique_incl in I. exact I. }
    assert (K2 : rows d2 = rows d0).
    { unfold d2. rewrite rows_fill_attendance.
      - apply K1. rewrite Forall_forall. intros r I.
        now apply (nothing_to_impute_rows df r N), In0.
      - rewrite K1.
        + rewrite Forall_forall. intros r I.
          rewrite (has_column_same d1 df _ C1).
          now apply (nothing_to_impute_rows df r N), In0.
        + rewrite Forall_forall. intros r I.
          now apply (nothing_to_impute_rows df r N), In0. }
    assert (C4 : columns (keep_valid_grades d3) = columns df).
    { now rewrite columns_keep_valid_grades. }
    apply no_duplicate_rows_add_date_fields.
    + assert (C5 : columns (convert_types (keep_valid_grades d3)) = columns df).
      { now rewrite columns_convert_types. }
      rewrite !(has_column_same _ df _ C5).
      now apply nothing_to_impute_date.
    + unfold no_duplicate_rows.
      rewrite columns_convert_types, rows_convert_types, C4.
      * rewrite E4. simpl. rewrite K2.
        apply ForallOrdPairs_filter, ForallOrdPairs_filter.
        apply (drop_duplicates_no_duplicate_rows df).
      * rewrite Forall_forall. intros r I.
        rewrite (has_column_same _ df _ C4).
        rewrite E4 in I. simpl in I. rewrite K2 in I.
        apply filter_In in I as [I _]. apply filter_In in I as [I P].
        split.
        -- unfold important_present in P.
           destruct (student_id r); discriminate.
        -- now apply (nothing_to_impute_rows df r N), In0.
Qed.

(** The property C1 as the specification words it fails: after the missing
    grade of [gap_table] is filled with the median of its subject, the two
    rows of the cleaned table are identical. *)
Lemma clean_data_duplicate_after_fill :
  has_required gap_table = true /\
  exists out, clean_data gap_table = Ok out /\ ~ no_duplicate_rows out.
Proof.
  split; [reflexivity|].
  eexists. split; [vm_compute; reflexivity|].
  unfold no_duplicate_rows; simpl. intros N.
  inversion N as [|a l F _]; subst.
  inversion F as [|b l' E _]; subst.
  vm_compute in E. discriminate.
Qed.

Lemma clean_data_rows_valid_witness :
  exists out, clean_data dated_table = Ok out /\
              Forall clean_row (rows out) /\ no_duplicate_rows out.
Proof.
  destruct (clean_data_rows_valid dated_table eq_refl) as (out & E & V & N).
  exists out. split; [exact E|]. split; [exact V|]. apply N. reflexivity.
Defined.

Example clean_dated_table :
  clean_data dated_table =
  Ok (mkDF ["student_id"; "subject"; "grade"; "group"; "date"; "attendance";
            "week"; "month"; "day_of_week"]
        [ mkRow (Some "s1") (Some "Math") (Num 8) (Some "G1") (Some 1%Z)
                (Some 19723%Z) (Num 1) (Some 1%Z) (Some "Monday");
          mkRow (Some "s2") (Some "Physics") (Num (75 # 10)) (Some "G2") (Some 2%Z)
                (Some 19730%Z) (Num 1) (Some 1%Z) (Some "Monday") ]).
Proof. reflexivity. Qed.

(* ================================================================= *)
(** ** Sorting *)

Section SortFacts.
Context {A : Type} (before : A -> A -> bool).

Lemma insert_by_perm (x : A) (l : list A) :
  Permutation (insert_by before x l) (x :: l).
Proof.
  induction l as [|y t IH]; simpl; auto.
  destruct (before x y); auto.
  rewrite IH. apply perm_swap.
Qed.

Lemma sort_by_perm (l : list A) : Permutation (sort_by before l) l.
Proof.
  induction l as [|x t IH]; simpl; auto.
  rewrite insert_by_perm. now constructor.
Qed.

Lemma in_sort_by (l : list A) (x : A) : In x (sort_by before l) <-> In x l.
Proof.
  split; apply Permutation_in;
    [apply sort_by_perm | apply Permutation_sym, sort_by_perm].
Qed.

Hypothesis before_total : forall a b, before a b = true \/ before b a = true.
Hypothesis before_trans :
  forall a b c, before a b = true -> before b c = true -> before a c = true.

Lemma insert_by_sorted (x : A) (l : list A) :
  StronglySorted (fun a b => before a b = true) l ->
  StronglySorted (fun a b => before a b = true) (insert_by before x l).
Proof.
  induction 1 as [|y t St IH Fy]; simpl.
  - repeat constructor.
  - destruct (before x y) eqn:E.
    + constructor; [constructor; auto|].
      constructor; auto.
      rewrite Forall_forall in *. eauto.
    + constructor; auto.
      rewrite Forall_forall in *. intros z I.
      apply (Permutation_in _ (insert_by_perm x t)) in I.
      destruct I as [<-|I]; auto.
      destruct (before_total x y); congruence.
Qed.

Lemma sort_by_sorted (l : list A) :
  StronglySorted (fun a b => before a b = true) (sort_by before l).
Proof.
  induction l as [|x t IH]; simpl; [constructor|].
  now apply insert_by_sorted.
Qed.
End SortFacts.

Lemma StronglySorted_impl {A} (R S : A -> A -> Prop) (l : list A) :
  (forall a b, R a b -> S a b) -> StronglySorted R l -> StronglySorted S l.
Proof.
  intros I. induction 1 as [|a t St IH F]; constructor; auto.
  rewrite Forall_forall in *. auto.
Qed.

(* ================================================================= *)
(** ** The least-squares line *)

Lemma Qlen_cons {A} (a : A) (l : list A) : Qlen (a :: l) == Qlen l + 1.
Proof.
  unfold Qlen, Qnat. cbn [List.length].
  rewrite Nat2Z.inj_succ, <- Z.add_1_r, inject_Z_plus. reflexivity.
Qed.

Lemma Qlen_nonneg {A} (l : list A) : 0 <= Qlen l.
Proof.
  unfold Qlen, Qnat. change 0 with (inject_Z 0).
  rewrite <- Zle_Qle. lia.
Qed.

Lemma Qsquare_nonneg (x : Q) : 0 <= x * x.
Proof. nra. Qed.

Lemma Qsum_squares_nonneg {A} (f : A -> Q) (l : list A) :
  0 <= Qsum (map (fun v => f v * f v) l).
Proof.
  induction l as [|a t IH]; simpl; [apply Qle_refl|].
  apply (Qplus_le_compat 0 _ 0 _); auto. apply Qsquare_nonneg.
Qed.

Lemma dot_cons (a b : Q) (x y : list Q) :
  dot (a :: x) (b :: y) == a * b + dot x y.
Proof. reflexivity. Qed.

Lemma Qsum_cons (a : Q) (x : list Q) : Qsum (a :: x) == a + Qsum x.
Proof. reflexivity. Qed.

(** The squared distances of [a] to the entries of [x]. *)
Lemma distances_expand (a : Q) (x : list Q) :
  Qsum (map (fun v => (a - v) * (a - v)) x)
  == Qlen x * (a * a) - 2 * a * Qsum x + dot x x.
Proof.
  induction x as [|b t IH].
  - unfold dot. simpl. unfold Qlen, Qnat. simpl. ring.
  - cbn [map]. rewrite Qsum_cons, IH, Qlen_cons, Qsum_cons, dot_cons. ring.
Qed.

(** Cauchy-Schwarz: the spread of the abscissae is not negative. *)
Lemma spread_nonneg (x : list Q) : 0 <= spread x.
Proof.
  unfold spread. induction x as [|a t IH].
  - unfold dot, Qlen, Qnat. simpl. apply Qle_refl.
  - rewrite Qlen_cons, dot_cons, Qsum_cons.
    assert (E : (Qlen t + 1) * (a * a + dot t t) - (a + Qsum t) * (a + Qsum t)
                == (Qlen t * dot t t - Qsum t * Qsum t)
                   + Qsum (map (fun v => (a - v) * (a - v)) t)).
    { rewrite distances_expand. ring. }
    rewrite E. apply (Qplus_le_compat 0 _ 0 _); auto.
    apply (Qsum_squares_nonneg (fun v => a - v)).
Qed.

Lemma sq_residuals_expand (m c : Q) (x y : list Q) :
  List.length x = List.length y ->
  sq_residuals m c x y
  == dot y y - 2 * m * dot x y - 2 * c * Qsum y
     + m * m * dot x x + 2 * m * c * Qsum x + Qlen x * (c * c).
Proof.
  revert y; induction x as [|a t IH]; intros [|b u] L; try discriminate.
  - unfold sq_residuals, dot, Qlen, Qnat. simpl. ring.
  - injection L as L. unfold sq_residuals in *. cbn [combine map fst snd].
    rewrite Qsum_cons, (IH u L), Qlen_cons, !dot_cons, !Qsum_cons. ring.
Qed.

Lemma Qred_eq (q : Q) : Qred q == q.
Proof. apply Qred_correct. Qed.

(** The line of [lstsq_line] has the least sum of squared residuals among
    all lines, whenever the abscissae are not all equal. *)
Lemma lstsq_line_least_squares (x y : list Q) (m' c' : Q) :
  List.length x = List.length y -> ~ spread x == 0 ->
  sq_residuals (fst (lstsq_line x y)) (snd (lstsq_line x y)) x y
  <= sq_residuals m' c' x y.
Proof.
  intros L D. unfold lstsq_line. cbn [fst snd].
  rewrite !(sq_residuals_expand _ _ x y L), !Qred_eq.
  pose proof (spread_nonneg x) as Dn.
  assert (N : ~ Qlen x == 0).
  { intros Z. apply D. unfold spread. rewrite Z.
    destruct x; [unfold Qlen, Qnat; simpl; ring|].
    exfalso. rewrite Qlen_cons in Z. pose proof (Qlen_nonneg x). lra. }
  assert (Np : 0 < Qlen x).
  { pose proof (Qlen_nonneg x). destruct (Qlt_le_dec 0 (Qlen x)); auto.
    exfalso. apply N. lra. }
  revert D Dn N Np. unfold spread.
  generalize (Qlen x) (Qsum x) (Qsum y) (dot x x) (dot x y) (dot y y).
  intros n sx sy sxx sxy syy D Dn N Np.
  set (m := (n * sxy - sx * sy) / (n * sxx - sx * sx)).
  set (c := (sy - m * sx) / n).
  apply Qle_minus_iff.
  assert (E : syy - 2 * m' * sxy - 2 * c' * sy + m' * m' * sxx
              + 2 * m' * c' * sx + n * (c' * c')
              + - (syy - 2 * m * sxy - 2 * c * sy + m * m * sxx
                   + 2 * m * c * sx + n * (c * c))
              == ((n * (c' - c) + (m' - m) * sx) * (n * (c' - c) + (m' - m) * sx)
                  + (m' - m) * (m' - m) * (n * sxx - sx * sx)) / n).
  { unfold c, m. field. split; auto. }
  rewrite E. apply Qle_shift_div_l; auto. rewrite Qmult_0_l.
  apply (Qplus_le_compat 0 _ 0 _); [apply Qsquare_nonneg|].
  apply Qmult_le_0_compat; auto. apply Qsquare_nonneg.
Qed.

(** The normal equations of the line. *)
Lemma lstsq_line_normal (x y : list Q) :
  ~ spread x == 0 ->
  let m := fst (lstsq_line x y) in
  let c := snd (lstsq_line x y) in
  Qsum y - m * Qsum x - Qlen x * c == 0 /\
  dot x y - m * dot x x - c * Qsum x == 0.
Proof.
  intros D. unfold lstsq_line. cbn [fst snd]. rewrite !Qred_eq.
  assert (N : ~ Qlen x == 0).
  { intros Z. apply D. unfold spread. rewrite Z.
    destruct x; [unfold Qlen, Qnat; simpl; ring|].
    exfalso. rewrite Qlen_cons in Z. pose proof (Qlen_nonneg x). lra. }
  revert D N. unfold spread.
  generalize (Qlen x) (Qsum x) (Qsum y) (dot x x) (dot x y).
  intros n sx sy sxx sxy D N. split; field; auto.
Qed.

Lemma spread_cons (a : Q) (t : list Q) :
  spread (a :: t) == spread t + Qsum (map (fun v => (a - v) * (a - v)) t).
Proof.
  unfold spread. rewrite Qlen_cons, dot_cons, Qsum_cons, distances_expand. ring.
Qed.

Lemma Qsum_squares_zero {A} (f : A -> Q) (l : list A) :
  Qsum (map (fun v => f v * f v) l) == 0 -> forall v, In v l -> f v == 0.
Proof.
  induction l as [|a t IH]; [simpl; tauto|].
  cbn [map]. rewrite Qsum_cons. intros Z v I.
  pose proof (Qsquare_nonneg (f a)) as Sa.
  pose proof (Qsum_squares_nonneg f t) as St.
  assert (Za : f a * f a == 0) by lra.
  assert (Zt : Qsum (map (fun v => f v * f v) t) == 0) by lra.
  destruct I as [<-|I]; auto.
  apply Qmult_integral in Za. tauto.
Qed.

(** The spread only vanishes when the abscissae are all equal. *)
Lemma spread_zero_constant (a : Q) (t : list Q) :
  spread (a :: t) == 0 -> forall v, In v t -> v == a.
Proof.
  rewrite spread_cons. intros Z v I.
  pose proof (spread_nonneg t) as St.
  pose proof (Qsum_squares_nonneg (fun v => a - v) t) as Sd.
  cbv beta in Sd.
  assert (Zd : Qsum (map (fun v => (a - v) * (a - v)) t) == 0) by lra.
  pose proof (Qsum_squares_zero (fun v => a - v) t Zd v I) as E.
  simpl in E. lra.
Qed.

Lemma spread_arange (n : nat) : (2 <= n)%nat -> ~ spread (arange n) == 0.
Proof.
  intros L Z. destruct n as [|[|n]]; try lia.
  unfold arange in Z. cbn [seq map] in Z.
  pose proof (spread_zero_constant _ _ Z (inject_Z (Z.of_nat 1))) as E.
  cbn [In] in E. specialize (E (or_introl eq_refl)).
  vm_compute in E. discriminate.
Qed.

Lemma spread_distinct_weeks (ws : list Z) :
  NoDup ws -> (2 <= List.length ws)%nat -> ~ spread (map inject_Z ws) == 0.
Proof.
  intros N L Z. destruct ws as [|a [|b t]]; simpl in L; try lia.
  cbn [map] in Z.
  pose proof (spread_zero_constant _ _ Z (inject_Z b)) as E.
  cbn [In] in E. specialize (E (or_introl eq_refl)).
  assert (Eb : b = a) by (apply inject_Z_injective; exact E). subst b.
  inversion N as [|? ? Na _]; subst. apply Na. simpl. auto.
Qed.

(** Abscissae that are the positions moved by a constant belong to weeks
    without a gap. *)
Lemma shifted_positions_consecutive (c : Q) (ws : list Z) (k : nat) :
  Forall2 Qeq (map inject_Z ws)
          (map (fun i => c + inject_Z (Z.of_nat i)) (seq k (List.length ws))) ->
  consecutive ws.
Proof.
  revert k; induction ws as [|a t IH]; intros k F i L; simpl in L; [lia|].
  cbn [List.length seq map] in F. inversion F as [|? ? ? ? Ea Ft]; subst.
  destruct i as [|j].
  - destruct t as [|b t']; simpl in L; [lia|].
    cbn [List.length seq map] in Ft. inversion Ft as [|? ? ? ? Eb _]; subst.
    cbn [nth].
    assert (E : inject_Z b == inject_Z (a + 1)).
    { change (Z.pos (Pos.of_succ_nat k)) with (Z.of_nat (S k)) in Eb.
      rewrite Nat2Z.inj_succ, <- Z.add_1_r, inject_Z_plus in Eb.
      rewrite inject_Z_plus, Ea, Eb. ring. }
    apply inject_Z_injective. exact E.
  - cbn [nth]. apply (IH (S k) Ft). lia.
Qed.

(* ================================================================= *)
(** ** [identify_at_risk_students] *)

Section AnalyzerProperties.
Context `{Numerics}.

Lemma Qle_bool_total (x y : Q) : Qle_bool x y = true \/ Qle_bool y x = true.
Proof.
  rewrite !Qle_bool_iff. destruct (Qlt_le_dec x y) as [L|L]; auto.
  left. now apply Qlt_le_weak.
Qed.

Lemma na_last_leb_le (a b : pyfloat) :
  na_last_leb a b = true <-> na_last_le a b.
Proof.
  destruct a, b; simpl; try tauto; try (split; [discriminate|tauto]).
  apply Qle_bool_iff.
Qed.

Lemma risk_before_order (a b : RiskInfo.t) :
  risk_before a b = true <-> risk_order a b.
Proof.
  unfold risk_before, risk_order.
  rewrite orb_true_iff, andb_true_iff, Nat.ltb_lt, Nat.eqb_eq, na_last_leb_le.
  split.
  - intros [L|[E N]]; split; try lia; auto.
  - intros [L N].
    destruct (Nat.eq_dec (RiskInfo.risk_score a) (RiskInfo.risk_score b)); [|lia].
    auto.
Qed.

Lemma na_last_le_total (a b : pyfloat) : na_last_le a b \/ na_last_le b a.
Proof.
  destruct a as [|x], b as [|y]; simpl; auto.
  destruct (Qlt_le_dec x y) as [L|L]; auto. left. now apply Qlt_le_weak.
Qed.

Lemma na_last_le_trans (a b c : pyfloat) :
  na_last_le a b -> na_last_le b c -> na_last_le a c.
Proof.
  destruct a, b, c; simpl; try tauto. apply Qle_trans.
Qed.

Lemma risk_before_total (a b : RiskInfo.t) :
  risk_before a b = true \/ risk_before b a = true.
Proof.
  rewrite !risk_before_order. unfold risk_order.
  destruct (lt_eq_lt_dec (RiskInfo.risk_score a) (RiskInfo.risk_score b))
    as [[L|E]|L].
  - right. split; lia.
  - destruct (na_last_le_total (RiskInfo.avg_grade a) (RiskInfo.avg_grade b)).
    + left. split; [lia|auto].
    + right. split; [lia|auto].
  - left. split; lia.
Qed.

Lemma risk_before_trans (a b c : RiskInfo.t) :
  risk_before a b = true -> risk_before b c = true -> risk_before a c = true.
Proof.
  rewrite !risk_before_order. unfold risk_order.
  intros [L1 N1] [L2 N2]. split; [lia|].
  intros E. apply na_last_le_trans with (RiskInfo.avg_grade b).
  - apply N1. lia.
  - apply N2. lia.
Qed.

Lemma assess_student_some (df_copy : DataFrame) (threshold : Q) (min_weeks : Z)
      (decline_threshold : Q) (sid : option string) (r : RiskInfo.t) :
  assess_student df_copy threshold min_weeks decline_threshold sid = Ok (Some r) ->
  RiskInfo.student_id r = sid /\
  student_risk_factors df_copy (filter (student_is sid) (rows df_copy))
                       threshold min_weeks decline_threshold
    = Ok (RiskInfo.risk_factors r) /\
  RiskInfo.risk_factors r <> [] /\
  RiskInfo.risk_score r = List.length (RiskInfo.risk_factors r) /\
  RiskInfo.avg_grade r
    = series_mean (map grade (filter (student_is sid) (rows df_copy))) /\
  RiskInfo.recommendations r = generate_recommendations (RiskInfo.risk_factors r).
Proof.
  unfold assess_student.
  destruct (has_column df_copy "grade"); simpl; [|discriminate].
  destruct (has_column df_copy "subject"); simpl; [|discriminate].
  destruct (student_risk_factors _ _ _ _ _) as [fs|e]; simpl; [|discriminate].
  destruct fs as [|f fs]; [discriminate|].
  destruct (first_group _ _) as [g|e]; simpl; [|discriminate].
  intros E. injection E as <-. simpl. repeat split. discriminate.
Qed.

(** C4.  The rows returned by [identify_at_risk_students] are in
    [risk_order]: by decreasing risk score and, with equal scores, by
    increasing mean grade.  Every row carries at least one risk factor,
    those computed for its student, and its score is their number: a
    student without a triggered factor has no row. *)
Theorem identify_at_risk_students_sorted (df : DataFrame) (threshold : Q)
        (min_weeks : Z) (decline_threshold : Q) (risk : list RiskInfo.t) :
  identify_at_risk_students df threshold min_weeks decline_threshold = Ok risk ->
  StronglySorted risk_order risk /\
  Forall (fun r =>
            student_risk_factors (with_week df)
              (filter (student_is (RiskInfo.student_id r)) (rows (with_week df)))
              threshold min_weeks decline_threshold
              = Ok (RiskInfo.risk_factors r) /\
            RiskInfo.risk_factors r <> [] /\
            RiskInfo.risk_score r = List.length (RiskInfo.risk_factors r) /\
            (1 <= RiskInfo.risk_score r)%nat)
         risk.
Proof.
  unfold identify_at_risk_students.
  destruct (column _ _ _) as [ids|e]; simpl; [|discriminate].
  destruct (rmap_list _ _) as [results|e] eqn:E; simpl; [|discriminate].
  intros R. injection R as <-. split.
  - eapply StronglySorted_impl; [apply risk_before_order|].
    apply sort_by_sorted; [apply risk_before_total|apply risk_before_trans].
  - rewrite Forall_forall. intros r I.
    apply in_sort_by, in_somes in I.
    apply rmap_list_ok in E.
    assert (S : exists sid, assess_student (with_week df) threshold min_weeks
                              decline_threshold sid = Ok (Some r)).
    { clear -E I. induction E as [|sid o l l' Ea _ IH]; simpl in I; [tauto|].
      destruct I as [->|I]; eauto. }
    destruct S as (sid & S).
    apply assess_student_some in S as (<- & F & N & L & _).
    repeat split; auto.
    rewrite L. destruct (RiskInfo.risk_factors r); [congruence|simpl; lia].
Qed.

(* --------------------------------------------------------------- *)
(** *** Every value of a column is among its distinct values *)

Lemma unique_loop_complete {A} (eqb : A -> A -> bool) (l seen : list A) (x : A) :
  (forall a b, eqb a b = true -> a = b) ->
  In x seen \/ In x l ->
  In x (fold_left (fun seen x => if mem eqb x seen then seen else (seen ++ [x])%list)
                  l seen).
Proof.
  intros Eq. revert seen; induction l as [|y t IH]; simpl; intros seen I.
  - tauto.
  - apply IH. destruct (mem eqb y seen) eqn:M.
    + destruct I as [I|[<-|I]]; auto.
      left. apply existsb_exists in M as (z & Iz & E).
      apply Eq in E. now subst.
    + destruct I as [I|[<-|I]]; auto; left; apply in_or_app; simpl; auto.
Qed.

Lemma unique_cells_complete (l : list (option string)) (x : option string) :
  In x l -> In x (unique_cells l).
Proof.
  intros I. apply unique_loop_complete; auto.
  intros [a|] [b|]; simpl; try discriminate; auto.
  intros E. apply String.eqb_eq in E. now subst.
Qed.

Lemma Forall2_in_left {A B} (R : A -> B -> Prop) (l : list A) (l' : list B) (a : A) :
  Forall2 R l l' -> In a l -> exists b, In b l' /\ R a b.
Proof.
  induction 1 as [|x y l l' Rxy _ IH]; simpl; [tauto|].
  intros [<-|I]; eauto.
  destruct (IH I) as (b & Ib & Rb). eauto.
Qed.

Lemma length_weekly_grades (data : list row) :
  List.length (weekly_grades data) = nunique Z.eqb (map week data).
Proof.
  unfold weekly_grades, nunique. rewrite length_map.
  apply Permutation_length. apply sort_by_perm.
Qed.

(* --------------------------------------------------------------- *)
(** *** The scenario of the sharp decline *)

Lemma trend_factors_decline (df_copy : DataFrame) (data : list row) :
  has_column df_copy "week" = true ->
  map snd (weekly_grades data) = [Num 8; Num 8; Num 8; Num 8; Num 4; Num 4] ->
  trend_factors df_copy data 3 (15 # 10) = Ok [declining_text; sharp_drop_text].
Proof.
  intros W Y. unfold trend_factors.
  assert (L : List.length (weekly_grades data) = 6%nat).
  { rewrite <- (length_map snd), Y. reflexivity. }
  rewrite W, <- length_weekly_grades, L, Y.
  vm_compute. reflexivity.
Qed.

Lemma student_risk_factors_decline (df_copy : DataFrame) (data : list row) :
  has_column df_copy "week" = true ->
  map snd (weekly_grades data) = [Num 8; Num 8; Num 8; Num 8; Num 4; Num 4] ->
  exists fs,
    student_risk_factors df_copy data 5 3 (15 # 10) = Ok fs /\
    In declining_text fs /\ In sharp_drop_text fs.
Proof.
  intros W Y. unfold student_risk_factors.
  rewrite (trend_factors_decline df_copy data W Y). cbn [rbind].
  eexists. split; [reflexivity|].
  split; apply in_or_app; right; apply in_or_app; right;
    apply in_or_app; left; simpl; auto.
Qed.

Lemma weekly_grades_student (l : list row) (sid : option string) :
  weekly_grades (filter (student_is sid) l) <> [] ->
  In sid (map student_id l).
Proof.
  intros N.
  destruct (filter (student_is sid) l) as [|r t] eqn:E.
  - exfalso. apply N. reflexivity.
  - assert (I : In r (filter (student_is sid) l)) by (rewrite E; simpl; auto).
    apply filter_In in I as [I S].
    unfold student_is, cell_eq in S.
    destruct (student_id r) as [a|] eqn:Ea; [|discriminate].
    destruct sid as [b|]; [|discriminate].
    apply String.eqb_eq in S. subst b.
    rewrite <- Ea. now apply in_map.
Qed.

(** C5.  A student whose weekly means are 8, 8, 8, 8, 4, 4 is flagged,
    with the threshold 5.0, 3 weeks at least and the decline threshold
    1.5, for the declining trend (the slope -32/35 is below -0.2) and for
    the sharp drop (the halves, split at index 3, have the means 8 and
    16/3, more than 1.5 apart): both factors are computed for the student
    and stand in the student's row of the result. *)
Theorem sharp_decline_flagged (df : DataFrame) (sid : string) :
  has_column (with_week df) "week" = true ->
  map snd (weekly_grades (filter (student_is (Some sid)) (rows (with_week df))))
    = [Num 8; Num 8; Num 8; Num 8; Num 4; Num 4] ->
  (exists fs,
      student_risk_factors (with_week df)
        (filter (student_is (Some sid)) (rows (with_week df))) 5 3 (15 # 10)
        = Ok fs /\
      In declining_text fs /\ In sharp_drop_text fs) /\
  (forall risk,
      identify_at_risk_students df 5 3 (15 # 10) = Ok risk ->
      exists r, In r risk /\ RiskInfo.student_id r = Some sid /\
                In declining_text (RiskInfo.risk_factors r) /\
                In sharp_drop_text (RiskInfo.risk_factors r)).
Proof.
  intros W Y.
  destruct (student_risk_factors_decline _ _ W Y) as (fs & F & D & S).
  split; [now exists fs|].
  intros risk. unfold identify_at_risk_students, column.
  destruct (has_column (with_week df) "student_id"); simpl; [|discriminate].
  destruct (rmap_list _ _) as [results|e] eqn:E; simpl; [|discriminate].
  intros R. injection R as <-.
  apply rmap_list_ok in E.
  assert (I : In (Some sid) (unique_cells (map student_id (rows (with_week df))))).
  { apply unique_cells_complete, weekly_grades_student.
    intros Z. rewrite Z in Y. discriminate. }
  destruct (Forall2_in_left _ _ _ _ E I) as (o & Io & A).
  destruct o as [r|].
  - apply assess_student_some in A as (Id & F' & _).
    rewrite F in F'. injection F' as F'.
    exists r. rewrite <- F'. repeat split; auto.
    now apply in_sort_by, in_somes.
  - exfalso. unfold assess_student in A.
    destruct (has_column (with_week df) "grade"); simpl in A; [|discriminate].
    destruct (has_column (with_week df) "subject"); simpl in A; [|discriminate].
    rewrite F in A. cbn [rbind] in A.
    destruct fs; [destruct D|].
    destruct (first_group _ _); discriminate.
Qed.

(* --------------------------------------------------------------- *)
(** *** [predict_final_grades] *)

Lemma Qltb_lt (a b : Q) : Qltb a b = true <-> a < b.
Proof.
  unfold Qltb. rewrite negb_true_iff. split.
  - intros E. apply Qnot_le_lt. intros L.
    apply Qle_bool_iff in L. congruence.
  - intros L. destruct (Qle_bool b a) eqn:E; auto.
    apply Qle_bool_iff in E. exfalso. now apply (Qlt_not_le a b).
Qed.

Lemma Qltb_ge (a b : Q) : Qltb a b = false <-> b <= a.
Proof.
  unfold Qltb. rewrite negb_false_iff. apply Qle_bool_iff.
Qed.

(** The clamp maps every float, NaN included, into [1, 10]. *)
Lemma clamp_grade_range (x : pyfloat) :
  exists g, clamp_grade x = Num g /\ 1 <= g /\ g <= 10.
Proof.
  unfold clamp_grade, py_max, py_min, pf_gt.
  destruct x as [|q]; cbn [pf_lt].
  - exists 10. vm_compute. repeat split; discriminate.
  - destruct (Qltb q 10) eqn:U; cbn [pf_lt].
    + destruct (Qltb 1 q) eqn:L.
      * exists q. apply Qltb_lt in U, L. repeat split; lra.
      * exists 1. apply Qltb_ge in L. repeat split; lra.
    + exists 10. vm_compute. repeat split; discriminate.
Qed.

Lemma predict_pair_some (df : DataFrame) (cw : week_number)
      (sid subj : option string) (p : Prediction.t) :
  predict_pair df cw sid subj = Ok (Some p) ->
  let weekly := weekly_grades (pair_data df sid subj) in
  has_column df "week" = true /\
  (2 <= List.length weekly)%nat /\
  Prediction.student_id p = sid /\ Prediction.subject p = subj /\
  Prediction.weeks_available p = List.length weekly /\
  exists slope intercept,
    polyfit (week_axis weekly) (map snd weekly) = Ok (slope, intercept) /\
    Prediction.trend_slope p = slope /\
    Prediction.predicted_final_grade p
      = clamp_grade (pf_add (pf_mul slope (Num 16)) intercept).
Proof.
  unfold predict_pair. fold (pair_data df sid subj).
  destruct (has_column df "week"); [|discriminate].
  destruct (has_column df "grade"); cbn [negb]; [|discriminate].
  match goal with |- context [(2 <=? ?n)%nat] =>
    destruct (2 <=? n)%nat eqn:L end; [|discriminate].
  apply Nat.leb_le in L.
  destruct (polyfit _ _) as [[slope intercept]|e] eqn:F; cbn [rbind]; [|discriminate].
  destruct (confidence _ _) as [conf|e]; cbn [rbind]; [|discriminate].
  destruct (first_group _ _) as [g|e]; cbn [rbind]; [|discriminate].
  intros E. injection E as <-. cbn.
  repeat split; auto. exists slope, intercept. auto.
Qed.

Lemma Forall2_in_right {A B} (R : A -> B -> Prop) (l : list A) (l' : list B) (b : B) :
  Forall2 R l l' -> In b l' -> exists a, In a l /\ R a b.
Proof.
  induction 1 as [|x y l l' Rxy _ IH]; simpl; [tauto|].
  intros [<-|I]; eauto.
  destruct (IH I) as (a & Ia & Ra). eauto.
Qed.

(** Every row of the result was computed by [predict_pair] for a student
    of the table and one of that student's subjects. *)
Lemma predict_final_grades_rows (df : DataFrame) (current_week : option Z)
      (preds : list Prediction.t) (p : Prediction.t) :
  predict_final_grades df current_week = Ok preds -> In p preds ->
  exists cw sid subj, predict_pair df cw sid subj = Ok (Some p).
Proof.
  unfold predict_final_grades.
  set (cw := match current_week with Some z => PyInt z | None => _ end).
  destruct (column _ _ _) as [ids|e]; simpl; [|discriminate].
  destruct (rmap_list _ _) as [per_student|e] eqn:E; simpl; [|discriminate].
  intros R I. injection R as <-.
  apply in_sort_by, in_concat in I as (ps & Ips & Ip).
  apply rmap_list_ok in E.
  destruct (Forall2_in_right _ _ _ _ E Ips) as (sid & _ & S).
  unfold predict_student in S.
  destruct (has_column df "subject"); simpl in S; [|discriminate].
  destruct (rmap_list _ _) as [found|e] eqn:F; simpl in S; [|discriminate].
  injection S as <-. apply in_somes in Ip.
  apply rmap_list_ok in F.
  destruct (Forall2_in_right _ _ _ _ F Ip) as (subj & _ & P).
  eauto.
Qed.

(** C6.  Every predicted final grade returned by [predict_final_grades]
    lies between 1 and 10, whatever the fitted slope and intercept are. *)
Theorem predicted_final_grade_clamped (df : DataFrame) (current_week : option Z)
        (preds : list Prediction.t) :
  predict_final_grades df current_week = Ok preds ->
  Forall (fun p => exists g, Prediction.predicted_final_grade p = Num g /\
                             1 <= g /\ g <= 10)
         preds.
Proof.
  intros E. rewrite Forall_forall. intros p I.
  destruct (predict_final_grades_rows _ _ _ _ E I) as (cw & sid & subj & P).
  apply predict_pair_some in P as (_ & _ & _ & _ & _ & s & i & _ & _ & ->).
  apply clamp_grade_range.
Qed.

(* --------------------------------------------------------------- *)
(** *** The two fits: over the week numbers, over the positions *)

Lemma dropna_no_nan (y : list pyfloat) :
  existsb pf_isnan y = false -> List.length (dropna y) = List.length y.
Proof.
  induction y as [|[|q] t IH]; simpl; auto; try discriminate.
Qed.

Lemma polyfit_well_posed (x : list Q) (y : list pyfloat) :
  List.length x = List.length y -> existsb pf_isnan y = false ->
  ~ spread x == 0 ->
  polyfit x y = Ok (Num (fst (lstsq_line x (dropna y))),
                    Num (snd (lstsq_line x (dropna y)))).
Proof.
  intros L N D. unfold polyfit.
  destruct x as [|a t].
  - exfalso. apply D. reflexivity.
  - rewrite L, Nat.eqb_refl, N. cbn [negb orb].
    destruct (Qeq_bool (spread (a :: t)) 0) eqn:E.
    + apply Qeq_bool_iff in E. contradiction.
    + now destruct (lstsq_line (a :: t) (dropna y)).
Qed.

Lemma map_fst_weekly_grades (data : list row) :
  map fst (weekly_grades data) = Zsort (unique Z.eqb (somes (map week data))).
Proof.
  unfold weekly_grades. rewrite map_map. simpl. apply map_id.
Qed.

Lemma week_axis_weeks (weekly : list (Z * pyfloat)) :
  week_axis weekly = map inject_Z (map fst weekly).
Proof. unfold week_axis. now rewrite map_map. Qed.

Lemma weeks_NoDup (data : list row) : NoDup (map fst (weekly_grades data)).
Proof.
  rewrite map_fst_weekly_grades.
  eapply Permutation_NoDup; [apply Permutation_sym, sort_by_perm|].
  rewrite (unique_dedup_first Z.eqb Z.eqb_eq).
  apply dedup_first_NoDup, Z.eqb_eq.
Qed.

Lemma spread_week_axis (data : list row) :
  (2 <= List.length (weekly_grades data))%nat ->
  ~ spread (week_axis (weekly_grades data)) == 0.
Proof.
  intros L. rewrite week_axis_weeks.
  apply spread_distinct_weeks; [apply weeks_NoDup|].
  now rewrite length_map.
Qed.

Lemma pair_data_member (df : DataFrame) (sid subj : option string) :
  pair_data df sid subj <> [] ->
  In sid (map student_id (rows df)) /\
  In subj (map subject (filter (student_is sid) (rows df))).
Proof.
  unfold pair_data. intros N.
  destruct (filter (subject_is subj) _) as [|r t] eqn:E; [congruence|].
  assert (I : In r (filter (subject_is subj) (filter (student_is sid) (rows df))))
    by (rewrite E; simpl; auto).
  apply filter_In in I as [I J]. pose proof I as I'.
  apply filter_In in I as [I S].
  unfold student_is, subject_is, cell_eq in *.
  destruct (student_id r) as [a|] eqn:Ea; [|discriminate].
  destruct sid as [a'|]; [|discriminate].
  destruct (subject r) as [b|] eqn:Eb; [|discriminate].
  destruct subj as [b'|]; [|discriminate].
  apply String.eqb_eq in S, J. subst. split.
  - rewrite <- Ea. now apply in_map.
  - rewrite <- Eb. now apply in_map.
Qed.

Lemma predict_pair_emits (df : DataFrame) (cw : week_number)
      (sid subj : option string) (o : option Prediction.t) :
  has_column df "week" = true ->
  (2 <= List.length (weekly_grades (pair_data df sid subj)))%nat ->
  predict_pair df cw sid subj = Ok o -> exists p, o = Some p.
Proof.
  intros W L. unfold predict_pair. fold (pair_data df sid subj). rewrite W.
  destruct (has_column df "grade"); cbn [negb]; [|discriminate].
  apply Nat.leb_le in L. rewrite L.
  destruct (polyfit _ _) as [[slope intercept]|e]; cbn [rbind]; [|discriminate].
  destruct (confidence _ _) as [conf|e]; cbn [rbind]; [|discriminate].
  destruct (first_group _ _) as [g|e]; cbn [rbind]; [|discriminate].
  intros E. injection E as <-. eauto.
Qed.

(** A pair with two weeks at least has a row in the result. *)
Lemma predict_final_grades_emits (df : DataFrame) (current_week : option Z)
      (preds : list Prediction.t) (sid subj : option string) :
  predict_final_grades df current_week = Ok preds ->
  has_column df "week" = true ->
  (2 <= List.length (weekly_grades (pair_data df sid subj)))%nat ->
  exists cw p, In p preds /\ predict_pair df cw sid subj = Ok (Some p).
Proof.
  intros E W L.
  assert (N : pair_data df sid subj <> []).
  { intros Z. rewrite Z in L. simpl in L. lia. }
  apply pair_data_member in N as [Is Ij].
  revert E. unfold predict_final_grades, column.
  set (cw := match current_week with Some z => PyInt z | None => _ end).
  destruct (has_column df "student_id"); cbn [rbind]; [|discriminate].
  destruct (rmap_list _ _) as [per_student|e] eqn:E; cbn [rbind]; [|discriminate].
  intros R. injection R as <-.
  apply rmap_list_ok in E.
  apply unique_cells_complete in Is, Ij.
  destruct (Forall2_in_left _ _ _ _ E Is) as (ps & Ips & S).
  unfold predict_student in S.
  destruct (has_column df "subject"); cbn [negb rbind] in S; [|discriminate].
  destruct (rmap_list _ _) as [found|e] eqn:F; cbn [rbind] in S; [|discriminate].
  injection S as <-. apply rmap_list_ok in F.
  destruct (Forall2_in_left _ _ _ _ F Ij) as (o & Io & P).
  destruct (predict_pair_emits _ _ _ _ _ W L P) as (p & ->).
  exists cw, p. split; auto.
  apply in_sort_by, in_concat. exists (somes found). split; auto.
  now apply in_somes.
Qed.

(** With [polyfit] for the fit, these are the functions of the analyses. *)
Lemma trend_factors_with_polyfit (df_copy : DataFrame) (data : list row)
      (min_weeks : Z) (decline_threshold : Q) :
  trend_factors_with polyfit df_copy data min_weeks decline_threshold
  = trend_factors df_copy data min_weeks decline_threshold.
Proof. reflexivity. Qed.

Lemma predict_final_grades_with_polyfit (df : DataFrame) (current_week : option Z) :
  predict_final_grades_with polyfit df current_week
  = predict_final_grades df current_week.
Proof. reflexivity. Qed.

Section AnyFit.
Variable fit : list Q -> list pyfloat -> result (pyfloat * pyfloat).

Lemma predict_pair_with_some (df : DataFrame) (cw : week_number)
      (sid subj : option string) (p : Prediction.t) :
  predict_pair_with fit df cw sid subj = Ok (Some p) ->
  let weekly := weekly_grades (pair_data df sid subj) in
  Prediction.student_id p = sid /\ Prediction.subject p = subj /\
  exists slope intercept,
    fit (week_axis weekly) (map snd weekly) = Ok (slope, intercept) /\
    Prediction.trend_slope p = slope /\
    Prediction.predicted_final_grade p
      = clamp_grade (pf_add (pf_mul slope (Num 16)) intercept).
Proof.
  unfold predict_pair_with.
  destruct (has_column df "week"); [|discriminate].
  destruct (has_column df "grade"); cbn [negb]; [|discriminate].
  match goal with |- context [(2 <=? ?n)%nat] =>
    destruct (2 <=? n)%nat end; [|discriminate].
  destruct (fit _ _) as [[slope intercept]|e] eqn:F; cbn [rbind]; [|discriminate].
  destruct (confidence _ _) as [conf|e]; cbn [rbind]; [|discriminate].
  destruct (first_group _ _) as [g|e]; cbn [rbind]; [|discriminate].
  intros E. injection E as <-. cbn.
  split; [reflexivity|]. split; [reflexivity|].
  exists slope, intercept. split; [reflexivity|]. split; reflexivity.
Qed.

Lemma predict_pair_with_emits (df : DataFrame) (cw : week_number)
      (sid subj : option string) (o : option Prediction.t) :
  has_column df "week" = true ->
  (2 <= List.length (weekly_grades (pair_data df sid subj)))%nat ->
  predict_pair_with fit df cw sid subj = Ok o -> exists p, o = Some p.
Proof.
  intros W L. unfold predict_pair_with. rewrite W.
  destruct (has_column df "grade"); cbn [negb]; [|discriminate].
  apply Nat.leb_le in L. rewrite L.
  destruct (fit _ _) as [[slope intercept]|e]; cbn [rbind]; [|discriminate].
  destruct (confidence _ _) as [conf|e]; cbn [rbind]; [|discriminate].
  destruct (first_group _ _) as [g|e]; cbn [rbind]; [|discriminate].
  intros E. injection E as <-. eauto.
Qed.

(** A pair with two weeks at least has a row in the result. *)
Lemma predict_final_grades_with_emits (df : DataFrame) (current_week : option Z)
      (preds : list Prediction.t) (sid subj : option string) :
  predict_final_grades_with fit df current_week = Ok preds ->
  has_column df "week" = true ->
  (2 <= List.length (weekly_grades (pair_data df sid subj)))%nat ->
  exists cw p, In p preds /\ predict_pair_with fit df cw sid subj = Ok (Some p).
Proof.
  intros E W L.
  assert (N : pair_data df sid subj <> []).
  { intros Z. rewrite Z in L. simpl in L. lia. }
  apply pair_data_member in N as [Is Ij].
  revert E. unfold predict_final_grades_with, column.
  set (cw := match current_week with Some z => PyInt z | None => _ end).
  destruct (has_column df "student_id"); cbn [rbind]; [|discriminate].
  destruct (rmap_list _ _) as [per_student|e] eqn:E; cbn [rbind]; [|discriminate].
  intros R. injection R as <-.
  apply rmap_list_ok in E.
  apply unique_cells_complete in Is, Ij.
  destruct (Forall2_in_left _ _ _ _ E Is) as (ps & Ips & S).
  unfold predict_student_with in S.
  destruct (has_column df "subject"); cbn [negb rbind] in S; [|discriminate].
  destruct (rmap_list _ _) as [found|e] eqn:F; cbn [rbind] in S; [|discriminate].
  injection S as <-.
  apply rmap_list_ok in F.
  destruct (Forall2_in_left _ _ _ _ F Ij) as (o & Io & P).
  destruct (predict_pair_with_emits _ _ _ _ _ W L P) as (p & ->).
  exists cw, p. split; auto.
  apply in_sort_by, in_concat. exists (somes found). split; auto.
  now apply in_somes.
Qed.

(** In [identify_at_risk_students] the line is fitted over the positions
    0, 1, 2, ... of the weeks; the declining trend that is reported is the
    slope of that line. *)
Lemma trend_factors_with_positions (df_copy : DataFrame) (data : list row)
      (min_weeks : Z) (decline_threshold : Q) :
  let weekly := weekly_grades data in
  has_column df_copy "week" = true ->
  (min_weeks <= Z.of_nat (List.length weekly))%Z ->
  (forall e,
      fit (position_axis weekly) (map snd weekly) = Raise e ->
      trend_factors_with fit df_copy data min_weeks decline_threshold = Raise e) /\
  (forall slope intercept,
      fit (position_axis weekly) (map snd weekly) = Ok (slope, intercept) ->
      exists fs,
        trend_factors_with fit df_copy data min_weeks decline_threshold = Ok fs /\
        (forall f, In f fs -> prefix declining_prefix f = true ->
                   f = declining_trend_text slope /\
                   pf_lt slope (Num (-(2 # 10))) = true) /\
        (pf_lt slope (Num float_minus_0_2) = true ->
         In (declining_trend_text slope) fs)).
Proof.
  intros weekly W L. unfold trend_factors_with. fold weekly.
  rewrite W, <- length_weekly_grades. fold weekly.
  apply Z.leb_le in L. rewrite L. cbn [andb].
  fold (position_axis weekly). split.
  - intros e F. rewrite F. reflexivity.
  - intros slope intercept F. rewrite F. cbn [rbind fst].
    eexists. split; [reflexivity|]. fold (declining_trend_text slope). split.
    + intros f I P. apply in_app_or in I. destruct I as [I|I].
      * destruct (pf_lt slope (Num (-(2 # 10)))); [|destruct I].
        destruct I as [<-|[]]. split; reflexivity.
      * exfalso. destruct (pf_gt _ _); [|destruct I].
        destruct I as [<-|[]]. cbn in P. discriminate.
    + intros B. apply in_or_app. left.
      assert (T : pf_lt slope (Num (-(2 # 10))) = true).
      { destruct slope as [|q]; [discriminate|]. cbn [pf_lt] in *.
        apply Qltb_lt in B. apply Qltb_lt.
        eapply Qlt_trans; [exact B|]. reflexivity. }
      rewrite T. now left.
Qed.

End AnyFit.

(** C10.  Whatever [np.polyfit] returns: for a student and a subject with
    two distinct weeks at least, [predict_final_grades] has a row whose
    slope and intercept are those of the fit over the week numbers
    themselves, and whose predicted grade is the clamp of
    [slope * 16 + intercept].  [identify_at_risk_students] fits its line
    over the positions 0, 1, 2, ... instead: an exception of that fit is the
    exception of the function, and a declining-trend factor prints the slope
    of that fit; such a factor is only reported for a slope below -0.2, and
    it is reported for every slope below the binary number that the literal
    [-0.2] denotes.  When the weeks have a gap, the week numbers are not the
    positions, not even moved by a constant. *)
Theorem predict_fits_week_numbers
        (fit : list Q -> list pyfloat -> result (pyfloat * pyfloat))
        (df : DataFrame) (current_week : option Z)
        (preds : list Prediction.t) (sid subj : option string) :
  predict_final_grades_with fit df current_week = Ok preds ->
  has_column df "week" = true ->
  (2 <= List.length (weekly_grades (pair_data df sid subj)))%nat ->
  let weekly := weekly_grades (pair_data df sid subj) in
  (exists p slope intercept,
      In p preds /\
      Prediction.student_id p = sid /\ Prediction.subject p = subj /\
      fit (week_axis weekly) (map snd weekly) = Ok (slope, intercept) /\
      Prediction.trend_slope p = slope /\
      Prediction.predicted_final_grade p
        = clamp_grade (pf_add (pf_mul slope (Num 16)) intercept)) /\
  (forall df_copy data min_weeks decline_threshold,
      has_column df_copy "week" = true ->
      (min_weeks <= Z.of_nat (List.length (weekly_grades data)))%Z ->
      (forall e,
          fit (position_axis (weekly_grades data)) (map snd (weekly_grades data))
            = Raise e ->
          trend_factors_with fit df_copy data min_weeks decline_threshold
            = Raise e) /\
      (forall slope intercept,
          fit (position_axis (weekly_grades data)) (map snd (weekly_grades data))
            = Ok (slope, intercept) ->
          exists fs,
            trend_factors_with fit df_copy data min_weeks decline_threshold
              = Ok fs /\
            (forall f, In f fs -> prefix declining_prefix f = true ->
                       f = declining_trend_text slope /\
                       pf_lt slope (Num (-(2 # 10))) = true) /\
            (pf_lt slope (Num float_minus_0_2) = true ->
             In (declining_trend_text slope) fs))) /\
  (~ consecutive (map fst weekly) ->
   forall c, ~ Forall2 Qeq (week_axis weekly)
                       (map (Qplus c) (position_axis weekly))).
Proof.
  intros E W L weekly. split; [|split].
  - destruct (predict_final_grades_with_emits fit _ _ _ sid subj E W L)
      as (cw & p & I & P).
    apply predict_pair_with_some in P as (Es & Ej & s & i & F & Et & Ep).
    fold weekly in F.
    exists p, s, i. split; [exact I|]. split; [exact Es|]. split; [exact Ej|].
    split; [exact F|]. split; [exact Et|exact Ep].
  - intros df_copy data min_weeks decline_threshold.
    apply trend_factors_with_positions.
  - intros G c F. apply G.
    apply (shifted_positions_consecutive c _ 0).
    unfold week_axis, position_axis, arange in F. rewrite map_map in F.
    rewrite map_map, length_map. exact F.
Qed.

(* --------------------------------------------------------------- *)
(** *** [analyze_performance] *)

(** The result, once the first five steps have gone through. *)
Lemma analyze_performance_steps (risk_threshold : Q) (min_records : Z)
      (now : string) (df df' : DataFrame) (overall : Overall.t)
      (risk_list : list RiskStudent.t) (trends : Trends.t) :
  overall_stats df = Ok overall ->
  rmap_list (risk_student_info df) (risk_candidates df risk_threshold min_records)
    = Ok risk_list ->
  trends_stage df = (Ok trends, df') ->
  analyze_performance risk_threshold min_records now df =
  (Ok (Results.mk overall (by_subject_stats df) (by_group_stats df)
                  risk_list trends now
                  (correlation_stage df')
                  (clustering_stage (kept_students df min_records))),
   df').
Proof.
  intros O R T. unfold analyze_performance, bind, get, lift, ret.
  rewrite O. fold (kept_students df min_records).
  fold (risk_candidates df risk_threshold min_records).
  now rewrite R, T.
Qed.

Lemma analyze_performance_ok (risk_threshold : Q) (min_records : Z)
      (now : string) (df df' : DataFrame) (res : Results.t) :
  analyze_performance risk_threshold min_records now df = (Ok res, df') ->
  exists overall risk_list trends,
    overall_stats df = Ok overall /\
    rmap_list (risk_student_info df)
              (risk_candidates df risk_threshold min_records) = Ok risk_list /\
    trends_stage df = (Ok trends, df') /\
    res = Results.mk overall (by_subject_stats df) (by_group_stats df)
                     risk_list trends now
                     (correlation_stage df')
                     (clustering_stage (kept_students df min_records)).
Proof.
  unfold analyze_performance, bind, get, lift, ret.
  fold (kept_students df min_records).
  fold (risk_candidates df risk_threshold min_records).
  destruct (overall_stats df) as [overall|e]; [|discriminate].
  destruct (rmap_list _ _) as [risk_list|e]; [|discriminate].
  destruct (trends_stage df) as [[trends|e] d]; [|discriminate].
  intros E. injection E as <- <-.
  exists overall, risk_list, trends. auto.
Qed.

Lemma Qnat_le (n m : nat) : (n <= m)%nat -> Qnat n <= Qnat m.
Proof. intros L. unfold Qnat. rewrite <- Zle_Qle. lia. Qed.

Lemma count_true_mono {A} (f g : A -> bool) (l : list A) :
  (forall x, f x = true -> g x = true) ->
  (List.length (filter (fun b : bool => b) (map f l))
   <= List.length (filter (fun b : bool => b) (map g l)))%nat.
Proof.
  intros I. induction l as [|a t IH]; simpl; auto.
  destruct (f a) eqn:F.
  - rewrite (I a F). simpl. lia.
  - destruct (g a); simpl; lia.
Qed.

(** The share of a mask is at most the share of a weaker mask. *)
Lemma mask_rate_mono {A} (f g : A -> bool) (l : list A) :
  l <> [] -> (forall x, f x = true -> g x = true) ->
  exists e p, mask_rate (map f l) = Num e /\ mask_rate (map g l) = Num p /\
              e <= p.
Proof.
  intros N I. destruct l as [|a t]; [congruence|].
  unfold mask_rate. cbn [map].
  eexists _, _. split; [reflexivity|]. split; [reflexivity|].
  rewrite !Qred_eq.
  change (f a :: map f t) with (map f (a :: t)).
  change (g a :: map g t) with (map g (a :: t)).
  unfold Qlen at 2 4. rewrite !length_map.
  assert (P : 0 < Qnat (List.length (a :: t))).
  { unfold Qnat. change 0 with (inject_Z 0). rewrite <- Zlt_Qlt.
    simpl List.length. lia. }
  apply Qmult_le_compat_r; [|discriminate].
  apply Qmult_le_compat_r; [|apply Qlt_le_weak, Qinv_lt_0_compat, P].
  apply Qnat_le, count_true_mono, I.
Qed.

Lemma at_least_nested (g : pyfloat) : at_least 9 g = true -> at_least 4 g = true.
Proof.
  unfold at_least, pf_ge. destruct g as [|q]; simpl; auto.
  rewrite !Qle_bool_iff. lra.
Qed.

(** C9.  In the result of [analyze_performance], for every subject of the
    table the share of the grades of at least 9 is at most the share of the
    grades of at least 4. *)
Theorem excellent_rate_le_pass_rate (risk_threshold : Q) (min_records : Z)
        (now : string) (df df' : DataFrame) (res : Results.t)
        (subj : string) (stats : SubjectStats.t) :
  analyze_performance risk_threshold min_records now df = (Ok res, df') ->
  In (Some subj, stats) (Results.by_subject res) ->
  exists e p,
    SubjectStats.excellent_rate stats = Num e /\
    SubjectStats.pass_rate stats = Num p /\
    e <= p.
Proof.
  intros E I.
  apply analyze_performance_ok in E as (o & r & t & _ & _ & _ & ->).
  cbn [Results.by_subject] in I. unfold by_subject_stats in I.
  apply in_map_iff in I as (k & K & I). injection K as -> <-.
  apply unique_incl in I.
  cbn [subject_stats SubjectStats.excellent_rate SubjectStats.pass_rate].
  unfold subject_stats. cbn [SubjectStats.excellent_rate SubjectStats.pass_rate].
  rewrite !map_map. apply mask_rate_mono.
  - apply in_map_iff in I as (r0 & S & I).
    assert (J : In r0 (filter (subject_is (Some subj)) (rows df))).
    { apply filter_In. split; auto. unfold subject_is. rewrite S. simpl.
      apply String.eqb_refl. }
    intros Z. rewrite Z in J. destruct J.
  - intros x. apply at_least_nested.
Qed.

Lemma overall_stats_missing (df : DataFrame) :
  has_required df = false -> exists c, overall_stats df = Raise (KeyError c).
Proof.
  unfold has_required, overall_stats, column. intros R.
  destruct (has_column df "student_id"); cbn [rbind]; [|eauto].
  destruct (has_column df "subject"); cbn [rbind]; [|eauto].
  destruct (has_column df "grade"); cbn [rbind]; [discriminate|eauto].
Qed.

Lemma overall_stats_present (df : DataFrame) :
  has_required df = true -> exists overall, overall_stats df = Ok overall.
Proof.
  unfold has_required, overall_stats, column. intros R.
  apply andb_true_iff in R as [R Hg]. apply andb_true_iff in R as [Hs Hj].
  rewrite Hs, Hj, Hg. cbn [rbind]. eauto.
Qed.

Lemma trends_stage_empty (cols : list string) :
  exists trends df',
    trends_stage (mkDF cols []) = (Ok trends, df') /\ rows df' = [].
Proof.
  unfold trends_stage, bind, get, put, ret, lift.
  destruct (has_column (mkDF cols []) "week") eqn:W; cbn [orb negb].
  - cbn. eauto.
  - destruct (has_column (mkDF cols []) "date"); cbn; eauto.
Qed.

(** C2, as the code has it.  [analyze_performance] raises a [KeyError]
    when one of the three required columns is missing, as on the table
    without columns.  On a table that has them and no row it returns: the
    counts are 0 and the mean, the median, the minimum and the maximum of
    the grades are NaN. *)
Theorem analyze_performance_empty_input (risk_threshold : Q) (min_records : Z)
        (now : string) (df : DataFrame) :
  (has_required df = false ->
   exists c, analyze_performance risk_threshold min_records now df
             = (Raise (KeyError c), df)) /\
  (has_required df = true -> rows df = [] ->
   exists res df',
     analyze_performance risk_threshold min_records now df = (Ok res, df') /\
     Overall.total_records (Results.overall res) = 0%nat /\
     Overall.total_students (Results.overall res) = 0%nat /\
     Overall.total_subjects (Results.overall res) = 0%nat /\
     Overall.mean_grade (Results.overall res) = NaN /\
     Overall.median_grade (Results.overall res) = NaN /\
     Overall.min_grade (Results.overall res) = NaN /\
     Overall.max_grade (Results.overall res) = NaN /\
     Results.by_subject res = [] /\
     Results.risk_students res = []).
Proof.
  split.
  - intros R. destruct (overall_stats_missing df R) as (c & E).
    exists c. unfold analyze_performance, bind, get, lift. now rewrite E.
  - intros R Z. destruct df as [cols rs]. simpl in Z. subst rs.
    destruct (trends_stage_empty cols) as (trends & df' & T & _).
    pose proof R as R'. unfold has_required in R'.
    apply andb_true_iff in R' as [R' Hg]. apply andb_true_iff in R' as [Hs Hj].
    eexists _, df'. split.
    + apply analyze_performance_steps; [| |exact T].
      * unfold overall_stats, column. rewrite Hs, Hj, Hg. cbn [rbind].
        reflexivity.
      * reflexivity.
    + cbn. repeat split; reflexivity.
Qed.

(** The table after the fifth step: the caller's table, with the week
    assigned if it had a date and no week. *)
Lemma trends_stage_state (df : DataFrame) :
  snd (trends_stage df) =
  if negb (has_column df "week") && has_column df "date"
  then assign_week_from_date df else df.
Proof.
  unfold trends_stage, bind, get, put, ret, lift.
  destruct (has_column df "week") eqn:W; cbn [orb negb andb].
  - destruct (1 <? _)%nat; [|reflexivity].
    destruct (polyfit _ _) as [[s i]|e]; reflexivity.
  - destruct (has_column df "date"); cbn [andb]; [|reflexivity].
    destruct (1 <? _)%nat; [|reflexivity].
    destruct (polyfit _ _) as [[s i]|e]; reflexivity.
Qed.

Lemma analyze_performance_state (risk_threshold : Q) (min_records : Z)
      (now : string) (df : DataFrame) :
  snd (analyze_performance risk_threshold min_records now df) = df \/
  snd (analyze_performance risk_threshold min_records now df)
    = snd (trends_stage df).
Proof.
  unfold analyze_performance, bind, get, lift, ret.
  destruct (overall_stats df); [|now left].
  destruct (rmap_list _ _); [|now left].
  destruct (trends_stage df) as [[t|e] d]; now right.
Qed.

(** With a week column, or without a date column, the caller's table is
    left as it was. *)
Lemma analyze_performance_frame (risk_threshold : Q) (min_records : Z)
      (now : string) (df : DataFrame) :
  has_column df "week" = true \/ has_column df "date" = false ->
  snd (analyze_performance risk_threshold min_records now df) = df.
Proof.
  intros C.
  destruct (analyze_performance_state risk_threshold min_records now df)
    as [E|E]; auto.
  rewrite E, trends_stage_state.
  destruct C as [-> | ->]; [reflexivity|]. now rewrite andb_false_r.
Qed.

(** With a date column and no week column, a call that returns leaves the
    caller's table with one column more. *)
Lemma analyze_performance_assigns_week (risk_threshold : Q) (min_records : Z)
      (now : string) (df df' : DataFrame) (res : Results.t) :
  has_column df "week" = false -> has_column df "date" = true ->
  analyze_performance risk_threshold min_records now df = (Ok res, df') ->
  df' = assign_week_from_date df /\
  columns df' = (columns df ++ ["week"])%list /\
  df' <> df.
Proof.
  intros W D E.
  apply analyze_performance_ok in E as (o & r & t & _ & _ & T & _).
  pose proof (trends_stage_state df) as S.
  rewrite T, W, D in S. cbn in S. subst df'.
  assert (C : columns (assign_week_from_date df) = (columns df ++ ["week"])%list).
  { unfold assign_week_from_date, add_column. cbn [columns].
    unfold has_column in W. now rewrite W. }
  repeat split; auto.
  intros F. rewrite F in C.
  apply (f_equal (@List.length string)) in C.
  rewrite length_app in C. simpl in C. lia.
Qed.

(** C7.  Once the first five steps of [analyze_performance] have gone
    through, the call returns, whatever the correlation and the clustering
    computations do: the other fields are those already computed, and a
    computation that raises leaves its message in its field. *)
Theorem correlations_and_clusters_contained (risk_threshold : Q)
        (min_records : Z) (now : string) (df df' : DataFrame)
        (overall : Overall.t) (risk_list : list RiskStudent.t)
        (trends : Trends.t) :
  overall_stats df = Ok overall ->
  rmap_list (risk_student_info df) (risk_candidates df risk_threshold min_records)
    = Ok risk_list ->
  trends_stage df = (Ok trends, df') ->
  exists res,
    analyze_performance risk_threshold min_records now df = (Ok res, df') /\
    Results.overall res = overall /\
    Results.by_subject res = by_subject_stats df /\
    Results.by_group res = by_group_stats df /\
    Results.risk_students res = risk_list /\
    Results.trends res = trends /\
    Results.timestamp res = now /\
    (forall e, correlation_body df' = Raise e ->
               Results.correlations res
               = Some (Message ("Не удалось вычислить корреляции: " ++ exn_str e))) /\
    (forall v, correlation_body df' = Ok v ->
               Results.correlations res = option_map Value v) /\
    (forall e, clustering_body (kept_students df min_records) = Raise e ->
               Results.clusters res
               = Some (Message ("Не удалось выполнить кластеризацию: " ++ exn_str e))) /\
    (forall v, clustering_body (kept_students df min_records) = Ok v ->
               Results.clusters res = option_map Value v).
Proof.
  intros O R T. eexists. split.
  - exact (analyze_performance_steps _ _ _ _ _ _ _ _ O R T).
  - cbn. unfold correlation_stage, clustering_stage, try_field.
    repeat split; auto.
    + intros e ->. reflexivity.
    + intros v ->. now destruct v.
    + intros e ->. reflexivity.
    + intros v ->. now destruct v.
Qed.

(* --------------------------------------------------------------- *)
(** *** The analyses return on a table without a missing grade *)

Lemma series_mean_number (l : list pyfloat) :
  l <> [] -> forallb (fun g => negb (pf_isnan g)) l = true ->
  exists q, series_mean l = Num q.
Proof.
  destruct l as [|[|q] t]; simpl; try congruence; try discriminate.
  intros _ _. unfold series_mean. simpl. eauto.
Qed.

Lemma all_graded_filter (p : row -> bool) (data : list row) :
  all_graded data = true -> all_graded (filter p data) = true.
Proof.
  unfold all_graded. rewrite !forallb_forall. intros F r I.
  apply filter_In in I as [I _]. auto.
Qed.

Lemma weekly_means_numbers (data : list row) :
  all_graded data = true ->
  existsb pf_isnan (map snd (weekly_grades data)) = false.
Proof.
  intros G. apply existsb_false_forall. rewrite Forall_forall.
  intros m I. apply in_map_iff in I as ([w m'] & <- & I).
  unfold weekly_grades in I. apply in_map_iff in I as (w' & E & I).
  injection E as <- <-.
  apply in_sort_by, unique_incl, in_somes, in_map_iff in I as (r & W & I).
  destruct (series_mean_number (map grade (filter (week_is w') data))) as (q & ->);
    [| |reflexivity].
  - assert (J : In r (filter (week_is w') data)).
    { apply filter_In. split; auto. unfold week_is. rewrite W. simpl.
      apply Z.eqb_refl. }
    intros Z. apply map_eq_nil in Z. rewrite Z in J. destruct J.
  - pose proof (all_graded_filter (week_is w') data G) as F.
    unfold all_graded in F. rewrite forallb_forall in *.
    intros g Ig. apply in_map_iff in Ig as (r' & <- & Ir). auto.
Qed.

Lemma trend_factors_total (df_copy : DataFrame) (data : list row)
      (min_weeks : Z) (decline_threshold : Q) :
  (2 <= min_weeks)%Z -> all_graded data = true ->
  exists fs, trend_factors df_copy data min_weeks decline_threshold = Ok fs /\
             (data = [] -> fs = []).
Proof.
  intros M G. unfold trend_factors.
  destruct (has_column df_copy "week"); cbn [andb]; [|eauto].
  rewrite <- length_weekly_grades.
  destruct (min_weeks <=? _)%Z eqn:L; [|eauto].
  rewrite polyfit_well_posed.
  - cbn [rbind]. eexists. split; [reflexivity|].
    intros ->. simpl in L. apply Z.leb_le in L. lia.
  - unfold arange. now rewrite !length_map, length_seq.
  - now apply weekly_means_numbers.
  - apply spread_arange. apply Z.leb_le in L. lia.
Qed.

Lemma assess_student_total (df_copy : DataFrame) (threshold : Q) (min_weeks : Z)
      (decline_threshold : Q) (sid : option string) :
  has_column df_copy "grade" = true -> has_column df_copy "subject" = true ->
  (2 <= min_weeks)%Z -> all_graded (rows df_copy) = true ->
  exists o, assess_student df_copy threshold min_weeks decline_threshold sid = Ok o.
Proof.
  intros Hg Hj M G. unfold assess_student. rewrite Hg, Hj. cbn [negb].
  unfold student_risk_factors.
  destruct (trend_factors_total df_copy (filter (student_is sid) (rows df_copy))
                                min_weeks decline_threshold M)
    as (fs & -> & E); [now apply all_graded_filter|].
  cbn [rbind].
  destruct (filter (student_is sid) (rows df_copy)) as [|r t] eqn:D.
  - rewrite (E eq_refl). cbn.
    destruct (has_column df_copy "attendance"); cbn; eauto.
  - match goal with |- context [match ?l with [] => _ | _ :: _ => _ end] =>
      destruct l end; [eauto|].
    unfold first_group. destruct (has_column df_copy "group"); cbn [rbind]; eauto.
Qed.

(** On a table with the required columns and no missing grade,
    [identify_at_risk_students] returns its table for every threshold and
    every [min_weeks] of at least 2. *)
Lemma identify_at_risk_students_total (df : DataFrame) (threshold : Q)
      (min_weeks : Z) (decline_threshold : Q) :
  has_required df = true -> all_graded (rows df) = true -> (2 <= min_weeks)%Z ->
  exists risk,
    identify_at_risk_students df threshold min_weeks decline_threshold = Ok risk.
Proof.
  intros R G M. unfold has_required in R.
  apply andb_true_iff in R as [R Hg]. apply andb_true_iff in R as [Hs Hj].
  assert (C : forall c, has_column df c = true -> has_column (with_week df) c = true).
  { intros c E. unfold with_week.
    destruct (negb (has_column df "week") && has_column df "date"); auto.
    unfold has_column, assign_week_from_date. cbn [columns].
    rewrite existsb_add_column. unfold has_column in E. now rewrite E. }
  assert (G' : all_graded (rows (with_week df)) = true).
  { unfold with_week.
    destruct (negb (has_column df "week") && has_column df "date"); auto.
    unfold all_graded, assign_week_from_date in *. cbn [rows].
    rewrite forallb_forall in *. intros r I.
    apply in_map_iff in I as (r' & <- & I). cbn [grade]. auto. }
  unfold identify_at_risk_students, column. rewrite (C _ Hs). cbn [rbind].
  destruct (rmap_list_total
              (assess_student (with_week df) threshold min_weeks decline_threshold)
              (unique_cells (map student_id (rows (with_week df))))) as (res & ->).
  - rewrite Forall_forall. intros sid _. apply assess_student_total; auto.
  - cbn [rbind]. eauto.
Qed.

Lemma confidence_total (n : nat) (cw : week_number) :
  cw <> PyInt 0 -> exists c, confidence n cw = Ok c.
Proof.
  intros N. unfold confidence. destruct cw as [z|[|q]]; eauto.
  - destruct (z =? 0)%Z eqn:E; eauto.
    apply Z.eqb_eq in E. subst. congruence.
  - destruct (Qeq_bool q 0); eauto.
Qed.

Lemma predict_pair_total (df : DataFrame) (cw : week_number)
      (sid subj : option string) :
  has_column df "grade" = true -> all_graded (rows df) = true -> cw <> PyInt 0 ->
  exists o, predict_pair df cw sid subj = Ok o.
Proof.
  intros Hg G N. unfold predict_pair. fold (pair_data df sid subj).
  destruct (has_column df "week"); [|eauto]. rewrite Hg. cbn [negb].
  destruct (2 <=? _)%nat eqn:L; [|eauto]. apply Nat.leb_le in L.
  rewrite polyfit_well_posed.
  - cbn [rbind]. destruct (lstsq_line _ _) as [m c]. cbn [fst snd].
    destruct (confidence_total (List.length (weekly_grades (pair_data df sid subj)))
                               cw N) as (cf & ->).
    cbn [rbind]. unfold first_group.
    destruct (has_column df "group"); cbn [rbind]; [|eauto].
    destruct (pair_data df sid subj) eqn:D; [|cbn [rbind]; eauto].
    simpl in L. lia.
  - unfold week_axis. now rewrite !length_map.
  - apply weekly_means_numbers. unfold pair_data.
    now apply all_graded_filter, all_graded_filter.
  - now apply spread_week_axis.
Qed.

(** On a table with the required columns and no missing grade,
    [predict_final_grades] returns its table, unless the caller passes the
    week 0. *)
Lemma predict_final_grades_total (df : DataFrame) (current_week : option Z) :
  has_required df = true -> all_graded (rows df) = true ->
  current_week <> Some 0%Z ->
  exists preds, predict_final_grades df current_week = Ok preds.
Proof.
  intros R G N. unfold has_required in R.
  apply andb_true_iff in R as [R Hg]. apply andb_true_iff in R as [Hs Hj].
  unfold predict_final_grades, column. rewrite Hs. cbn [rbind].
  set (cw := match current_week with Some z => PyInt z | None => _ end).
  assert (Ncw : cw <> PyInt 0).
  { unfold cw. destruct current_week as [z|]; [congruence|].
    destruct (has_column df "week"); discriminate. }
  destruct (rmap_list_total (predict_student df cw)
                            (unique_cells (map student_id (rows df)))) as (ps & ->).
  - rewrite Forall_forall. intros sid _. unfold predict_student.
    rewrite Hj. cbn [negb].
    destruct (rmap_list_total (predict_pair df cw sid)
                (unique_cells (map subject (filter (student_is sid) (rows df)))))
      as (found & ->); [|cbn [rbind]; eauto].
    rewrite Forall_forall. intros subj _. now apply predict_pair_total.
  - cbn [rbind]. eauto.
Qed.

End AnalyzerProperties.

(* ================================================================= *)
(** * Further properties *)

(** ** [clean_data]: errors, shape, cleaning twice *)

Lemma length_unique_loop {A} (eqb : A -> A -> bool) (l seen : list A) :
  (List.length
     (fold_left (fun seen x => if mem eqb x seen then seen else (seen ++ [x])%list)
                l seen)
   <= List.length seen + List.length l)%nat.
Proof.
  revert seen; induction l as [|x t IH]; intros seen; simpl; [lia|].
  destruct (mem eqb x seen).
  - specialize (IH seen). lia.
  - specialize (IH (seen ++ [x])%list). rewrite length_app in IH. simpl in IH. lia.
Qed.

Lemma length_unique {A} (eqb : A -> A -> bool) (l : list A) :
  (List.length (unique eqb l) <= List.length l)%nat.
Proof. apply (length_unique_loop eqb l []). Qed.

(** The steps of [clean_data] on a table with the required columns. *)
Lemma clean_data_unfold (df : DataFrame) :
  has_required df = true ->
  clean_data df =
  Ok (add_date_fields
        (convert_types
           (select grade_in_range
              (select important_present
                 (fill_attendance
                    (map_rows
                       (fun r => set_grade
                                   (fillna (grade r)
                                           (subject_median (drop_duplicates df) r)) r)
                       (drop_duplicates df))))))).
Proof.
  intros R. pose proof R as R'. unfold has_required in R'.
  apply andb_true_iff in R' as [R' Hg]. apply andb_true_iff in R' as [Hs Hj].
  unfold clean_data, fill_grades.
  change (has_column (drop_duplicates df) "grade") with (has_column df "grade").
  change (has_column (drop_duplicates df) "subject") with (has_column df "subject").
  rewrite Hg, Hj. cbn [rbind].
  match goal with |- context [fill_attendance ?d] => set (d2 := fill_attendance d) end.
  assert (C2 : columns d2 = columns df).
  { unfold d2. now rewrite columns_fill_attendance. }
  rewrite dropna_important_ok.
  - cbn [rbind]. unfold keep_valid_grades at 1.
    change (has_column (select important_present d2) "grade")
      with (has_column d2 "grade").
    now rewrite (has_column_same d2 df _ C2), Hg.
  - unfold has_required. now rewrite !(has_column_same d2 df _ C2).
Qed.

Lemma clean_data_raises (df : DataFrame) :
  has_required df = false ->
  exists msg, clean_data df = Raise (Exn "KeyError" msg).
Proof.
  unfold has_required. intros R.
  unfold clean_data, fill_grades.
  change (has_column (drop_duplicates df) "grade") with (has_column df "grade").
  change (has_column (drop_duplicates df) "subject") with (has_column df "subject").
  destruct (has_column df "grade") eqn:Hg.
  - destruct (has_column df "subject") eqn:Hj.
    + rewrite andb_true_r in R. rewrite andb_true_r in R.
      cbn [rbind].
      match goal with |- context [fill_attendance ?d] => set (d2 := fill_attendance d) end.
      assert (C2 : columns d2 = columns df).
      { unfold d2. now rewrite columns_fill_attendance. }
      unfold dropna_important, important_columns. cbn [filter].
      rewrite !(has_column_same d2 df _ C2), R, Hj, Hg. cbn [negb rbind].
      eexists. reflexivity.
    + cbn [rbind]. unfold KeyError. eexists. reflexivity.
  - cbn [rbind].
    match goal with |- context [fill_attendance ?d] => set (d2 := fill_attendance d) end.
    assert (C2 : columns d2 = columns df).
    { unfold d2. now rewrite columns_fill_attendance. }
    unfold dropna_important, important_columns. cbn [filter].
    rewrite !(has_column_same d2 df _ C2), Hg. cbn [negb].
    destruct (has_column df "student_id"), (has_column df "subject");
      cbn [negb rbind]; eexists; reflexivity.
Qed.

Lemma clean_data_ok_required (df out : DataFrame) :
  clean_data df = Ok out -> has_required df = true.
Proof.
  intros E. destruct (has_required df) eqn:R; auto.
  destruct (clean_data_raises df R) as (msg & F). congruence.
Qed.

(** X1.  Without one of the three required columns [clean_data]
    raises a [KeyError] and returns no table; with the grade column and
    without the subject column it is the [KeyError] of 'subject', raised by
    the grouping of the grades. *)
Theorem clean_data_missing_column (df : DataFrame) :
  has_required df = false ->
  (exists msg, clean_data df = Raise (Exn "KeyError" msg)) /\
  (has_column df "grade" = true -> has_column df "subject" = false ->
   clean_data df = Raise (KeyError "subject")).
Proof.
  intros R. split.
  - apply clean_data_raises, R.
  - intros Hg Hj. unfold clean_data, fill_grades.
    change (has_column (drop_duplicates df) "grade") with (has_column df "grade").
    change (has_column (drop_duplicates df) "subject") with (has_column df "subject").
    now rewrite Hg, Hj.
Qed.

Lemma df_ext (a b : DataFrame) :
  columns a = columns b -> rows a = rows b -> a = b.
Proof. destruct a, b; simpl; intros -> ->; reflexivity. Qed.

Lemma rows_fill_attendance_map (df : DataFrame) :
  rows (fill_attendance df) =
  map (fun r => if has_column df "attendance"
                then set_attendance (fillna (attendance r) (Num 1)) r else r)
      (rows df).
Proof.
  unfold fill_attendance. destruct (has_column df "attendance"); simpl; auto.
  now rewrite map_id.
Qed.

Lemma rows_convert_types_map (df : DataFrame) :
  rows (convert_types df) =
  map (fun r =>
         let r := if has_column df "student_id" then student_id_astype_str r else r in
         if has_column df "group" then group_astype_str r else r)
      (rows df).
Proof.
  unfold convert_types.
  destruct (has_column df "student_id") eqn:S; cbn [rows map_rows columns].
  - change (has_column (map_rows student_id_astype_str df) "group")
      with (has_column df "group").
    destruct (has_column df "group"); cbn [rows map_rows]; rewrite ?map_map; auto.
  - destruct (has_column df "group"); cbn [rows map_rows]; auto.
    now rewrite map_id.
Qed.

Lemma rows_add_date_fields_map (df : DataFrame) :
  rows (add_date_fields df) =
  map (fun r => if has_column df "date" then derive_date_fields r else r) (rows df).
Proof.
  unfold add_date_fields. destruct (has_column df "date"); simpl; auto.
  now rewrite map_id.
Qed.

Lemma has_column_add_date_fields (df : DataFrame) (c : string) :
  has_column (add_date_fields df) c =
  has_column df c ||
  (has_column df "date" &&
   (String.eqb c "week" || String.eqb c "month" || String.eqb c "day_of_week")).
Proof.
  unfold add_date_fields. destruct (has_column df "date"); cbn [andb].
  - unfold has_column. cbn [columns]. rewrite !existsb_add_column.
    now rewrite !orb_assoc.
  - now rewrite orb_false_r.
Qed.

(** The columns of the cleaned table: those of the raw table, and with a
    date column the three derived ones. *)
Lemma clean_data_columns (df out : DataFrame) (c : string) :
  clean_data df = Ok out ->
  has_column out c =
  has_column df c ||
  (has_column df "date" &&
   (String.eqb c "week" || String.eqb c "month" || String.eqb c "day_of_week")).
Proof.
  intros E. pose proof (clean_data_ok_required _ _ E) as R.
  rewrite (clean_data_unfold df R) in E. injection E as <-.
  rewrite has_column_add_date_fields.
  match goal with |- context [convert_types ?d] =>
    assert (C : columns (convert_types d) = columns df)
      by (rewrite columns_convert_types; cbn [columns select];
          now rewrite columns_fill_attendance)
  end.
  now rewrite !(has_column_same _ df _ C).
Qed.

Lemma clean_data_keeps_columns (df out : DataFrame) (c : string) :
  clean_data df = Ok out -> has_column df c = true -> has_column out c = true.
Proof. intros E Hc. rewrite (clean_data_columns df out c E), Hc. reflexivity. Qed.

Lemma clean_data_derived_columns (df out : DataFrame) :
  clean_data df = Ok out -> has_column df "date" = true ->
  has_column out "week" = true /\ has_column out "month" = true /\
  has_column out "day_of_week" = true.
Proof.
  intros E Hd. rewrite !(clean_data_columns df out _ E), Hd. cbn.
  rewrite !orb_true_r. auto.
Qed.

(** X2.  [clean_data] never adds a row and never removes a column; with
    a date column the returned table has the columns [week], [month] and
    [day_of_week], and without one exactly the columns of the raw table. *)
Theorem clean_data_shrinks (df out : DataFrame) :
  clean_data df = Ok out ->
  (List.length (rows out) <= List.length (rows df))%nat /\
  (forall c, has_column df c = true -> has_column out c = true) /\
  (has_column df "date" = true ->
   has_column out "week" = true /\ has_column out "month" = true /\
   has_column out "day_of_week" = true) /\
  (has_column df "date" = false -> columns out = columns df).
Proof.
  intros E. split; [|split; [|split]].
  - pose proof (clean_data_ok_required _ _ E) as R.
    rewrite (clean_data_unfold df R) in E. injection E as <-.
    rewrite rows_add_date_fields_map, length_map.
    rewrite rows_convert_types_map, length_map. cbn [rows select].
    eapply Nat.le_trans; [apply filter_length_le|].
    eapply Nat.le_trans; [apply filter_length_le|].
    rewrite rows_fill_attendance_map, length_map. cbn [rows map_rows].
    rewrite length_map. apply length_unique.
  - intros c. now apply clean_data_keeps_columns.
  - now apply clean_data_derived_columns.
  - intros Hd. pose proof (clean_data_ok_required _ _ E) as R.
    rewrite (clean_data_unfold df R) in E. injection E as <-.
    match goal with |- context [convert_types ?d] =>
      assert (C : columns (convert_types d) = columns df)
        by (rewrite columns_convert_types; cbn [columns select];
            now rewrite columns_fill_attendance)
    end.
    unfold add_date_fields. now rewrite (has_column_same _ df "date" C), Hd.
Qed.

(** The last three steps on one row that passed the two filters. *)
Lemma finished_row (sid grp dat att : bool) (r0 : row) :
  let r1 := if att then set_attendance (fillna (attendance r0) (Num 1)) r0 else r0 in
  let r2 := if sid then student_id_astype_str r1 else r1 in
  let r3 := if grp then group_astype_str r2 else r2 in
  let r4 := if dat then derive_date_fields r3 else r3 in
  important_present r1 = true ->
  (att = true -> exists a, attendance r4 = Num a) /\
  (grp = true -> exists g, group r4 = Some g) /\
  (dat = true ->
   week r4 = option_map isocalendar_week (date r4) /\
   month r4 = option_map dt_month (date r4) /\
   day_of_week r4 = option_map dt_day_name (date r4)) /\
  student_id_astype_str r4 = r4.
Proof.
  destruct r0 as [[s|] j g p w d [|a] m n];
    destruct sid, grp, dat, att; cbn; intros P;
    try discriminate;
    repeat split; intros; try discriminate; eauto;
    unfold astype_str; eauto.
Qed.

Lemma clean_data_settled (df out : DataFrame) :
  clean_data df = Ok out -> Forall (settled_row out) (rows out).
Proof.
  intros E. pose proof (clean_data_ok_required _ _ E) as R.
  pose proof (clean_data_columns df out "attendance" E) as Ca.
  pose proof (clean_data_columns df out "group" E) as Cg.
  pose proof (clean_data_columns df out "date" E) as Cd.
  cbn in Ca, Cg, Cd. rewrite andb_false_r, orb_false_r in Ca, Cg, Cd.
  unfold settled_row. rewrite Ca, Cg, Cd. clear Ca Cg Cd.
  rewrite (clean_data_unfold df R) in E. injection E as <-.
  rewrite rows_add_date_fields_map, rows_convert_types_map, map_map.
  cbn [rows select]. rewrite Forall_map, Forall_forall. intros r I.
  apply filter_In in I as [I _]. apply filter_In in I as [I P].
  rewrite rows_fill_attendance_map in I. apply in_map_iff in I as (r0 & <- & I0).
  match goal with |- context [convert_types ?d] =>
    assert (C : columns (convert_types d) = columns df)
      by (rewrite columns_convert_types; cbn [columns select];
          now rewrite columns_fill_attendance)
  end.
  rewrite (has_column_same _ df "date" C).
  match type of P with context [has_column ?d "attendance"] =>
    change (has_column d "attendance") with (has_column df "attendance") in *
  end.
  match goal with |- context [has_column ?d "student_id"] =>
    assert (C' : columns d = columns df)
      by (cbn [columns select]; now rewrite columns_fill_attendance);
    rewrite (has_column_same d df "student_id" C'),
            (has_column_same d df "group" C')
  end.
  destruct (finished_row (has_column df "student_id") (has_column df "group")
                         (has_column df "date") (has_column df "attendance")
                         r0 P) as (A & G & D & _).
  cbv zeta in A, G, D. auto.
Qed.

Lemma clean_data_clean_rows (df out : DataFrame) :
  clean_data df = Ok out -> Forall clean_row (rows out).
Proof.
  intros E. pose proof (clean_data_ok_required _ _ E) as R.
  rewrite (clean_data_unfold df R) in E. injection E as <-.
  apply clean_rows_add_date_fields, clean_rows_convert_types.
  cbn [rows select]. rewrite Forall_forall. intros r I.
  apply filter_In in I as [I G]. apply filter_In in I as [_ P].
  now apply clean_row_selected.
Qed.

Lemma add_column_present (cols : list string) (c : string) :
  existsb (String.eqb c) cols = true -> add_column cols c = cols.
Proof. unfold add_column. now intros ->. Qed.

Lemma clean_row_passes (r : row) :
  clean_row r -> important_present r = true /\ grade_in_range r = true.
Proof.
  intros (S & J & g & G & L & U). unfold important_present, grade_in_range.
  rewrite G. destruct (student_id r); [|congruence].
  destruct (subject r); [|congruence]. split; auto.
  unfold pf_ge, pf_le. apply andb_true_iff. split; now apply Qle_bool_iff.
Qed.

(** A row that cleaning has settled is not changed by cleaning. *)
Lemma settled_row_fixed (out : DataFrame) (r : row) :
  clean_row r -> settled_row out r ->
  set_grade (fillna (grade r) NaN) r = r /\
  (has_column out "attendance" = true ->
   set_attendance (fillna (attendance r) (Num 1)) r = r) /\
  student_id_astype_str r = r /\
  (has_column out "group" = true -> group_astype_str r = r) /\
  (has_column out "date" = true -> derive_date_fields r = r).
Proof.
  intros (S & J & g & G & _) (A & P & D).
  destruct r as [s j gr p w d a m n]. cbn in *. subst gr.
  repeat split.
  - intros Ha. destruct (A Ha) as (x & ->). reflexivity.
  - destruct s; [reflexivity|congruence].
  - intros Hp. destruct (P Hp) as (x & ->). reflexivity.
  - intros Hd. destruct (D Hd) as (-> & -> & ->). reflexivity.
Qed.

Lemma clean_data_again (df out : DataFrame) :
  clean_data df = Ok out -> clean_data out = Ok (drop_duplicates out).
Proof.
  intros E.
  pose proof (clean_data_clean_rows _ _ E) as V.
  pose proof (clean_data_settled _ _ E) as T.
  pose proof (clean_data_ok_required _ _ E) as R.
  pose proof (clean_data_derived_columns _ _ E) as W.
  assert (R' : has_required out = true).
  { unfold has_required in *.
    apply andb_true_iff in R as [R Hg]. apply andb_true_iff in R as [Hs Hj].
    now rewrite (clean_data_keeps_columns _ _ _ E Hs),
                (clean_data_keeps_columns _ _ _ E Hj),
                (clean_data_keeps_columns _ _ _ E Hg). }
  rewrite (clean_data_unfold out R'). f_equal.
  set (d0 := drop_duplicates out).
  assert (F : forall r, In r (rows d0) -> clean_row r /\ settled_row out r).
  { intros r I. apply unique_incl in I. rewrite Forall_forall in V, T. auto. }
  set (g := fun r => set_grade (fillna (grade r) (subject_median d0 r)) r).
  assert (E1 : rows (map_rows g d0) = rows d0).
  { cbn [rows map_rows]. apply map_same_in. intros r I.
    destruct (F r I) as [(_ & _ & x & G & _) _]. unfold g. rewrite G. cbn [fillna].
    rewrite <- G. apply set_grade_same. }
  assert (E2 : rows (fill_attendance (map_rows g d0)) = rows d0).
  { rewrite rows_fill_attendance_map, E1.
    change (has_column (map_rows g d0) "attendance")
      with (has_column out "attendance").
    apply map_same_in. intros r I. destruct (F r I) as [C S].
    destruct (has_column out "attendance") eqn:Ha; auto.
    now apply (settled_row_fixed out r C S). }
  set (d2 := fill_attendance (map_rows g d0)) in *.
  assert (C2 : columns d2 = columns out).
  { unfold d2. now rewrite columns_fill_attendance. }
  assert (E4 : rows (select grade_in_range (select important_present d2)) = rows d0).
  { cbn [rows select]. rewrite E2.
    rewrite (filter_all_true important_present).
    - apply filter_all_true. intros r I. now apply clean_row_passes, F.
    - intros r I. now apply clean_row_passes, F. }
  set (d4 := select grade_in_range (select important_present d2)) in *.
  assert (C4 : columns d4 = columns out) by exact C2.
  assert (E5 : rows (convert_types d4) = rows d0).
  { rewrite rows_convert_types_map, E4.
    rewrite !(has_column_same d4 out _ C4).
    apply map_same_in. intros r I. destruct (F r I) as [C S].
    destruct (settled_row_fixed out r C S) as (_ & _ & Es & Eg & _).
    cbv zeta. destruct (has_column out "student_id"); rewrite ?Es;
      destruct (has_column out "group"); auto. }
  assert (C5 : columns (convert_types d4) = columns out).
  { now rewrite columns_convert_types. }
  apply df_ext.
  - unfold add_date_fields. rewrite (has_column_same _ out "date" C5).
    destruct (has_column out "date") eqn:Hd; [|exact C5].
    cbn [columns]. rewrite C5.
    assert (Hw : has_column out "week" = true /\ has_column out "month" = true /\
                 has_column out "day_of_week" = true).
    { pose proof (clean_data_columns df out "date" E) as Cd.
      cbn in Cd. rewrite andb_false_r, orb_false_r in Cd.
      apply W. congruence. }
    destruct Hw as (Hw & Hm & Hn). unfold has_column in Hw, Hm, Hn.
    rewrite (add_column_present _ "week" Hw), (add_column_present _ "month" Hm).
    now rewrite (add_column_present _ "day_of_week" Hn).
  - rewrite rows_add_date_fields_map, E5.
    rewrite (has_column_same _ out "date" C5).
    apply map_same_in. intros r I. destruct (F r I) as [C S].
    destruct (has_column out "date") eqn:Hd; auto.
    now apply (settled_row_fixed out r C S).
Qed.

Lemma unique_loop_fixed {A} (eqb : A -> A -> bool) (l seen : list A) :
  (forall y, In y l -> Forall (fun s => eqb y s = false) seen) ->
  ForallOrdPairs (fun a b => eqb b a = false) l ->
  fold_left (fun seen x => if mem eqb x seen then seen else (seen ++ [x])%list)
            l seen
  = (seen ++ l)%list.
Proof.
  revert seen; induction l as [|x t IH]; intros seen S D; simpl.
  - now rewrite app_nil_r.
  - inversion D as [|? ? Dx Dt]; subst.
    assert (M : mem eqb x seen = false).
    { apply existsb_false_forall, S. simpl. auto. }
    rewrite M, IH; auto.
    + now rewrite <- app_assoc.
    + intros y I. apply Forall_app. split; [apply S; simpl; auto|].
      constructor; [|constructor]. rewrite Forall_forall in Dx. auto.
Qed.

Lemma drop_duplicates_fixed (df : DataFrame) :
  no_duplicate_rows df -> drop_duplicates df = df.
Proof.
  intros N. apply df_ext; [reflexivity|]. cbn [rows drop_duplicates].
  apply (unique_loop_fixed (same_row (columns df)) (rows df) []).
  - intros. constructor.
  - eapply ForallOrdPairs_impl_in; [|exact N].
    intros a b _ _ E. now rewrite same_row_sym.
Qed.

(** X3.  In the table returned by [clean_data] no attendance and no
    group is missing, and with a date column the week, the month and the
    weekday of every row are those of its date. *)
Theorem clean_data_settles_rows (df out : DataFrame) (r : row) :
  clean_data df = Ok out -> In r (rows out) ->
  (has_column out "attendance" = true -> exists a, attendance r = Num a) /\
  (has_column out "group" = true -> exists g, group r = Some g) /\
  (has_column out "date" = true ->
   week r = option_map isocalendar_week (date r) /\
   month r = option_map dt_month (date r) /\
   day_of_week r = option_map dt_day_name (date r)).
Proof.
  intros E I. pose proof (clean_data_settled df out E) as F.
  rewrite Forall_forall in F. exact (F r I).
Qed.

(** X4.  Cleaning a cleaned table only removes the rows that the first
    cleaning made identical, every other step leaves it as it is: a cleaned
    table without duplicate rows is cleaned to itself. *)
Theorem clean_data_twice (df out : DataFrame) :
  clean_data df = Ok out ->
  clean_data out = Ok (drop_duplicates out) /\
  (no_duplicate_rows out -> clean_data out = Ok out).
Proof.
  intros E. pose proof (clean_data_again df out E) as T. split; auto.
  intros N. now rewrite T, drop_duplicates_fixed.
Qed.

(* ================================================================= *)
(** ** The analyses on tables without a missing grade *)

Section FurtherAnalyzerProperties.
Context `{Numerics}.

Lemma all_graded_assign_week (df : DataFrame) :
  all_graded (rows df) = true ->
  all_graded (rows (assign_week_from_date df)) = true.
Proof.
  unfold all_graded, assign_week_from_date. cbn [rows].
  rewrite !forallb_forall. intros G r I.
  apply in_map_iff in I as (r' & <- & I). cbn [grade]. auto.
Qed.

Lemma polyfit_weekly_positions (data : list row) :
  all_graded data = true -> (2 <= List.length (weekly_grades data))%nat ->
  exists m c,
    polyfit (arange (List.length (weekly_grades data))) (map snd (weekly_grades data))
    = Ok (Num m, Num c).
Proof.
  intros G L. rewrite polyfit_well_posed; eauto.
  - unfold arange. now rewrite !length_map, length_seq.
  - now apply weekly_means_numbers.
  - now apply spread_arange.
Qed.

Lemma risk_student_trend_total (df : DataFrame) (sid : string) :
  all_graded (rows df) = true -> exists o, risk_student_trend df sid = Ok o.
Proof.
  intros G. unfold risk_student_trend.
  destruct (has_column df "week" || has_column df "date"); [|eauto].
  set (sd := select (student_is (Some sid)) df).
  assert (Gs : all_graded (rows sd) = true) by (apply all_graded_filter, G).
  set (sd' := if negb (has_column sd "week") && has_column sd "date"
              then assign_week_from_date sd else sd).
  assert (Gs' : all_graded (rows sd') = true).
  { unfold sd'. destruct (negb (has_column sd "week") && has_column sd "date"); auto.
    now apply all_graded_assign_week. }
  destruct (has_column sd' "week"); [|eauto].
  destruct (1 <? List.length (weekly_grades (rows sd')))%nat eqn:L; [|eauto].
  apply Nat.ltb_lt in L.
  destruct (polyfit_weekly_positions (rows sd') Gs') as (m & c & ->); [lia|].
  cbn [rbind]. eauto.
Qed.

Lemma trends_stage_total (df : DataFrame) :
  all_graded (rows df) = true ->
  exists trends, fst (trends_stage df) = Ok trends.
Proof.
  intros G. unfold trends_stage, bind, get, put, ret, lift.
  destruct (has_column df "week") eqn:W; cbn [orb negb].
  - destruct (1 <? List.length (weekly_grades (rows df)))%nat eqn:L; [|cbn; eauto].
    apply Nat.ltb_lt in L.
    destruct (polyfit_weekly_positions (rows df) G) as (m & c & ->); [lia|].
    cbn. eauto.
  - destruct (has_column df "date"); [|cbn; eauto].
    set (d := assign_week_from_date df).
    destruct (1 <? List.length (weekly_grades (rows d)))%nat eqn:L; [|cbn; eauto].
    apply Nat.ltb_lt in L.
    destruct (polyfit_weekly_positions (rows d) (all_graded_assign_week df G))
      as (m & c & ->); [fold d; lia|].
    cbn. eauto.
Qed.

Lemma analyze_performance_returns (risk_threshold : Q) (min_records : Z)
      (now : string) (df : DataFrame) :
  has_required df = true -> all_graded (rows df) = true ->
  exists res df',
    analyze_performance risk_threshold min_records now df = (Ok res, df').
Proof.
  intros R G.
  destruct (overall_stats_present df R) as (overall & O).
  destruct (rmap_list_total (risk_student_info df)
                            (risk_candidates df risk_threshold min_records))
    as (risk_list & RL).
  { rewrite Forall_forall. intros s _. unfold risk_student_info.
    destruct (risk_student_trend_total df (StudentStats.student_id s) G) as (o & ->).
    cbn [rbind]. eauto. }
  destruct (trends_stage_total df G) as (trends & T).
  destruct (trends_stage df) as [t df'] eqn:Et. cbn [fst] in T. subst t.
  eexists _, df'. exact (analyze_performance_steps _ _ _ _ _ _ _ _ O RL Et).
Qed.

(** X5.  On a table with the three required columns and no missing
    grade [analyze_performance] returns a result, whatever the numerical
    calls do; the caller's table has then got the week column assigned if it
    had a date and no week, and is unchanged otherwise. *)
Theorem analyze_performance_total (risk_threshold : Q) (min_records : Z)
        (now : string) (df : DataFrame) :
  has_required df = true -> all_graded (rows df) = true ->
  exists res,
    analyze_performance risk_threshold min_records now df
    = (Ok res, if negb (has_column df "week") && has_column df "date"
               then assign_week_from_date df else df).
Proof.
  intros R G.
  destruct (analyze_performance_returns risk_threshold min_records now df R G)
    as (res & df' & A).
  exists res. rewrite A. f_equal.
  apply analyze_performance_ok in A as (o & r & t & _ & _ & T & _).
  rewrite <- trends_stage_state, T. reflexivity.
Qed.

Lemma clean_rows_all_graded (l : list row) :
  Forall clean_row l -> all_graded l = true.
Proof.
  intros F. unfold all_graded. rewrite forallb_forall. rewrite Forall_forall in F.
  intros r I. destruct (F r I) as (_ & _ & g & -> & _). reflexivity.
Qed.

Lemma clean_data_analysable (df out : DataFrame) :
  clean_data df = Ok out ->
  has_required out = true /\ all_graded (rows out) = true /\
  (has_column out "week" = true \/ has_column out "date" = false).
Proof.
  intros E. pose proof (clean_data_ok_required _ _ E) as R.
  pose proof (clean_data_derived_columns _ _ E) as W.
  split; [|split].
  - unfold has_required in *.
    apply andb_true_iff in R as [R Hg]. apply andb_true_iff in R as [Hs Hj].
    now rewrite (clean_data_keeps_columns _ _ _ E Hs),
                (clean_data_keeps_columns _ _ _ E Hj),
                (clean_data_keeps_columns _ _ _ E Hg).
  - apply clean_rows_all_graded. now apply clean_data_clean_rows with df.
  - pose proof (clean_data_columns df out "date" E) as Cd.
    cbn in Cd. rewrite andb_false_r, orb_false_r in Cd.
    destruct (has_column df "date") eqn:D; [left; now apply W | right; exact Cd].
Qed.


(* --------------------------------------------------------------- *)
(** *** The rows of [identify_at_risk_students] *)

Lemma weekly_grades_nil : weekly_grades [] = [].
Proof. reflexivity. Qed.

Lemma trend_factors_length (df_copy : DataFrame) (data : list row)
      (min_weeks : Z) (decline_threshold : Q) (fs : list string) :
  trend_factors df_copy data min_weeks decline_threshold = Ok fs ->
  (List.length fs <= 2)%nat /\ (data = [] -> fs = []).
Proof.
  unfold trend_factors.
  destruct (has_column df_copy "week" && _)%bool;
    [|intros E; injection E as <-; simpl; split; [lia|auto]].
  destruct (min_weeks <=? _)%Z eqn:L;
    [|intros E; injection E as <-; simpl; split; [lia|auto]].
  destruct (polyfit _ _) as [fit|e] eqn:P; cbn [rbind]; [|discriminate].
  intros E; injection E as <-. split.
  - rewrite length_app.
    repeat match goal with
           | |- context [if ?c then _ else _] => destruct c
           end; simpl; lia.
  - intros ->. rewrite weekly_grades_nil in P. discriminate P.
Qed.

Lemma student_risk_factors_length (df_copy : DataFrame) (data : list row)
      (threshold : Q) (min_weeks : Z) (decline_threshold : Q)
      (fs : list string) :
  student_risk_factors df_copy data threshold min_weeks decline_threshold = Ok fs ->
  (List.length fs <= 5)%nat /\ (data = [] -> fs = []).
Proof.
  unfold student_risk_factors.
  destruct (trend_factors _ _ _ _) as [tr|e] eqn:T; cbn [rbind]; [|discriminate].
  apply trend_factors_length in T as [Lt Et].
  intros E; injection E as <-. split.
  - rewrite !length_app.
    repeat match goal with
           | |- context [if ?c then _ else _] => destruct c
           end; simpl; lia.
  - intros ->. rewrite (Et eq_refl). cbn.
    now destruct (has_column df_copy "attendance").
Qed.

Lemma assess_student_row (df_copy : DataFrame) (threshold : Q) (min_weeks : Z)
      (decline_threshold : Q) (sid : option string) (r : RiskInfo.t) :
  assess_student df_copy threshold min_weeks decline_threshold sid = Ok (Some r) ->
  RiskInfo.student_id r = sid /\
  RiskInfo.total_grades r
    = List.length (filter (student_is sid) (rows df_copy)) /\
  (1 <= RiskInfo.total_grades r)%nat /\
  (1 <= RiskInfo.risk_score r <= 5)%nat /\
  RiskInfo.subject_count r
    = nunique String.eqb (map subject (filter (student_is sid) (rows df_copy))).
Proof.
  unfold assess_student.
  destruct (negb (has_column df_copy "grade")); [discriminate|].
  destruct (negb (has_column df_copy "subject")); [discriminate|].
  destruct (student_risk_factors _ _ _ _ _) as [fs|e] eqn:F; cbn [rbind];
    [|discriminate].
  apply student_risk_factors_length in F as [L5 Enil].
  destruct fs as [|f fs]; [discriminate|].
  destruct (first_group _ _) as [g|e]; cbn [rbind]; [|discriminate].
  intros E; injection E as <-. cbn.
  simpl in L5. repeat split; auto; try lia.
  destruct (filter (student_is sid) (rows df_copy)); simpl; [|lia].
  discriminate (Enil eq_refl).
Qed.

Lemma filter_student_map (f : row -> row) (sid : option string) (l : list row) :
  (forall r, student_id (f r) = student_id r) ->
  filter (student_is sid) (map f l) = map f (filter (student_is sid) l).
Proof.
  intros Hf. induction l as [|r t IH]; simpl; auto.
  replace (student_is sid (f r)) with (student_is sid r)
    by (unfold student_is; now rewrite Hf).
  destruct (student_is sid r); simpl; now rewrite IH.
Qed.

Lemma filter_student_with_week (df : DataFrame) (sid : option string) :
  map grade (filter (student_is sid) (rows (with_week df)))
  = map grade (filter (student_is sid) (rows df)) /\
  List.length (filter (student_is sid) (rows (with_week df)))
  = List.length (filter (student_is sid) (rows df)) /\
  map student_id (rows (with_week df)) = map student_id (rows df).
Proof.
  unfold with_week.
  destruct (negb (has_column df "week") && has_column df "date"); auto.
  unfold assign_week_from_date. cbn [rows].
  rewrite filter_student_map by reflexivity.
  rewrite !map_map, length_map. cbn [grade student_id]. auto.
Qed.

Lemma student_is_some_row (sid : option string) (l : list row) :
  filter (student_is sid) l <> [] ->
  exists s, sid = Some s /\ In (Some s) (map student_id l).
Proof.
  intros N. destruct (filter (student_is sid) l) as [|r t] eqn:F; [congruence|].
  assert (I : In r (filter (student_is sid) l)) by (rewrite F; now left).
  apply filter_In in I as [I S]. unfold student_is, cell_eq in S.
  destruct (student_id r) as [a|] eqn:Ea; [|discriminate].
  destruct sid as [b|]; [|discriminate].
  apply String.eqb_eq in S. subst b. exists a. split; auto.
  rewrite <- Ea. now apply in_map.
Qed.

Lemma opt_string_eqb_eq (a b : option string) :
  opt_eqb String.eqb a b = true <-> a = b.
Proof.
  destruct a as [a|], b as [b|]; simpl; try (split; [discriminate|congruence]).
  - rewrite String.eqb_eq. split; congruence.
  - tauto.
Qed.

Lemma unique_cells_NoDup (l : list (option string)) : NoDup (unique_cells l).
Proof.
  unfold unique_cells.
  rewrite (unique_dedup_first _ opt_string_eqb_eq).
  apply dedup_first_NoDup, opt_string_eqb_eq.
Qed.

(** The entries found along a list of distinct keys have distinct keys. *)
Lemma somes_keys_NoDup {K B} (R : K -> option B -> Prop) (key : B -> K)
      (l : list K) (l' : list (option B)) :
  (forall k b, R k (Some b) -> key b = k) ->
  Forall2 R l l' -> NoDup l ->
  NoDup (map key (somes l')) /\
  (forall k, In k (map key (somes l')) -> In k l).
Proof.
  intros Hk F. induction F as [|k o l l' Rk _ IH]; simpl; intros N.
  - split; [constructor|tauto].
  - inversion N as [|? ? Nk Nl]; subst. destruct (IH Nl) as [IN II].
    destruct o as [b|]; simpl.
    + rewrite (Hk _ _ Rk). split.
      * constructor; auto.
      * intros k' [<-|I]; auto.
    + split; auto.
Qed.

(** X6.  [identify_at_risk_students] lists a student at most once.
    Every row is for a student identifier present in the table, never for
    the missing one; it counts the records of that student, one at least,
    and its risk score lies between 1 and 5. *)
Theorem identify_at_risk_students_rows (df : DataFrame) (threshold : Q)
        (min_weeks : Z) (decline_threshold : Q) (risk : list RiskInfo.t) :
  identify_at_risk_students df threshold min_weeks decline_threshold = Ok risk ->
  NoDup (map RiskInfo.student_id risk) /\
  Forall (fun r =>
            (exists sid, RiskInfo.student_id r = Some sid /\
                         In (Some sid) (map student_id (rows df))) /\
            RiskInfo.total_grades r
              = List.length (filter (student_is (RiskInfo.student_id r)) (rows df)) /\
            (1 <= RiskInfo.total_grades r)%nat /\
            (1 <= RiskInfo.risk_score r <= 5)%nat)
         risk.
Proof.
  unfold identify_at_risk_students.
  destruct (column (with_week df) "student_id" student_id) as [ids|e] eqn:C;
    cbn [rbind]; [|discriminate].
  destruct (rmap_list _ _) as [results|e] eqn:R; cbn [rbind]; [|discriminate].
  intros E; injection E as <-.
  apply rmap_list_ok in R.
  split.
  - eapply Permutation_NoDup;
      [apply Permutation_map, Permutation_sym, sort_by_perm|].
    assert (Hk : forall k b,
               assess_student (with_week df) threshold min_weeks
                              decline_threshold k = Ok (Some b) ->
               RiskInfo.student_id b = k)
      by (intros k b A; now apply assess_student_row in A as (Es & _)).
    exact (proj1 (somes_keys_NoDup _ RiskInfo.student_id _ _ Hk R
                                   (unique_cells_NoDup _))).
  - rewrite Forall_forall. intros r I.
    apply in_sort_by, in_somes in I.
    destruct (Forall2_in_right _ _ _ _ R I) as (sid & _ & A).
    apply assess_student_row in A as (Es & Et & L1 & L5 & _).
    destruct (filter_student_with_week df sid) as (_ & El & Ei).
    rewrite Es, <- El. split; [|split; [exact Et|split; [exact L1|exact L5]]].
    destruct (student_is_some_row sid (rows (with_week df))) as (s & -> & Is).
    { intros Z0. rewrite Et, Z0 in L1. simpl in L1. lia. }
    exists s. now rewrite <- Ei.
Qed.

(* --------------------------------------------------------------- *)
(** *** A mean below the threshold *)

Lemma prefix_app (a s : string) : prefix a (a ++ s) = true.
Proof.
  induction a as [|c a IH]; simpl; [now destruct s|].
  destruct (ascii_dec c c); [exact IH|congruence].
Qed.

Lemma contains_prefix_app (a s : string) : contains a (a ++ s) = true.
Proof.
  pose proof (prefix_app a s) as P.
  destruct (a ++ s) as [|c t]; cbn [contains]; now rewrite P.
Qed.





(* --------------------------------------------------------------- *)
(** *** The rows of [predict_final_grades] *)

Lemma predict_final_grades_ok (df : DataFrame) (current_week : option Z)
      (preds : list Prediction.t) :
  predict_final_grades df current_week = Ok preds ->
  exists per_student,
    Forall2 (fun sid l => predict_student df (resolved_week df current_week) sid = Ok l)
            (unique_cells (map student_id (rows df))) per_student /\
    preds = sort_by prediction_before (List.concat per_student).
Proof.
  unfold predict_final_grades, column. fold (resolved_week df current_week).
  destruct (has_column df "student_id"); cbn [rbind]; [|discriminate].
  destruct (rmap_list _ _) as [per_student|e] eqn:E; cbn [rbind]; [|discriminate].
  intros R. injection R as <-. apply rmap_list_ok in E. eauto.
Qed.

Lemma predict_student_ok (df : DataFrame) (cw : week_number)
      (sid : option string) (l : list Prediction.t) :
  predict_student df cw sid = Ok l ->
  exists found,
    Forall2 (fun subj o => predict_pair df cw sid subj = Ok o)
            (unique_cells (map subject (filter (student_is sid) (rows df))))
            found /\
    l = somes found.
Proof.
  unfold predict_student.
  destruct (has_column df "subject"); cbn [negb rbind]; [|discriminate].
  destruct (rmap_list _ _) as [found|e] eqn:F; cbn [rbind]; [|discriminate].
  intros R. injection R as <-. apply rmap_list_ok in F. eauto.
Qed.

Lemma predict_final_grades_pair (df : DataFrame) (current_week : option Z)
      (preds : list Prediction.t) (p : Prediction.t) :
  predict_final_grades df current_week = Ok preds -> In p preds ->
  exists sid subj,
    predict_pair df (resolved_week df current_week) sid subj = Ok (Some p).
Proof.
  intros E I. apply predict_final_grades_ok in E as (per_student & F & ->).
  apply in_sort_by, in_concat in I as (ps & Ips & Ip).
  destruct (Forall2_in_right _ _ _ _ F Ips) as (sid & _ & S).
  apply predict_student_ok in S as (found & Ff & ->).
  apply in_somes in Ip.
  destruct (Forall2_in_right _ _ _ _ Ff Ip) as (subj & _ & P). eauto.
Qed.

Lemma predict_pair_fields (df : DataFrame) (cw : week_number)
      (sid subj : option string) (p : Prediction.t) :
  predict_pair df cw sid subj = Ok (Some p) ->
  Prediction.student_id p = sid /\ Prediction.subject p = subj /\
  Prediction.current_week p = cw /\
  (2 <= Prediction.weeks_available p)%nat /\
  Prediction.weeks_available p
    = List.length (weekly_grades (pair_data df sid subj)) /\
  confidence (Prediction.weeks_available p) cw
    = Ok (Prediction.prediction_confidence p).
Proof.
  unfold predict_pair. fold (pair_data df sid subj).
  destruct (has_column df "week"); [|discriminate].
  destruct (has_column df "grade"); cbn [negb]; [|discriminate].
  match goal with |- context [(2 <=? ?n)%nat] =>
    destruct (2 <=? n)%nat eqn:L end; [|discriminate].
  apply Nat.leb_le in L.
  destruct (polyfit _ _) as [[slope intercept]|e] eqn:F; cbn [rbind]; [|discriminate].
  destruct (confidence _ _) as [conf|e] eqn:C; cbn [rbind]; [|discriminate].
  destruct (first_group _ _) as [g|e]; cbn [rbind]; [|discriminate].
  intros E. injection E as <-. cbn. repeat split; auto.
Qed.

Lemma confidence_positive_week (n : nat) (w : Z) (c : pyfloat) :
  (0 < w)%Z -> (1 <= n)%nat -> confidence n (PyInt w) = Ok c ->
  exists q, c = Num q /\ 0 < q /\ q <= 1 /\
            ((w <= Z.of_nat n)%Z -> q == 1) /\
            ((Z.of_nat n < w)%Z -> q == Qnat n / inject_Z w /\ q < 1).
Proof.
  intros W N. unfold confidence.
  destruct (w =? 0)%Z eqn:E; [apply Z.eqb_eq in E; lia|].
  intros C.
  assert (Ec : c = py_min (Num 1) (Num (Qred (Qnat n / inject_Z w))))
    by congruence.
  clear C. subst c.
  assert (Wq : 0 < inject_Z w)
    by (change 0 with (inject_Z 0); now rewrite <- Zlt_Qlt).
  assert (Nq : 0 < Qnat n)
    by (unfold Qnat; change 0 with (inject_Z 0); rewrite <- Zlt_Qlt; lia).
  assert (X : Qnat n == Qnat n / inject_Z w * inject_Z w) by (field; lra).
  assert (P : 0 < Qnat n / inject_Z w) by (apply Qlt_shift_div_l; lra).
  assert (D : Qnat n / inject_Z w < 1 <-> (Z.of_nat n < w)%Z).
  { rewrite <- (Qmult_lt_r _ _ (inject_Z w) Wq), <- X, Qmult_1_l.
    unfold Qnat. now rewrite <- Zlt_Qlt. }
  pose proof (Qred_correct (Qnat n / inject_Z w)) as Rc.
  set (r := Qred (Qnat n / inject_Z w)) in *.
  unfold py_min, pf_lt.
  destruct (Qltb r 1) eqn:L.
  - apply Qltb_lt in L. rewrite Rc in L.
    exists r. split; [reflexivity|]. rewrite Rc.
    split; [lra|]. split; [lra|]. split.
    + intros Wn. apply D in L. lia.
    + intros _. split; [reflexivity|exact L].
  - apply Qltb_ge in L. rewrite Rc in L.
    exists 1. split; [reflexivity|]. split; [lra|]. split; [lra|]. split.
    + intros _. reflexivity.
    + intros Lt. apply D in Lt. lra.
Qed.

(** X8.  With a positive [current_week] every row of
    [predict_final_grades] records that week and two weeks of data at least;
    its confidence lies above 0 and at most at 1: it is 1 when the weeks of
    data reach the current week, and the weeks of data over the current week
    otherwise. *)
Theorem prediction_confidence_range (df : DataFrame) (w : Z)
        (preds : list Prediction.t) :
  predict_final_grades df (Some w) = Ok preds -> (0 < w)%Z ->
  Forall (fun p =>
            Prediction.current_week p = PyInt w /\
            (2 <= Prediction.weeks_available p)%nat /\
            exists c,
              Prediction.prediction_confidence p = Num c /\
              0 < c /\ c <= 1 /\
              ((w <= Z.of_nat (Prediction.weeks_available p))%Z -> c == 1) /\
              ((Z.of_nat (Prediction.weeks_available p) < w)%Z ->
               c == Qnat (Prediction.weeks_available p) / inject_Z w /\ c < 1))
         preds.
Proof.
  intros E W. rewrite Forall_forall. intros p I.
  destruct (predict_final_grades_pair _ _ _ _ E I) as (sid & subj & P).
  apply predict_pair_fields in P as (_ & _ & Cw & L & _ & C).
  cbn [resolved_week] in Cw, C. split; [exact Cw|]. split; [exact L|].
  apply confidence_positive_week in C; auto; lia.
Qed.

(* --------------------------------------------------------------- *)
(** *** The current week 0 *)

Lemma rmap_list_raise {A B} (f : A -> result B) (l : list A) (e : exn) :
  (forall a, In a l -> (exists b, f a = Ok b) \/ f a = Raise e) ->
  (exists a, In a l /\ f a = Raise e) ->
  rmap_list f l = Raise e.
Proof.
  induction l as [|x t IH]; intros All (a & I & Ra); [destruct I|].
  simpl. destruct (All x (or_introl eq_refl)) as [(b & Eb)|Eb];
    rewrite Eb; [|reflexivity].
  cbn [rbind]. destruct I as [<-|I]; [congruence|].
  rewrite IH; eauto. intros y Iy. apply All. now right.
Qed.

Lemma rmap_list_nones {A B} (f : A -> result (option B)) (l : list A) :
  (forall a, In a l -> f a = Ok None) ->
  exists found, rmap_list f l = Ok found /\ somes found = [].
Proof.
  induction l as [|x t IH]; intros All; simpl; [eauto|].
  rewrite (All x (or_introl eq_refl)). cbn [rbind].
  destruct IH as (found & -> & S); [intros; apply All; now right|].
  cbn [rbind]. eauto.
Qed.

Lemma predict_pair_week_zero (df : DataFrame) (sid subj : option string) :
  has_column df "week" = true -> has_column df "grade" = true ->
  all_graded (rows df) = true ->
  predict_pair df (PyInt 0) sid subj
  = if (2 <=? List.length (weekly_grades (pair_data df sid subj)))%nat
    then Raise ZeroDivisionError else Ok None.
Proof.
  intros W Hg G. unfold predict_pair. fold (pair_data df sid subj).
  rewrite W, Hg. cbn [negb].
  destruct (2 <=? _)%nat eqn:L; [|reflexivity]. apply Nat.leb_le in L.
  rewrite polyfit_well_posed.
  - cbn [rbind]. now destruct (lstsq_line _ _).
  - unfold week_axis. now rewrite !length_map.
  - apply weekly_means_numbers. unfold pair_data.
    now apply all_graded_filter, all_graded_filter.
  - now apply spread_week_axis.
Qed.

Lemma predict_pair_short (df : DataFrame) (cw : week_number)
      (sid subj : option string) :
  (List.length (weekly_grades (pair_data df sid subj)) < 2)%nat ->
  predict_pair df cw sid subj =
  if has_column df "week" && negb (has_column df "grade")
  then Raise (KeyError "grade") else Ok None.
Proof.
  intros L. unfold predict_pair. fold (pair_data df sid subj).
  destruct (has_column df "week"); [|reflexivity].
  destruct (has_column df "grade"); cbn [negb andb]; [|reflexivity].
  apply Nat.leb_gt in L. now rewrite L.
Qed.

(** X9.  On a table with the required columns, a week column and no
    missing grade: when some student has two distinct weeks in a subject,
    [predict_final_grades] with the current week 0 raises
    [ZeroDivisionError]; when no student has, it returns the empty table
    for every current week. *)
Theorem predict_final_grades_week_zero (df : DataFrame) :
  has_required df = true -> has_column df "week" = true ->
  all_graded (rows df) = true ->
  ((exists sid subj,
       (2 <= List.length (weekly_grades (pair_data df sid subj)))%nat) ->
   predict_final_grades df (Some 0%Z) = Raise ZeroDivisionError) /\
  ((forall sid subj,
       (List.length (weekly_grades (pair_data df sid subj)) < 2)%nat) ->
   forall current_week, predict_final_grades df current_week = Ok []).
Proof.
  intros R W G. unfold has_required in R.
  apply andb_true_iff in R as [R Hg]. apply andb_true_iff in R as [Hs Hj].
  split.
  - intros (sid & subj & L).
    assert (N : pair_data df sid subj <> []).
    { intros Z0. rewrite Z0 in L. simpl in L. lia. }
    apply pair_data_member in N as [Is Ij].
    apply unique_cells_complete in Is, Ij.
    unfold predict_final_grades, column. rewrite Hs. cbn [rbind].
    rewrite (rmap_list_raise _ _ ZeroDivisionError); [reflexivity| |].
    + intros s _. unfold predict_student. rewrite Hj. cbn [negb].
      destruct (rmap_list _ _) as [found|e] eqn:F; cbn [rbind]; [eauto|].
      right. f_equal.
      revert F. generalize (unique_cells (map subject (filter (student_is s) (rows df)))).
      intros l. induction l as [|j t IH]; simpl; [discriminate|].
      rewrite predict_pair_week_zero by assumption.
      destruct (2 <=? _)%nat; cbn [rbind]; [congruence|].
      destruct (rmap_list _ t); cbn [rbind]; [discriminate|]. auto.
    + exists sid. split; auto. unfold predict_student. rewrite Hj. cbn [negb].
      rewrite (rmap_list_raise _ _ ZeroDivisionError); [reflexivity| |].
      * intros j _. rewrite predict_pair_week_zero by assumption.
        destruct (2 <=? _)%nat; eauto.
      * exists subj. split; auto. rewrite predict_pair_week_zero by assumption.
        apply Nat.leb_le in L. now rewrite L.
  - intros Short current_week.
    unfold predict_final_grades, column. rewrite Hs. cbn [rbind].
    fold (resolved_week df current_week).
    set (cw := resolved_week df current_week).
    assert (S : forall s, predict_student df cw s = Ok []).
    { intros s. unfold predict_student. rewrite Hj. cbn [negb].
      destruct (rmap_list_nones (predict_pair df cw s)
                  (unique_cells (map subject (filter (student_is s) (rows df)))))
        as (found & Ef & En).
      - intros j _. rewrite predict_pair_short by apply Short.
        now rewrite Hg, andb_false_r.
      - rewrite Ef. cbn [rbind]. now rewrite En. }
    generalize (unique_cells (map student_id (rows df))). intros l.
    assert (P : exists ps, rmap_list (predict_student df cw) l = Ok ps /\
                           List.concat ps = []).
    { induction l as [|s t (ps & IH & C)]; simpl; [eauto|].
      rewrite S, IH. cbn [rbind]. exists ([] :: ps). auto. }
    destruct P as (ps & -> & C). cbn [rbind]. now rewrite C.
Qed.

(* --------------------------------------------------------------- *)
(** *** The order of the predictions *)

Lemma string_compare_lt_trans (a b c : string) :
  String.compare a b = Lt -> String.compare b c = Lt -> String.compare a c = Lt.
Proof.
  revert b c. induction a as [|x a IH]; intros [|y b] [|z c]; simpl;
    try discriminate; auto.
  unfold Ascii.compare.
  destruct (N.compare_spec (N_of_ascii x) (N_of_ascii y)) as [Exy|Lxy|Gxy];
    try discriminate;
    destruct (N.compare_spec (N_of_ascii y) (N_of_ascii z)) as [Eyz|Lyz|Gyz];
    try discriminate;
    destruct (N.compare_spec (N_of_ascii x) (N_of_ascii z)) as [Exz|Lxz|Gxz];
    auto; try lia.
  apply IH.
Qed.

Lemma string_leb_trans (a b c : string) :
  String.leb a b = true -> String.leb b c = true -> String.leb a c = true.
Proof.
  unfold String.leb.
  destruct (String.compare a b) eqn:Eab; try discriminate;
    destruct (String.compare b c) eqn:Ebc; try discriminate; intros _ _.
  - apply String.compare_eq_iff in Eab. subst b. now rewrite Ebc.
  - apply String.compare_eq_iff in Eab. subst b. now rewrite Ebc.
  - apply String.compare_eq_iff in Ebc. subst c. now rewrite Eab.
  - now rewrite (string_compare_lt_trans a b c).
Qed.

Lemma string_leb_ltb (a b : string) :
  String.leb a b = true -> a <> b -> String.ltb a b = true.
Proof.
  unfold String.leb, String.ltb.
  destruct (String.compare a b) eqn:E; try discriminate; auto.
  apply String.compare_eq_iff in E. congruence.
Qed.

Lemma opt_string_leb_total (a b : option string) :
  opt_string_leb a b = true \/ opt_string_leb b a = true.
Proof. destruct a, b; simpl; auto. apply String.leb_total. Qed.

Lemma opt_string_leb_trans (a b c : option string) :
  opt_string_leb a b = true -> opt_string_leb b c = true ->
  opt_string_leb a c = true.
Proof.
  destruct a, b, c; simpl; try discriminate; auto. apply string_leb_trans.
Qed.

Lemma opt_string_leb_antisym (a b : option string) :
  opt_string_leb a b = true -> opt_string_leb b a = true -> a = b.
Proof.
  destruct a, b; simpl; try discriminate; auto.
  intros L1 L2. f_equal. now apply String.leb_antisym.
Qed.

Lemma prediction_before_cases (a b : Prediction.t) :
  prediction_before a b = true <->
  (Prediction.student_id a = Prediction.student_id b /\
   opt_string_leb (Prediction.subject a) (Prediction.subject b) = true) \/
  (Prediction.student_id a <> Prediction.student_id b /\
   opt_string_leb (Prediction.student_id a) (Prediction.student_id b) = true).
Proof.
  unfold prediction_before.
  destruct (opt_eqb String.eqb (Prediction.student_id a) (Prediction.student_id b))
    eqn:E.
  - apply opt_string_eqb_eq in E. split; [auto|]. intros [[_ L]|[N _]]; congruence.
  - assert (N : Prediction.student_id a <> Prediction.student_id b).
    { intros Q. apply opt_string_eqb_eq in Q. congruence. }
    split; [auto|]. intros [[Q _]|[_ L]]; congruence.
Qed.

Lemma prediction_before_total (a b : Prediction.t) :
  prediction_before a b = true \/ prediction_before b a = true.
Proof.
  rewrite !prediction_before_cases.
  destruct (opt_string_eqb_eq (Prediction.student_id a) (Prediction.student_id b))
    as [_ D].
  destruct (opt_eqb String.eqb (Prediction.student_id a) (Prediction.student_id b))
    eqn:E.
  - apply opt_string_eqb_eq in E.
    destruct (opt_string_leb_total (Prediction.subject a) (Prediction.subject b));
      [left|right]; left; auto.
  - assert (N : Prediction.student_id a <> Prediction.student_id b).
    { intros Q. apply D in Q. congruence. }
    destruct (opt_string_leb_total (Prediction.student_id a) (Prediction.student_id b));
      [left|right]; right; auto.
Qed.

Lemma prediction_before_trans (a b c : Prediction.t) :
  prediction_before a b = true -> prediction_before b c = true ->
  prediction_before a c = true.
Proof.
  rewrite !prediction_before_cases.
  intros [[Eab Lab]|[Nab Lab]] [[Ebc Lbc]|[Nbc Lbc]].
  - left. split; [congruence|]. eapply opt_string_leb_trans; eauto.
  - right. rewrite Eab. auto.
  - right. rewrite <- Ebc. auto.
  - right. split; [|eapply opt_string_leb_trans; eauto].
    intros Eac. rewrite <- Eac in Lbc.
    apply Nab. now apply opt_string_leb_antisym.
Qed.

Lemma predict_pair_present (df : DataFrame) (cw : week_number)
      (sid subj : option string) (p : Prediction.t) :
  predict_pair df cw sid subj = Ok (Some p) ->
  exists s j, sid = Some s /\ subj = Some j /\
              Prediction.student_id p = Some s /\
              Prediction.subject p = Some j /\
              pair_data df (Some s) (Some j) <> [].
Proof.
  intros P. apply predict_pair_fields in P as (Es & Ej & _ & L & Ew & _).
  assert (N : pair_data df sid subj <> []).
  { intros Z0. rewrite Ew, Z0 in L. simpl in L. lia. }
  destruct (pair_data df sid subj) as [|r t] eqn:D; [congruence|].
  assert (I : In r (pair_data df sid subj)) by (rewrite D; now left).
  unfold pair_data in I. apply filter_In in I as [I Sj].
  apply filter_In in I as [_ Ss].
  unfold subject_is, cell_eq in Sj. unfold student_is, cell_eq in Ss.
  destruct (subject r); [|discriminate]. destruct subj as [j|]; [|discriminate].
  destruct (student_id r); [|discriminate]. destruct sid as [i|]; [|discriminate].
  exists i, j. rewrite D. repeat split; auto.
Qed.

Lemma NoDup_map_injective {A B} (f : A -> B) (l : list A) :
  (forall x y, f x = f y -> x = y) -> NoDup l -> NoDup (map f l).
Proof.
  intros Inj. induction 1 as [|a t Na _ IH]; simpl; constructor; auto.
  intros I. apply in_map_iff in I as (b & E & Ib). apply Inj in E. now subst.
Qed.

Lemma predict_student_keys (df : DataFrame) (cw : week_number)
      (sid : option string) (l : list Prediction.t) :
  predict_student df cw sid = Ok l ->
  NoDup (map prediction_key l) /\ Forall (fun p => Prediction.student_id p = sid) l.
Proof.
  intros S. apply predict_student_ok in S as (found & F & ->).
  assert (Hk : forall j p, predict_pair df cw sid j = Ok (Some p) ->
                           Prediction.subject p = j)
    by (intros j p P; now apply predict_pair_fields in P as (_ & Ej & _)).
  destruct (somes_keys_NoDup _ Prediction.subject _ _ Hk F (unique_cells_NoDup _))
    as [N _].
  split.
  - replace (map prediction_key (somes found))
      with (map (pair sid) (map Prediction.subject (somes found))).
    + apply NoDup_map_injective; auto. intros x y E. congruence.
    + rewrite map_map. apply map_ext_in. intros p I. unfold prediction_key.
      apply in_somes in I. destruct (Forall2_in_right _ _ _ _ F I) as (j & _ & P).
      now apply predict_pair_fields in P as (-> & _).
  - rewrite Forall_forall. intros p I. apply in_somes in I.
    destruct (Forall2_in_right _ _ _ _ F I) as (j & _ & P).
    now apply predict_pair_fields in P as (Es & _).
Qed.

Lemma predictions_keys_NoDup (df : DataFrame) (cw : week_number)
      (sids : list (option string)) (per_student : list (list Prediction.t)) :
  Forall2 (fun sid l => predict_student df cw sid = Ok l) sids per_student ->
  NoDup sids ->
  NoDup (map prediction_key (List.concat per_student)) /\
  (forall p, In p (List.concat per_student) -> In (Prediction.student_id p) sids).
Proof.
  induction 1 as [|sid l sids per_student S _ IH]; simpl; intros N.
  - split; [constructor|tauto].
  - inversion N as [|? ? Ns Nt]; subst. destruct (IH Nt) as [Nk Ik].
    apply predict_student_keys in S as [Nl Fl]. rewrite Forall_forall in Fl.
    split.
    + rewrite map_app. apply NoDup_app; auto.
      intros k I1 I2. apply in_map_iff in I1 as (p & <- & Ip).
      apply in_map_iff in I2 as (q & Eq & Iq).
      apply Ns. rewrite <- (Fl p Ip).
      unfold prediction_key in Eq. injection Eq as <- _. now apply Ik.
    + intros p I. apply in_app_or in I as [I|I]; [left; symmetry; auto|right; auto].
Qed.

(** X10.  The rows of [predict_final_grades] are in increasing order of
    the student identifier and then of the subject, without a repetition:
    there is one row at most for a student and a subject.  Every row is for
    a student and a subject that have records in the table. *)
Theorem predictions_ordered (df : DataFrame) (current_week : option Z)
        (preds : list Prediction.t) :
  predict_final_grades df current_week = Ok preds ->
  StronglySorted prediction_lt preds /\
  Forall (fun p => exists s j,
                     Prediction.student_id p = Some s /\
                     Prediction.subject p = Some j /\
                     pair_data df (Some s) (Some j) <> [])
         preds.
Proof.
  intros E.
  assert (Pr : Forall (fun p => exists s j,
                         Prediction.student_id p = Some s /\
                         Prediction.subject p = Some j /\
                         pair_data df (Some s) (Some j) <> [])
                      preds).
  { rewrite Forall_forall. intros p I.
    destruct (predict_final_grades_pair _ _ _ _ E I) as (sid & subj & P).
    apply predict_pair_present in P as (s & j & _ & _ & Es & Ej & N). eauto. }
  split; [|exact Pr].
  apply predict_final_grades_ok in E as (per_student & F & ->).
  destruct (predictions_keys_NoDup _ _ _ _ F (unique_cells_NoDup _)) as [Nk _].
  assert (Ns : NoDup (map prediction_key (sort_by prediction_before (List.concat per_student)))).
  { eapply Permutation_NoDup; [|exact Nk].
    apply Permutation_map, Permutation_sym, sort_by_perm. }
  pose proof (sort_by_sorted prediction_before prediction_before_total
                             prediction_before_trans (List.concat per_student))
    as St.
  revert Pr Ns St.
  generalize (sort_by prediction_before (List.concat per_student)). intros l.
  induction l as [|a t IH]; intros Pr Ns St; [constructor|].
  inversion Pr as [|? ? Pa Pt]; subst. inversion Ns as [|? ? Na Nt]; subst.
  inversion St as [|? ? St' Fa]; subst.
  constructor; [now apply IH|].
  rewrite Forall_forall in *. intros b Ib.
  destruct Pa as (s & j & Es & Ej & _).
  destruct (Pt b Ib) as (s' & j' & Es' & Ej' & _).
  exists s, j, s', j'. repeat split; auto.
  assert (D : prediction_key a <> prediction_key b).
  { intros Q. apply Na. rewrite Q. now apply in_map. }
  unfold prediction_key in D. rewrite Es, Ej, Es', Ej' in D.
  pose proof (Fa b Ib) as B. apply prediction_before_cases in B.
  rewrite Es, Ej, Es', Ej' in B. cbn [opt_string_leb] in B.
  destruct B as [[Q L]|[Q L]].
  - injection Q as <-. right. split; auto.
    apply string_leb_ltb; auto. congruence.
  - left. apply string_leb_ltb; auto. congruence.
Qed.

(* --------------------------------------------------------------- *)
(** *** The groups of equal values partition a column *)

Section Partition.
Context {A : Type} (eqb : A -> A -> bool).
Hypothesis eqb_refl : forall x, eqb x x = true.
Hypothesis eqb_sym : forall x y, eqb x y = eqb y x.
Hypothesis eqb_trans :
  forall x y z, eqb x y = true -> eqb y z = true -> eqb x z = true.

Lemma unique_loop_represents (l seen : list A) (x : A) :
  (exists u, In u seen /\ eqb u x = true) \/ In x l ->
  exists u,
    In u (fold_left (fun seen x => if mem eqb x seen then seen else (seen ++ [x])%list)
                    l seen) /\
    eqb u x = true.
Proof.
  revert seen; induction l as [|y t IH]; simpl; intros seen I.
  - destruct I as [I|[]]. exact I.
  - apply IH. destruct (mem eqb y seen) eqn:M.
    + destruct I as [I|[<-|I]]; auto.
      left. apply existsb_exists in M as (z & Iz & E).
      exists z. split; auto. now rewrite eqb_sym.
    + destruct I as [(u & Iu & E)|[<-|I]]; auto.
      * left. exists u. split; auto. apply in_or_app. auto.
      * left. exists y. split; auto. apply in_or_app. simpl. auto.
Qed.

Lemma unique_represents (l : list A) (x : A) :
  In x l -> exists u, In u (unique eqb l) /\ eqb u x = true.
Proof. intros I. apply unique_loop_represents. auto. Qed.

Lemma no_other_representative (U : list A) (a x : A) :
  Forall (fun b => eqb b a = false) U -> eqb a x = true ->
  list_sum (map (fun u => if eqb u x then 1%nat else 0%nat) U) = 0%nat.
Proof.
  intros F Ea. induction F as [|b t Fb _ IH]; simpl; auto.
  destruct (eqb b x) eqn:Eb; [|exact IH].
  assert (Eba : eqb b a = true)
    by (apply eqb_trans with x; auto; now rewrite eqb_sym).
  congruence.
Qed.

Lemma one_representative (U : list A) (x : A) :
  ForallOrdPairs (fun a b => eqb b a = false) U ->
  (exists u, In u U /\ eqb u x = true) ->
  list_sum (map (fun u => if eqb u x then 1%nat else 0%nat) U) = 1%nat.
Proof.
  induction 1 as [|a t Fa _ IH]; intros (u & Iu & E); [destruct Iu|].
  simpl. destruct (eqb a x) eqn:Ea.
  - now rewrite (no_other_representative t a x Fa Ea).
  - destruct Iu as [<-|Iu]; [congruence|]. simpl. apply IH. eauto.
Qed.

Lemma list_sum_map_add {B} (f g : B -> nat) (l : list B) :
  list_sum (map (fun u => (f u + g u)%nat) l)
  = (list_sum (map f l) + list_sum (map g l))%nat.
Proof. induction l as [|b t IH]; simpl; auto. rewrite IH. lia. Qed.

Lemma count_partition_of (U l : list A) :
  ForallOrdPairs (fun a b => eqb b a = false) U ->
  (forall x, In x l -> exists u, In u U /\ eqb u x = true) ->
  list_sum (map (fun u => List.length (filter (eqb u) l)) U) = List.length l.
Proof.
  intros D. induction l as [|x t IH]; intros R.
  - simpl. clear. induction U as [|a U IH]; simpl; auto.
  - rewrite (map_ext _ (fun u => ((if eqb u x then 1 else 0)
                                  + List.length (filter (eqb u) t))%nat)).
    + rewrite list_sum_map_add, one_representative, IH; auto.
      * intros y Iy. apply R. now right.
      * apply R. now left.
    + intros u. simpl. now destruct (eqb u x).
Qed.

(** The numbers of the occurrences of the distinct values of a list add up
    to its length. *)
Lemma count_partition (l : list A) :
  list_sum (map (fun u => List.length (filter (eqb u) l)) (unique eqb l))
  = List.length l.
Proof.
  apply count_partition_of; [apply unique_distinct|apply unique_represents].
Qed.
End Partition.

Lemma somes_filter_some {A} (eqb : A -> A -> bool) (a : A) (l : list (option A)) :
  somes (filter (fun y => negb (opt_eqb eqb (Some a) y)) l)
  = filter (fun y => negb (eqb a y)) (somes l).
Proof.
  induction l as [|[b|] t IH]; [reflexivity| |exact IH].
  cbn [filter opt_eqb somes]. destruct (eqb a b); cbn [negb somes filter];
    [exact IH|f_equal; exact IH].
Qed.

Lemma somes_filter_none {A} (eqb : A -> A -> bool) (l : list (option A)) :
  somes (filter (fun y => negb (opt_eqb eqb None y)) l) = somes l.
Proof.
  induction l as [|[b|] t IH]; [reflexivity| |exact IH].
  cbn [filter opt_eqb negb somes]. f_equal. exact IH.
Qed.

Lemma somes_dedup_first {A} (eqb : A -> A -> bool) (l : list (option A)) :
  somes (dedup_first (opt_eqb eqb) l) = dedup_first eqb (somes l).
Proof.
  induction l as [|[a|] t IH]; cbn [dedup_first somes]; auto.
  - now rewrite somes_filter_some, IH.
  - now rewrite somes_filter_none, IH.
Qed.

Lemma somes_unique_cells (l : list (option string)) :
  somes (unique_cells l) = unique String.eqb (somes l).
Proof.
  unfold unique_cells.
  rewrite (unique_dedup_first _ opt_string_eqb_eq),
          (unique_dedup_first _ String.eqb_eq).
  apply somes_dedup_first.
Qed.

Lemma list_sum_somes {A} (f : option A -> nat) (l : list (option A)) :
  f None = 0%nat ->
  list_sum (map f l) = list_sum (map (fun a => f (Some a)) (somes l)).
Proof.
  intros Z0. induction l as [|[a|] t IH]; simpl; auto. now rewrite Z0.
Qed.

Lemma subject_count (s : string) (l : list row) :
  List.length (filter (subject_is (Some s)) l)
  = List.length (filter (String.eqb s) (somes (map subject l))).
Proof.
  induction l as [|r t IH]; simpl; auto.
  unfold subject_is at 1. unfold cell_eq.
  destruct (subject r) as [j|]; simpl; auto.
  rewrite (String.eqb_sym j s). destruct (String.eqb s j); simpl; auto.
Qed.

Lemma subject_count_none (l : list row) : filter (subject_is None) l = [].
Proof.
  induction l as [|r t IH]; simpl; auto.
  unfold subject_is at 1. unfold cell_eq. now destruct (subject r).
Qed.

Lemma string_eqb_trans (x y z : string) :
  String.eqb x y = true -> String.eqb y z = true -> String.eqb x z = true.
Proof. rewrite !String.eqb_eq. congruence. Qed.

Lemma overall_stats_counts (df : DataFrame) (o : Overall.t) :
  overall_stats df = Ok o ->
  Overall.total_records o = List.length (rows df) /\
  Overall.total_students o = nunique String.eqb (map student_id (rows df)) /\
  Overall.total_subjects o = nunique String.eqb (map subject (rows df)) /\
  Overall.mean_grade o = series_mean (map grade (rows df)) /\
  Overall.median_grade o = series_median (map grade (rows df)) /\
  Overall.min_grade o = series_min (map grade (rows df)) /\
  Overall.max_grade o = series_max (map grade (rows df)).
Proof.
  unfold overall_stats, column.
  destruct (has_column df "student_id"); cbn [rbind]; [|discriminate].
  destruct (has_column df "subject"); cbn [rbind]; [|discriminate].
  destruct (has_column df "grade"); cbn [rbind]; [|discriminate].
  intros E. injection E as <-. cbn. repeat split.
Qed.

(** X11.  In the result of [analyze_performance], [by_subject] has
    one entry for each distinct subject of the table, [total_subjects] of
    them for the subjects that are present, and the record counts of the
    entries add up to the number of the records that have a subject: to all
    the records when no subject is missing. *)
Theorem by_subject_partition (risk_threshold : Q) (min_records : Z)
        (now : string) (df df' : DataFrame) (res : Results.t) :
  analyze_performance risk_threshold min_records now df = (Ok res, df') ->
  NoDup (map fst (Results.by_subject res)) /\
  (forall subj, In subj (map subject (rows df)) <->
                In subj (map fst (Results.by_subject res))) /\
  List.length (somes (map fst (Results.by_subject res)))
    = Overall.total_subjects (Results.overall res) /\
  list_sum (map (fun e => SubjectStats.record_count (snd e))
                (Results.by_subject res))
    = List.length (somes (map subject (rows df))) /\
  (Forall (fun r => subject r <> None) (rows df) ->
   list_sum (map (fun e => SubjectStats.record_count (snd e))
                 (Results.by_subject res))
   = Overall.total_records (Results.overall res)).
Proof.
  intros E.
  apply analyze_performance_ok in E as (o & r & t & O & _ & _ & ->).
  apply overall_stats_counts in O as (Er & _ & Es & _).
  cbn [Results.by_subject Results.overall]. unfold by_subject_stats.
  rewrite !map_map. cbn [fst snd]. rewrite map_id.
  assert (S : list_sum
                (map (fun x => SubjectStats.record_count (subject_stats df x))
                     (unique_cells (map subject (rows df))))
              = List.length (somes (map subject (rows df)))).
  { rewrite (list_sum_somes (fun x => SubjectStats.record_count (subject_stats df x))).
    - rewrite somes_unique_cells.
      rewrite (map_ext _ (fun s => List.length
                                     (filter (String.eqb s)
                                             (somes (map subject (rows df)))))).
      + apply count_partition.
        * apply String.eqb_refl.
        * apply String.eqb_sym.
        * apply string_eqb_trans.
      + intros s. cbn. apply subject_count.
    - cbn. now rewrite subject_count_none. }
  split; [apply unique_cells_NoDup|]. split; [|split; [|split]].
  - intros subj. split; [apply unique_cells_complete|apply unique_incl].
  - rewrite Es, somes_unique_cells. reflexivity.
  - exact S.
  - intros F. rewrite S, Er. clear - F.
    induction F as [|x l Hx _ IH]; simpl; auto.
    destruct (subject x); [simpl; now rewrite IH|congruence].
Qed.

(* --------------------------------------------------------------- *)
(** *** The risk list of [analyze_performance] *)

Lemma student_stats_table_ids (df : DataFrame) :
  map StudentStats.student_id (student_stats_table df)
  = sort_by String.leb (unique String.eqb (somes (map student_id (rows df)))).
Proof.
  unfold student_stats_table. rewrite map_map. cbn [StudentStats.student_id].
  apply map_id.
Qed.

Lemma student_stats_table_row (df : DataFrame) (s : StudentStats.t) :
  In s (student_stats_table df) <->
  In (Some (StudentStats.student_id s)) (map student_id (rows df)) /\
  s = StudentStats.mk (StudentStats.student_id s)
        (round_to 2 (series_mean (student_grades df (StudentStats.student_id s))))
        (List.length (dropna (student_grades df (StudentStats.student_id s))))
        (round_sqrt_to 2 (series_std (student_grades df (StudentStats.student_id s))))
        (nunique String.eqb
           (map subject (filter (student_is (Some (StudentStats.student_id s)))
                                (rows df)))).
Proof.
  unfold student_stats_table. rewrite in_map_iff. split.
  - intros (sid & <- & I). cbn [StudentStats.student_id]. split; [|reflexivity].
    apply in_sort_by, unique_incl, in_somes in I. exact I.
  - intros (I & E). exists (StudentStats.student_id s). split; [symmetry; exact E|].
    apply in_sort_by. apply in_somes in I.
    apply (unique_loop_complete String.eqb); auto.
    intros a b Eab. now apply String.eqb_eq.
Qed.

(** Selecting entries keeps their keys distinct. *)
Lemma filter_keeps_distinct_keys {K V} (keep : V -> bool) (key : V -> K)
      (entries : list V) (D : NoDup (map key entries)) :
  NoDup (map key (filter keep entries)).
Proof.
  induction entries as [|a t IH]; simpl in *; auto.
  inversion D as [|? ? Na Nt]; subst.
  destruct (keep a); simpl; auto. constructor; auto.
  intros I. apply Na. apply in_map_iff in I as (b & E & Ib).
  apply filter_In in Ib as [Ib _]. rewrite <- E. now apply in_map.
Qed.

Lemma risk_student_info_fields (df : DataFrame) (s : StudentStats.t)
      (r : RiskStudent.t) :
  risk_student_info df s = Ok r ->
  RiskStudent.student_id r = StudentStats.student_id s /\
  RiskStudent.avg_grade r = StudentStats.avg_grade s /\
  RiskStudent.grade_count r = StudentStats.grade_count s /\
  RiskStudent.risk_level r
    = (if pf_lt (StudentStats.avg_grade s) (Num 4) then "high" else "medium").
Proof.
  unfold risk_student_info.
  destruct (risk_student_trend _ _) as [tr|e]; cbn [rbind]; [|discriminate].
  intros E. injection E as <-. cbn. auto.
Qed.

Lemma Forall2_map_eq {A B C} (R : A -> B -> Prop) (f : A -> C) (g : B -> C)
      (l : list A) (l' : list B) :
  (forall a b, R a b -> g b = f a) -> Forall2 R l l' -> map g l' = map f l.
Proof.
  intros Hfg. induction 1 as [|a b l l' Rab _ IH]; simpl; auto.
  now rewrite IH, (Hfg a b Rab).
Qed.

(** With exact means: the risk list names no student twice, and a student
    of the table is on it exactly when the student has [min_records] grades
    at least and a mean grade that, rounded to two decimals, is below
    [risk_threshold]. *)
Lemma risk_students_members (risk_threshold : Q) (min_records : Z)
      (now : string) (df df' : DataFrame) (res : Results.t) :
  analyze_performance risk_threshold min_records now df = (Ok res, df') ->
  NoDup (map RiskStudent.student_id (Results.risk_students res)) /\
  (forall sid,
      In sid (map RiskStudent.student_id (Results.risk_students res)) <->
      In (Some sid) (map student_id (rows df)) /\
      (min_records <= Z.of_nat (List.length (dropna (student_grades df sid))))%Z /\
      exists a, round_to 2 (series_mean (student_grades df sid)) = Num a /\
                a < risk_threshold) /\
  Forall (fun r =>
            RiskStudent.grade_count r
              = List.length (dropna (student_grades df (RiskStudent.student_id r))) /\
            exists a,
              RiskStudent.avg_grade r = Num a /\
              round_to 2 (series_mean (student_grades df (RiskStudent.student_id r)))
                = Num a /\
              RiskStudent.risk_level r
                = (if Qltb a 4 then "high" else "medium"))
         (Results.risk_students res).
Proof.
  intros E.
  apply analyze_performance_ok in E as (o & risk & t & _ & R & _ & ->).
  cbn [Results.risk_students]. apply rmap_list_ok in R.
  assert (Ids : map RiskStudent.student_id risk
                = map StudentStats.student_id
                      (risk_candidates df risk_threshold min_records)).
  { apply (Forall2_map_eq _ _ _ _ _ (fun s r F =>
             proj1 (risk_student_info_fields df s r F)) R). }
  assert (Cand : forall s,
             In s (risk_candidates df risk_threshold min_records) <->
             In s (student_stats_table df) /\
             (min_records <=? Z.of_nat (StudentStats.grade_count s))%Z = true /\
             pf_lt (StudentStats.avg_grade s) (Num risk_threshold) = true).
  { intros s. unfold risk_candidates, kept_students.
    rewrite !filter_In. tauto. }
  split; [|split].
  - rewrite Ids. unfold risk_candidates, kept_students.
    apply filter_keeps_distinct_keys, filter_keeps_distinct_keys.
    rewrite student_stats_table_ids.
    eapply Permutation_NoDup; [apply Permutation_sym, sort_by_perm|].
    rewrite (unique_dedup_first _ String.eqb_eq).
    apply dedup_first_NoDup, String.eqb_eq.
  - intros sid. rewrite Ids, in_map_iff. split.
    + intros (s & <- & I). apply Cand in I as (I & C & L).
      apply student_stats_table_row in I as (I & Es).
      split; [exact I|]. rewrite Es in C, L.
      cbn [StudentStats.grade_count StudentStats.avg_grade] in C, L.
      split; [now apply Z.leb_le|].
      destruct (round_to 2 _) as [|a]; [discriminate|].
      exists a. split; auto. now apply Qltb_lt.
    + intros (I & C & a & Ea & L).
      eexists (StudentStats.mk sid _ _ _ _). split; [reflexivity|].
      apply Cand. split; [|split].
      * apply student_stats_table_row. cbn [StudentStats.student_id]. eauto.
      * cbn [StudentStats.grade_count]. now apply Z.leb_le.
      * cbn [StudentStats.avg_grade]. rewrite Ea. now apply Qltb_lt.
  - rewrite Forall_forall. intros r I.
    destruct (Forall2_in_right _ _ _ _ R I) as (s & Is & F).
    apply risk_student_info_fields in F as (Ei & Ea & Ec & El).
    apply Cand in Is as (Is & _ & L).
    apply student_stats_table_row in Is as (_ & Es).
    destruct s as [sid avg cnt std sc].
    cbn [StudentStats.student_id StudentStats.grade_count
         StudentStats.avg_grade] in *.
    injection Es as Eavg Ecnt _ _.
    rewrite Ei, Ec, Ea, El, <- Ecnt, <- Eavg. split; [reflexivity|].
    destruct avg as [|a]; [discriminate|].
    exists a. auto.
Qed.

(* --------------------------------------------------------------- *)
(** *** The overall statistics *)

Lemma Qle_bool_trans (x y z : Q) :
  Qle_bool x y = true -> Qle_bool y z = true -> Qle_bool x z = true.
Proof. rewrite !Qle_bool_iff. apply Qle_trans. Qed.

Lemma Qsort_sorted (l : list Q) : StronglySorted Qle (Qsort l).
Proof.
  eapply StronglySorted_impl;
    [|apply (sort_by_sorted Qle_bool Qle_bool_total Qle_bool_trans)].
  intros a b. apply Qle_bool_iff.
Qed.

Lemma in_dropna (l : list pyfloat) (q : Q) : In q (dropna l) <-> In (Num q) l.
Proof.
  induction l as [|[|x] t IH]; simpl.
  - tauto.
  - rewrite IH. split; [auto|]. intros [E|I]; [discriminate|auto].
  - rewrite IH. split; intros [E|I]; auto; left; congruence.
Qed.

Lemma sorted_first_least (x : Q) (t : list Q) :
  StronglySorted Qle (x :: t) -> forall y, In y (x :: t) -> x <= y.
Proof.
  intros S y [<-|I]; [apply Qle_refl|].
  inversion S as [|? ? _ F]; subst. rewrite Forall_forall in F. auto.
Qed.

Lemma sorted_last_greatest (l : list Q) (x : Q) :
  StronglySorted Qle (l ++ [x]) -> forall y, In y (l ++ [x]) -> y <= x.
Proof.
  induction l as [|a t IH]; simpl; intros S y I.
  - destruct I as [<-|[]]. apply Qle_refl.
  - inversion S as [|? ? S' F]; subst. destruct I as [<-|I]; [|now apply IH].
    rewrite Forall_forall in F. apply F. apply in_or_app. simpl. auto.
Qed.

(** The least and the greatest value of a sorted list that is not empty. *)
Lemma sorted_ends (v : list Q) :
  v <> [] ->
  exists mn mx,
    hd_error (Qsort v) = Some mn /\ hd_error (rev (Qsort v)) = Some mx /\
    In mn v /\ In mx v /\ forall y, In y v -> mn <= y /\ y <= mx.
Proof.
  intros N. pose proof (Qsort_sorted v) as S.
  assert (P : forall y, In y (Qsort v) <-> In y v) by (intros; apply in_sort_by).
  destruct (Qsort v) as [|mn t] eqn:E.
  - destruct v as [|a v']; [congruence|].
    destruct (proj2 (P a) (or_introl eq_refl)).
  - destruct (rev (mn :: t)) as [|mx r] eqn:R.
    + apply (f_equal (@List.length Q)) in R. rewrite length_rev in R. discriminate.
    + assert (L : mn :: t = (rev r ++ [mx])%list).
      { rewrite <- (rev_involutive (mn :: t)), R. reflexivity. }
      exists mn, mx. repeat split; auto.
      * apply P. now left.
      * apply P. rewrite L. apply in_or_app. simpl. auto.
      * apply (sorted_first_least mn t S). now apply P.
      * rewrite L in S. apply (sorted_last_greatest _ _ S).
        rewrite <- L. now apply P.
Qed.

Lemma Qsum_bounds (lo hi : Q) (v : list Q) :
  (forall y, In y v -> lo <= y /\ y <= hi) ->
  lo * Qlen v <= Qsum v /\ Qsum v <= hi * Qlen v.
Proof.
  induction v as [|a t IH]; intros B.
  - change (Qlen (@nil Q)) with 0. change (Qsum []) with 0. lra.
  - rewrite Qlen_cons, Qsum_cons.
    destruct (B a (or_introl eq_refl)) as [La Ha].
    destruct IH as [Ll Hh]; [intros; apply B; now right|]. lra.
Qed.

Lemma Qmean_bounds (lo hi : Q) (v : list Q) :
  v <> [] -> (forall y, In y v -> lo <= y /\ y <= hi) ->
  lo <= Qmean v /\ Qmean v <= hi.
Proof.
  intros N B. destruct (Qsum_bounds lo hi v B) as [L U].
  assert (P : 0 < Qlen v).
  { destruct v as [|a t]; [congruence|]. rewrite Qlen_cons.
    pose proof (Qlen_nonneg t). lra. }
  unfold Qmean. split.
  - apply Qle_shift_div_l; auto.
  - apply Qle_shift_div_r; auto.
Qed.

Lemma nth_in_bounds (lo hi : Q) (v : list Q) (i : nat) :
  (i < List.length v)%nat -> (forall y, In y v -> lo <= y /\ y <= hi) ->
  lo <= nth i v 0 /\ nth i v 0 <= hi.
Proof. intros L B. apply B. now apply nth_In. Qed.

Lemma series_median_bounds (lo hi : Q) (l : list pyfloat) :
  dropna l <> [] -> (forall y, In y (dropna l) -> lo <= y /\ y <= hi) ->
  exists md, series_median l = Num md /\ lo <= md /\ md <= hi.
Proof.
  intros N B. unfold series_median.
  assert (B' : forall y, In y (Qsort (dropna l)) -> lo <= y /\ y <= hi)
    by (intros y I; apply B; now apply in_sort_by in I).
  assert (Len : List.length (Qsort (dropna l)) = List.length (dropna l))
    by (apply Permutation_length, sort_by_perm).
  destruct (List.length (Qsort (dropna l))) as [|n] eqn:E.
  - destruct (dropna l); [congruence|discriminate].
  - assert (H2 : (S n / 2 < S n)%nat) by (apply Nat.div_lt; lia).
    assert (H1 : (S n / 2 - 1 < S n)%nat) by lia.
    rewrite <- E in H1, H2.
    destruct (nth_in_bounds lo hi _ _ H1 B') as [L1 U1].
    destruct (nth_in_bounds lo hi _ _ H2 B') as [L2 U2].
    rewrite E in *.
    destruct (Nat.even (S n)); eexists; (split; [reflexivity|]);
      rewrite Qred_correct; split; try lra.
    + apply Qle_shift_div_l; lra.
    + apply Qle_shift_div_r; lra.
Qed.

Lemma series_min_hd (l : list pyfloat) (mn : Q) :
  hd_error (Qsort (dropna l)) = Some mn -> series_min l = Num mn.
Proof.
  unfold series_min. destruct (Qsort (dropna l)); [discriminate|].
  intros E. injection E as ->. reflexivity.
Qed.

Lemma series_max_hd (l : list pyfloat) (mx : Q) :
  hd_error (rev (Qsort (dropna l))) = Some mx -> series_max l = Num mx.
Proof.
  unfold series_max. destruct (rev (Qsort (dropna l))); [discriminate|].
  intros E. injection E as ->. reflexivity.
Qed.

Lemma series_mean_value (l : list pyfloat) :
  dropna l <> [] -> series_mean l = Num (Qred (Qmean (dropna l))).
Proof. unfold series_mean. destruct (dropna l); [congruence|reflexivity]. Qed.

(** X13.  When the table has a graded record, the minimum and the
    maximum that [analyze_performance] reports are grades of the table, no
    grade lies outside them, and the median lies between them. *)
Theorem overall_grades_range (risk_threshold : Q) (min_records : Z)
        (now : string) (df df' : DataFrame) (res : Results.t) :
  analyze_performance risk_threshold min_records now df = (Ok res, df') ->
  (exists g, In (Num g) (map grade (rows df))) ->
  exists mn md mx,
    Overall.min_grade (Results.overall res) = Num mn /\
    Overall.median_grade (Results.overall res) = Num md /\
    Overall.max_grade (Results.overall res) = Num mx /\
    In (Num mn) (map grade (rows df)) /\ In (Num mx) (map grade (rows df)) /\
    (forall g, In (Num g) (map grade (rows df)) -> mn <= g /\ g <= mx) /\
    mn <= md /\ md <= mx.
Proof.
  intros E (g & Ig).
  apply analyze_performance_ok in E as (o & r & t & O & _ & _ & ->).
  apply overall_stats_counts in O as (_ & _ & _ & _ & Ed & Emin & Emax).
  cbn [Results.overall]. rewrite Ed, Emin, Emax.
  set (l := map grade (rows df)) in *.
  assert (N : dropna l <> []).
  { apply in_dropna in Ig. intros Z0. now rewrite Z0 in Ig. }
  destruct (sorted_ends (dropna l) N) as (mn & mx & Hmn & Hmx & Imn & Imx & B).
  destruct (series_median_bounds mn mx l N B) as (md & Emd & Lmd & Umd).
  exists mn, md, mx.
  split; [now apply series_min_hd|].
  split; [exact Emd|].
  split; [now apply series_max_hd|].
  split; [now apply in_dropna|].
  split; [now apply in_dropna|].
  split; [intros y Iy; apply B; now apply in_dropna|].
  split; [exact Lmd|exact Umd].
Qed.

(* --------------------------------------------------------------- *)
(** *** The correlations and the clusters that are reported *)

Lemma in_firstn_of {A} (n : nat) (l : list A) (x : A) :
  In x (firstn n l) -> In x l.
Proof.
  revert n; induction l as [|a t IH]; intros [|n]; simpl; try tauto.
  intros [E|I]; eauto.
Qed.

Lemma StronglySorted_firstn {A} (R : A -> A -> Prop) (n : nat) (l : list A) :
  StronglySorted R l -> StronglySorted R (firstn n l).
Proof.
  intros S. revert n. induction S as [|a t St IH Fa]; intros [|n]; simpl;
    try constructor; auto.
  rewrite Forall_forall in *. intros x I. apply Fa.
  revert I. apply in_firstn_of.
Qed.

Lemma Ok_Some_inj {A} (a b : A) : Ok (Some a) = Ok (Some b) -> a = b.
Proof. congruence. Qed.

Lemma try_field_value {A} (body : result (option A)) (prefix : string) (v : A) :
  try_field body prefix = Some (Value v) <-> body = Ok (Some v).
Proof.
  unfold try_field. destruct body as [[a|]|e]; split; intros E;
    try discriminate; congruence.
Qed.

Lemma try_field_none {A} (body : result (option A)) (prefix : string) :
  try_field body prefix = None <-> body = Ok None.
Proof.
  unfold try_field. destruct body as [[a|]|e]; split; intros E;
    try discriminate; congruence.
Qed.

(** How [analyze_performance] names the strength of a correlation. *)
Lemma strength_cases (c : Q) (s : string) :
  s = (if Qabs_gt c (7 # 10) then "strong"
       else if Qabs_gt c (5 # 10) then "moderate" else "weak") ->
  ((7 # 10) < Qabs c -> s = "strong") /\
  ((5 # 10) < Qabs c -> Qabs c <= (7 # 10) -> s = "moderate") /\
  (Qabs c <= (5 # 10) -> s = "weak").
Proof.
  intros ->. unfold Qabs_gt.
  destruct (Qltb (7 # 10) (Qabs c)) eqn:E7;
    [apply Qltb_lt in E7|apply Qltb_ge in E7];
    (destruct (Qltb (5 # 10) (Qabs c)) eqn:E5;
     [apply Qltb_lt in E5|apply Qltb_ge in E5]);
    repeat split; intros; auto; lra.
Qed.

(** X14.  When [analyze_performance] reports correlations, they are ten
    at most, each of an absolute value above 0.3, by decreasing absolute
    value, and named "strong" above 0.7, "moderate" above 0.5 and "weak"
    otherwise. *)
Theorem reported_correlations (risk_threshold : Q) (min_records : Z)
        (now : string) (df df' : DataFrame) (res : Results.t)
        (l : list Correlation.t) :
  analyze_performance risk_threshold min_records now df = (Ok res, df') ->
  Results.correlations res = Some (Value l) ->
  (List.length l <= 10)%nat /\
  StronglySorted (fun a b => Qabs (Correlation.correlation b)
                             <= Qabs (Correlation.correlation a)) l /\
  Forall (fun c =>
            (3 # 10) < Qabs (Correlation.correlation c) /\
            ((7 # 10) < Qabs (Correlation.correlation c) ->
             Correlation.strength c = "strong") /\
            ((5 # 10) < Qabs (Correlation.correlation c) ->
             Qabs (Correlation.correlation c) <= (7 # 10) ->
             Correlation.strength c = "moderate") /\
            (Qabs (Correlation.correlation c) <= (5 # 10) ->
             Correlation.strength c = "weak"))
         l.
Proof.
  intros E V.
  apply analyze_performance_ok in E as (o & r & t & _ & _ & _ & ->).
  cbn [Results.correlations] in V. unfold correlation_stage in V.
  apply try_field_value in V. unfold correlation_body in V.
  destruct (pivot_table_dropna df') as [pivot|e]; cbn [rbind] in V; [|discriminate].
  destruct (_ && _)%bool; [|discriminate].
  destruct (pivot_corr pivot) as [corr|e]; cbn [rbind] in V; [|discriminate].
  apply Ok_Some_inj in V. subst l.
  split; [|split].
  - rewrite length_firstn. apply Nat.le_min_l.
  - apply StronglySorted_firstn.
    eapply StronglySorted_impl; [|apply sort_by_sorted].
    + intros a b. cbv beta. apply Qle_bool_iff.
    + intros a b. apply Qle_bool_total.
    + intros a b c. cbv beta. rewrite !Qle_bool_iff. intros; eapply Qle_trans; eauto.
  - rewrite Forall_forall. intros c I.
    apply in_firstn_of, in_sort_by, in_flat_map in I as (ij & _ & I).
    destruct (corr (fst ij) (snd ij)) as [|v]; [destruct I|].
    destruct (Qabs_gt v (3 # 10)) eqn:G; [|destruct I].
    destruct I as [<-|[]]. cbn [Correlation.correlation Correlation.strength].
    split; [now apply Qltb_lt|]. now apply strength_cases.
Qed.

Lemma count_labels_le {A} (U : list nat) (l : list (A * nat)) :
  NoDup U ->
  (list_sum (map (fun u => List.length (filter (fun p => (snd p =? u)%nat) l)) U)
   <= List.length l)%nat.
Proof.
  intros N. induction l as [|x t IH].
  - simpl. clear. induction U; simpl; auto.
  - rewrite (map_ext _ (fun u => ((if (snd x =? u)%nat then 1 else 0)
                                  + List.length (filter (fun p => (snd p =? u)%nat) t))%nat)).
    + rewrite list_sum_map_add.
      assert (O : (list_sum (map (fun u => if (snd x =? u)%nat then 1%nat else 0%nat) U)
                   <= 1)%nat).
      { clear - N. induction N as [|a U Na _ IHN]; simpl; auto.
        destruct (snd x =? a)%nat eqn:E; [|exact IHN].
        apply Nat.eqb_eq in E. subst a.
        assert (Z0 : list_sum (map (fun u => if (snd x =? u)%nat then 1%nat else 0%nat) U)
                     = 0%nat).
        { clear IHN. induction U as [|b U IHU]; simpl; auto.
          destruct (snd x =? b)%nat eqn:Eb.
          - apply Nat.eqb_eq in Eb. subst b. destruct Na. now left.
          - apply IHU. intros I. apply Na. now right. }
        rewrite Z0. lia. }
      simpl List.length. lia.
    + intros u. simpl. now destruct (snd x =? u)%nat.
Qed.

(** X15.  [analyze_performance] reports no clusters exactly when
    fewer than ten students have [min_records] grades.  When it reports
    clusters, they are min(4, n // 3) for the [n] students kept, so three or
    four, named cluster_0, cluster_1, ...; each lists ten students at most,
    all of them kept students, and the sizes of the clusters add up to [n]
    at most. *)
Theorem reported_clusters (risk_threshold : Q) (min_records : Z)
        (now : string) (df df' : DataFrame) (res : Results.t) :
  analyze_performance risk_threshold min_records now df = (Ok res, df') ->
  let kept := kept_students df min_records in
  (Results.clusters res = None <-> (List.length kept < 10)%nat) /\
  (forall l,
      Results.clusters res = Some (Value l) ->
      List.length l = Nat.min 4 (List.length kept / 3) /\
      (3 <= List.length l <= 4)%nat /\
      map fst l = map (fun i => "cluster_" ++ string_of_N (N.of_nat i))
                      (seq 0 (List.length l)) /\
      Forall (fun c =>
                List.length (ClusterInfo.student_ids (snd c))
                  = Nat.min 10 (ClusterInfo.student_count (snd c)) /\
                incl (ClusterInfo.student_ids (snd c))
                     (map StudentStats.student_id kept))
             l /\
      (list_sum (map (fun c => ClusterInfo.student_count (snd c)) l)
       <= List.length kept)%nat).
Proof.
  intros E kept.
  apply analyze_performance_ok in E as (o & r & t & _ & _ & _ & ->).
  cbn [Results.clusters]. unfold clustering_stage. fold kept. split.
  - rewrite try_field_none. unfold clustering_body.
    destruct (10 <=? List.length kept)%nat eqn:L.
    + apply Nat.leb_le in L. split; [|lia].
      destruct (fit_transform _) as [sc|e]; cbn [rbind]; [|discriminate].
      destruct (fit_predict _ _) as [cl|e]; cbn [rbind]; [|discriminate].
      destruct (negb _); discriminate.
    + apply Nat.leb_gt in L. split; auto.
  - intros l V. apply try_field_value in V. unfold clustering_body in V.
    destruct (10 <=? List.length kept)%nat eqn:L; [|discriminate].
    apply Nat.leb_le in L.
    destruct (fit_transform _) as [sc|e]; cbn [rbind] in V; [|discriminate].
    destruct (fit_predict _ _) as [cl|e]; cbn [rbind] in V; [|discriminate].
    destruct (negb _) eqn:Len; [discriminate|].
    apply negb_false_iff, Nat.eqb_eq in Len.
    apply Ok_Some_inj in V. subst l.
    set (k := Nat.min 4 (List.length kept / 3)).
    assert (K3 : (3 <= List.length kept / 3)%nat).
    { change 3%nat with (9 / 3)%nat at 1. apply Nat.Div0.div_le_mono. lia. }
    rewrite !length_map, length_seq. fold k.
    split; [reflexivity|]. split; [unfold k; lia|]. split; [|split].
    + rewrite map_map. reflexivity.
    + rewrite Forall_forall. intros c I.
      apply in_map_iff in I as (i & <- & _).
      cbn [snd ClusterInfo.student_ids ClusterInfo.student_count].
      split.
      * rewrite length_firstn, !length_map. reflexivity.
      * intros s I. apply in_firstn_of in I.
        apply in_map_iff in I as (st & <- & I). apply in_map.
        apply in_map_iff in I as ([st' lab] & <- & I).
        apply filter_In in I as [I _].
        apply in_combine_l in I. exact I.
    + rewrite map_map. cbn [snd ClusterInfo.student_count].
      rewrite (map_ext _ (fun u => List.length
                                     (filter (fun p => (snd p =? u)%nat)
                                             (combine kept cl))))
        by (intros; now rewrite length_map).
      eapply Nat.le_trans; [apply count_labels_le, seq_NoDup|].
      rewrite length_combine. apply Nat.le_min_l.
Qed.

(* --------------------------------------------------------------- *)
(** *** The weekly trend that is reported *)

Lemma sorted_NoDup_strict (l : list Z) :
  StronglySorted Z.le l -> NoDup l -> StronglySorted Z.lt l.
Proof.
  induction 1 as [|a t St IH Fa]; intros N; constructor;
    inversion N as [|? ? Na Nt]; subst; auto.
  rewrite Forall_forall in *. intros b Ib.
  assert (a <> b) by (intros ->; auto).
  pose proof (Fa b Ib). lia.
Qed.

Lemma weeks_increasing (data : list row) :
  StronglySorted Z.lt (map fst (weekly_grades data)).
Proof.
  apply sorted_NoDup_strict; [|apply weeks_NoDup].
  rewrite map_fst_weekly_grades. unfold Zsort.
  eapply StronglySorted_impl; [|apply sort_by_sorted].
  - intros a b. apply Z.leb_le.
  - intros a b. rewrite !Z.leb_le. lia.
  - intros a b c. rewrite !Z.leb_le. lia.
Qed.

Lemma weeks_present (data : list row) (w : Z) :
  In w (map fst (weekly_grades data)) <-> In (Some w) (map week data).
Proof.
  rewrite map_fst_weekly_grades. unfold Zsort. rewrite in_sort_by, <- in_somes.
  split; [apply unique_incl|].
  intros I. apply (unique_loop_complete Z.eqb); auto.
  intros a b E. now apply Z.eqb_eq.
Qed.

Lemma trends_of_weeks (df : DataFrame) (t : Trends.t) (df' : DataFrame) :
  (let weekly_trend := weekly_grades (rows df) in
   let weekly := (map fst weekly_trend,
                  map (fun p => round_to 2 (snd p)) weekly_trend) in
   if (1 <? List.length weekly_trend)%nat
   then bind (lift (polyfit (arange (List.length weekly_trend))
                            (map snd weekly_trend)))
             (fun fit =>
                let (slope, intercept) := fit in
                ret (Trends.mk (Some weekly)
                       (Some (Trends.mk_overall slope intercept (trend_label slope)
                                (pf_add (pf_mul slope (Num (Qlen weekly_trend)))
                                        intercept)))))
   else ret (Trends.mk (Some weekly) None)) df = (Ok t, df') ->
  df' = df /\
  exists means,
    Trends.weekly t = Some (map fst (weekly_grades (rows df)), means) /\
    List.length means = List.length (weekly_grades (rows df)) /\
    (Trends.overall t = None <-> (List.length (weekly_grades (rows df)) <= 1)%nat).
Proof.
  cbv zeta. unfold bind, lift, ret.
  destruct (1 <? _)%nat eqn:L.
  - apply Nat.ltb_lt in L.
    destruct (polyfit _ _) as [[s i]|e]; [|discriminate].
    intros E. injection E as <- <-. split; auto.
    eexists. split; [reflexivity|]. rewrite length_map. split; auto.
    cbn. split; [discriminate|lia].
  - apply Nat.ltb_ge in L. intros E. injection E as <- <-. split; auto.
    eexists. split; [reflexivity|]. rewrite length_map. split; auto.
    cbn. tauto.
Qed.

(** X16.  In the result of [analyze_performance] the weekly trend is
    absent exactly when the table has neither a week nor a date column.
    When present, it lists the weeks of the table in increasing order, each
    once, with one mean for each week; the overall trend is left out exactly
    when there is one week at most. *)
Theorem reported_trends (risk_threshold : Q) (min_records : Z)
        (now : string) (df df' : DataFrame) (res : Results.t) :
  analyze_performance risk_threshold min_records now df = (Ok res, df') ->
  match Trends.weekly (Results.trends res) with
  | None =>
    has_column df "week" = false /\ has_column df "date" = false /\
    Trends.overall (Results.trends res) = None
  | Some (weeks, means) =>
    (has_column df "week" = true \/ has_column df "date" = true) /\
    List.length means = List.length weeks /\
    StronglySorted Z.lt weeks /\
    (forall w, In w weeks <-> In (Some w) (map week (rows df'))) /\
    (Trends.overall (Results.trends res) = None <-> (List.length weeks <= 1)%nat)
  end.
Proof.
  intros E.
  apply analyze_performance_ok in E as (o & r & t & _ & _ & T & ->).
  cbn [Results.trends]. revert T.
  unfold trends_stage. unfold bind at 1. unfold get at 1.
  destruct (has_column df "week") eqn:W; cbn [orb negb].
  - unfold bind at 1. unfold ret at 1. unfold bind at 1. unfold get at 1.
    intros T. apply trends_of_weeks in T as (-> & means & -> & Lm & Ov).
    rewrite <- (length_map fst (weekly_grades (rows df))) in Lm, Ov.
    repeat split; auto; try apply weeks_increasing; try apply weeks_present;
      try apply Ov.
  - destruct (has_column df "date") eqn:D.
    + unfold bind at 1. unfold put at 1. unfold bind at 1. unfold get at 1.
      intros T. apply trends_of_weeks in T as (-> & means & -> & Lm & Ov).
      rewrite <- (length_map fst (weekly_grades (rows (assign_week_from_date df))))
        in Lm, Ov.
      repeat split; auto; try apply weeks_increasing; try apply weeks_present;
        try apply Ov.
    + unfold ret. intros T. injection T as <- <-. cbn. auto.
Qed.

(* --------------------------------------------------------------- *)
(** *** [calculate_subject_statistics] *)

Lemma calculate_subject_statistics_ok (df : DataFrame)
      (stats : list (option string * SubjectDetail.t)) :
  calculate_subject_statistics df = Ok stats ->
  has_column df "subject" = true /\
  Forall2 (fun subj e => fst e = subj /\ subject_detail df subj = Ok (snd e))
          (unique_cells (map subject (rows df))) stats.
Proof.
  unfold calculate_subject_statistics, column.
  destruct (has_column df "subject"); cbn [rbind]; [|discriminate].
  intros R. split; auto. apply rmap_list_ok in R.
  induction R as [|subj e l l' Re _ IH]; constructor; auto.
  destruct (subject_detail df subj) as [d|x]; cbn [rbind] in Re; [|discriminate].
  apply (f_equal (fun r => match r with Ok v => v | Raise _ => e end)) in Re.
  subst e. auto.
Qed.

Lemma subject_detail_fields (df : DataFrame) (subj : option string)
      (d : SubjectDetail.t) :
  subject_detail df subj = Ok d ->
  let subject_data := filter (subject_is subj) (rows df) in
  let grades := map grade subject_data in
  SubjectDetail.basic d
    = SubjectBasic.mk
        (series_mean grades) (series_median grades) (series_std grades)
        (series_min grades) (series_max grades)
        (pf_sub (series_max grades) (series_min grades))
        (pf_sub (series_quantile (75 # 100) grades)
                (series_quantile (25 # 100) grades)) /\
  SubjectCounts.total_students (SubjectDetail.counts d)
    = nunique String.eqb (map student_id subject_data) /\
  SubjectCounts.total_records (SubjectDetail.counts d) = List.length subject_data /\
  SubjectDetail.distribution d
    = SubjectDistribution.mk
        (count_where (at_least 9) grades)
        (count_where (fun g => at_least 7 g && pf_lt g (Num 9)) grades)
        (count_where (fun g => at_least 5 g && pf_lt g (Num 7)) grades)
        (count_where (fun g => pf_lt g (Num 5)) grades)
        (mask_rate (map (at_least 9) grades))
        (mask_rate (map (at_least 5) grades)) /\
  SubjectDetail.percentiles d
    = SubjectPercentiles.mk
        (series_quantile (10 # 100) grades)
        (series_quantile (25 # 100) grades)
        (series_quantile (50 # 100) grades)
        (series_quantile (75 # 100) grades)
        (series_quantile (90 # 100) grades).
Proof.
  unfold subject_detail.
  destruct (has_column df "grade"); cbn [negb]; [|discriminate].
  destruct (has_column df "student_id"); cbn [negb]; [|discriminate].
  destruct (subject_trend _ _) as [tr|e]; cbn [rbind]; [|discriminate].
  intros E.
  apply (f_equal (fun r => match r with Ok v => v | Raise _ => d end)) in E.
  subst d. cbn. repeat split.
Qed.

(** Every grade that is present falls in one of the four classes. *)
Lemma four_classes (l : list pyfloat) :
  (count_where (at_least 9) l
   + count_where (fun g => at_least 7 g && pf_lt g (Num 9)) l
   + count_where (fun g => at_least 5 g && pf_lt g (Num 7)) l
   + count_where (fun g => pf_lt g (Num 5)) l)%nat
  = List.length (dropna l).
Proof.
  unfold count_where. induction l as [|[|q] t IH]; [reflexivity|exact IH|].
  cbn [filter dropna List.length]. rewrite <- IH.
  unfold at_least, pf_ge, pf_le, pf_lt, Qltb.
  destruct (Qle_bool 9 q) eqn:E9, (Qle_bool 7 q) eqn:E7, (Qle_bool 5 q) eqn:E5;
    cbn [negb andb List.length]; try lia;
    exfalso;
    repeat match goal with
           | E : Qle_bool _ _ = true |- _ => apply Qle_bool_iff in E
           | E : Qle_bool _ _ = false |- _ =>
             apply not_true_iff_false in E; rewrite Qle_bool_iff in E
           end; lra.
Qed.

Lemma dropna_all_graded (data : list row) :
  all_graded data = true ->
  List.length (dropna (map grade data)) = List.length data.
Proof.
  unfold all_graded. induction data as [|r t IH]; simpl; auto.
  destruct (grade r); simpl; [discriminate|]. intros G. now rewrite IH.
Qed.

(** X17.  In every entry of [calculate_subject_statistics] the
    numbers of the excellent, good, satisfactory and failed grades add up to
    the number of the graded records of the subject: a grade that is present
    is counted in exactly one class, a missing grade in none.  On a table
    without a missing grade the four numbers add up to the records of the
    subject. *)
Theorem subject_classes_partition (df : DataFrame)
        (stats : list (option string * SubjectDetail.t)) :
  calculate_subject_statistics df = Ok stats ->
  Forall (fun e =>
            let d := SubjectDetail.distribution (snd e) in
            let total := (SubjectDistribution.excellent_count d
                          + SubjectDistribution.good_count d
                          + SubjectDistribution.satisfactory_count d
                          + SubjectDistribution.fail_count d)%nat in
            total = List.length
                      (dropna (map grade (filter (subject_is (fst e)) (rows df)))) /\
            (total <= SubjectCounts.total_records (SubjectDetail.counts (snd e)))%nat /\
            (all_graded (rows df) = true ->
             total = SubjectCounts.total_records (SubjectDetail.counts (snd e))))
         stats.
Proof.
  intros E. apply calculate_subject_statistics_ok in E as [_ F].
  rewrite Forall_forall. intros e I.
  destruct (Forall2_in_right _ _ _ _ F I) as (subj & _ & Es & D).
  apply subject_detail_fields in D as (_ & _ & Er & Ed & _).
  cbv zeta. rewrite Ed, Er, Es.
  cbn [SubjectDistribution.excellent_count SubjectDistribution.good_count
       SubjectDistribution.satisfactory_count SubjectDistribution.fail_count].
  rewrite four_classes. split; [reflexivity|]. split.
  - clear. induction (filter (subject_is subj) (rows df)) as [|r t IH]; simpl; auto.
    destruct (grade r); simpl; lia.
  - intros G. apply dropna_all_graded. now apply all_graded_filter.
Qed.

Lemma at_least_5_4 (g : pyfloat) : at_least 5 g = true -> at_least 4 g = true.
Proof.
  unfold at_least, pf_ge. destruct g as [|q]; simpl; auto.
  rewrite !Qle_bool_iff. lra.
Qed.

(** X18.  On the same table [calculate_subject_statistics] and
    [analyze_performance] have entries for the same subjects, in the same
    order.  For a subject they report the same mean, median and standard
    deviation, the same numbers of students and of records and the same
    share of excellent grades; the pass percentage of the former, which
    asks for a grade of 5, is at most the pass rate of the latter, which
    asks for 4. *)
Theorem subject_statistics_agree (risk_threshold : Q) (min_records : Z)
        (now : string) (df df' : DataFrame) (res : Results.t)
        (stats : list (option string * SubjectDetail.t)) :
  analyze_performance risk_threshold min_records now df = (Ok res, df') ->
  calculate_subject_statistics df = Ok stats ->
  map fst stats = map fst (Results.by_subject res) /\
  forall subj d s,
    In (Some subj, d) stats -> In (Some subj, s) (Results.by_subject res) ->
    SubjectBasic.mean (SubjectDetail.basic d) = SubjectStats.mean_grade s /\
    SubjectBasic.median (SubjectDetail.basic d) = SubjectStats.median_grade s /\
    SubjectBasic.std (SubjectDetail.basic d) = SubjectStats.std_grade s /\
    SubjectCounts.total_students (SubjectDetail.counts d)
      = SubjectStats.student_count s /\
    SubjectCounts.total_records (SubjectDetail.counts d)
      = SubjectStats.record_count s /\
    SubjectDistribution.excellent_percentage (SubjectDetail.distribution d)
      = SubjectStats.excellent_rate s /\
    exists p r,
      SubjectDistribution.pass_percentage (SubjectDetail.distribution d) = Num p /\
      SubjectStats.pass_rate s = Num r /\ p <= r.
Proof.
  intros E C.
  apply analyze_performance_ok in E as (o & r & t & _ & _ & _ & ->).
  apply calculate_subject_statistics_ok in C as [_ F].
  cbn [Results.by_subject]. unfold by_subject_stats. split.
  - rewrite map_map. cbn [fst]. rewrite map_id.
    rewrite <- (map_id (unique_cells (map subject (rows df)))) at 1.
    apply (Forall2_map_eq _ (fun x => x) fst _ _ (fun a b R => proj1 R) F).
  - intros subj d s Id Is.
    apply in_map_iff in Is as (k & K & Ik).
    apply (f_equal snd) in K as Ks. apply (f_equal fst) in K. cbn [fst snd] in K, Ks.
    subst k s.
    destruct (Forall2_in_right _ _ _ _ F Id) as (k & _ & Ek & D).
    cbn [fst snd] in Ek, D. subst k.
    apply subject_detail_fields in D as (Eb & Es & Er & Ed & _).
    rewrite Eb, Es, Er, Ed.
    cbn [SubjectBasic.mean SubjectBasic.median SubjectBasic.std
         SubjectDistribution.excellent_percentage
         SubjectDistribution.pass_percentage].
    unfold subject_stats.
    cbn [SubjectStats.mean_grade SubjectStats.median_grade SubjectStats.std_grade
         SubjectStats.student_count SubjectStats.record_count
         SubjectStats.excellent_rate SubjectStats.pass_rate].
    repeat (split; [reflexivity|]).
    rewrite !map_map. apply mask_rate_mono.
    + apply unique_incl in Ik. apply in_map_iff in Ik as (r0 & Er0 & Ir0).
      intros Z0.
      assert (I0 : In r0 (filter (subject_is (Some subj)) (rows df))).
      { apply filter_In. split; auto. unfold subject_is, cell_eq.
        rewrite Er0. apply String.eqb_refl. }
      now rewrite Z0 in I0.
    + intros x. apply at_least_5_4.
Qed.

Lemma subject_trend_total (df : DataFrame) (data : list row) :
  all_graded data = true -> exists tr, subject_trend df data = Ok tr.
Proof.
  intros G. unfold subject_trend.
  destruct (has_column df "week" && _)%bool eqn:C; [|eauto].
  apply andb_true_iff in C as [_ L]. apply Nat.ltb_lt in L.
  rewrite <- length_weekly_grades in L.
  pose proof L as L'. apply Nat.ltb_lt in L'. rewrite L'.
  destruct (polyfit_weekly_positions data G L) as (m & c & ->).
  cbn [rbind]. eauto.
Qed.

Lemma subject_detail_total (df : DataFrame) (subj : option string) :
  has_column df "grade" = true -> has_column df "student_id" = true ->
  all_graded (rows df) = true -> exists d, subject_detail df subj = Ok d.
Proof.
  intros Hg Hs G. unfold subject_detail. rewrite Hg, Hs. cbn [negb].
  destruct (subject_trend_total df (filter (subject_is subj) (rows df)))
    as (tr & ->); [now apply all_graded_filter|].
  cbn [rbind]. eauto.
Qed.

Lemma calculate_subject_statistics_total (df : DataFrame) :
  has_required df = true -> all_graded (rows df) = true ->
  exists stats,
    calculate_subject_statistics df = Ok stats /\
    map fst stats = unique_cells (map subject (rows df)).
Proof.
  intros R G. unfold has_required in R.
  apply andb_true_iff in R as [R Hg]. apply andb_true_iff in R as [Hs Hj].
  unfold calculate_subject_statistics, column. rewrite Hj. cbn [rbind].
  induction (unique_cells (map subject (rows df))) as [|subj t (stats & E & M)].
  - exists []. auto.
  - destruct (subject_detail_total df subj Hg Hs G) as (d & D).
    exists ((subj, d) :: stats). cbn [rmap_list]. rewrite D. cbn [rbind].
    rewrite E. cbn [rbind]. split; [reflexivity|]. cbn [map fst]. now rewrite M.
Qed.

(** X19.  [calculate_subject_statistics] raises the
    [KeyError] of the subject column when the table has none.  On a table
    that has it and no row, it returns the empty dictionary, whatever the
    other columns are.  On a table with the three required columns and no
    missing grade it returns one entry for each distinct subject, in the
    order in which the subjects first appear. *)
Theorem calculate_subject_statistics_returns (df : DataFrame) :
  (has_column df "subject" = false ->
   calculate_subject_statistics df = Raise (KeyError "subject")) /\
  (has_column df "subject" = true -> rows df = [] ->
   calculate_subject_statistics df = Ok []) /\
  (has_required df = true -> all_graded (rows df) = true ->
   exists stats,
     calculate_subject_statistics df = Ok stats /\
     map fst stats = unique_cells (map subject (rows df))).
Proof.
  split; [|split].
  - intros Hj. unfold calculate_subject_statistics, column. now rewrite Hj.
  - intros Hj R. unfold calculate_subject_statistics, column.
    now rewrite Hj, R.
  - apply calculate_subject_statistics_total.
Qed.

(** X20.  The table returned by [clean_data] can be analysed:
    [analyze_performance] returns a result and leaves the table as it is,
    [identify_at_risk_students] returns for every [min_weeks] of at least 2,
    [predict_final_grades] for every [current_week] but 0, and
    [calculate_subject_statistics] returns. *)
Theorem cleaned_table_analysable (df out : DataFrame) :
  clean_data df = Ok out ->
  (forall risk_threshold min_records now,
      exists res,
        analyze_performance risk_threshold min_records now out = (Ok res, out)) /\
  (forall threshold min_weeks decline_threshold,
      (2 <= min_weeks)%Z ->
      exists risk,
        identify_at_risk_students out threshold min_weeks decline_threshold
        = Ok risk) /\
  (forall current_week,
      current_week <> Some 0%Z ->
      exists preds, predict_final_grades out current_week = Ok preds) /\
  (exists stats, calculate_subject_statistics out = Ok stats).
Proof.
  intros E. destruct (clean_data_analysable _ _ E) as (R & G & W).
  split; [|split; [|split]].
  - intros rt mr now.
    destruct (analyze_performance_returns rt mr now out R G) as (res & df' & A).
    pose proof (analyze_performance_frame rt mr now out W) as F.
    rewrite A in F. cbn [snd] in F. subst df'. eauto.
  - intros. now apply identify_at_risk_students_total.
  - intros. now apply predict_final_grades_total.
  - destruct (calculate_subject_statistics_total out R G) as (stats & C & _). eauto.
Qed.

(* --------------------------------------------------------------- *)
(** *** Quantiles *)

Lemma sorted_nth_mono (v : list Q) (i j : nat) :
  StronglySorted Qle v -> (i <= j)%nat -> (j < List.length v)%nat ->
  nth i v 0 <= nth j v 0.
Proof.
  intros S. revert i j. induction S as [|a t St IH Fa]; intros i j Lij Lj.
  - simpl in Lj. lia.
  - destruct i as [|i], j as [|j]; simpl in *; try lia.
    + apply Qle_refl.
    + rewrite Forall_forall in Fa. apply Fa, nth_In. lia.
    + apply IH; lia.
Qed.

Lemma Qfloor_unique (z : Z) (x : Q) :
  inject_Z z <= x -> x < inject_Z (z + 1) -> Qfloor x = z.
Proof.
  intros L U.
  pose proof (Qfloor_le x) as Fl. pose proof (Qlt_floor x) as Fu.
  assert (A : (Qfloor x < z + 1)%Z).
  { rewrite Zlt_Qlt. eapply Qle_lt_trans; eauto. }
  assert (B : (z < Qfloor x + 1)%Z).
  { rewrite Zlt_Qlt. eapply Qle_lt_trans; eauto. }
  lia.
Qed.

Lemma Qmult_le_l_compat (x y z : Q) : 0 <= z -> x <= y -> z * x <= z * y.
Proof.
  intros Z0 L. rewrite !(Qmult_comm z). now apply Qmult_le_compat_r.
Qed.

(** The rank, its integer part and its fractional part. *)
Lemma rank_parts (q : Q) (n : nat) :
  0 <= q -> q <= 1 ->
  (0 <= Qfloor (Qnat (n - 1) * q) <= Z.of_nat (n - 1))%Z /\
  0 <= Qnat (n - 1) * q - inject_Z (Qfloor (Qnat (n - 1) * q)) /\
  Qnat (n - 1) * q - inject_Z (Qfloor (Qnat (n - 1) * q)) < 1.
Proof.
  intros Q0 Q1. set (pos := Qnat (n - 1) * q).
  assert (N0 : 0 <= Qnat (n - 1))
    by (unfold Qnat; change 0 with (inject_Z 0); rewrite <- Zle_Qle; lia).
  assert (P0 : 0 <= pos) by (apply Qmult_le_0_compat; auto).
  assert (P1 : pos <= Qnat (n - 1)).
  { unfold pos. rewrite <- (Qmult_1_r (Qnat (n - 1))) at 2.
    apply Qmult_le_l_compat; auto. }
  pose proof (Qfloor_le pos) as Fl. pose proof (Qlt_floor pos) as Fu.
  rewrite inject_Z_plus in Fu. change (inject_Z 1) with 1 in Fu.
  split; [split|split; lra].
  - change 0%Z with (Qfloor 0). now apply Qfloor_resp_le.
  - rewrite <- (Qfloor_Z (Z.of_nat (n - 1))). now apply Qfloor_resp_le.
Qed.

Lemma rank_value_spec (q : Q) (v : list Q) :
  StronglySorted Qle v -> v <> [] -> 0 <= q -> q <= 1 ->
  let pos := Qnat (List.length v - 1) * q in
  let lo := Z.to_nat (Qfloor pos) in
  let frac := pos - inject_Z (Qfloor pos) in
  let a := nth lo v 0 in
  let b := nth (S lo) v a in
  (lo < List.length v)%nat /\ a <= b /\ b <= nth (List.length v - 1) v 0 /\
  ((S lo < List.length v)%nat -> b = nth (S lo) v 0) /\
  0 <= frac /\ frac < 1 /\
  a <= rank_value q v /\ rank_value q v <= b.
Proof.
  intros Sv N Q0 Q1 pos lo frac a b.
  destruct (rank_parts q (List.length v) Q0 Q1) as ([F0 F1] & R0 & R1).
  fold pos in F0, F1, R0, R1. fold frac in R0, R1.
  assert (Ln : (1 <= List.length v)%nat)
    by (destruct v; [congruence|simpl; lia]).
  assert (Llo : (lo < List.length v)%nat) by (unfold lo; lia).
  assert (B : a <= b /\ b <= nth (List.length v - 1) v 0 /\
              ((S lo < List.length v)%nat -> b = nth (S lo) v 0)).
  { destruct (Nat.lt_ge_cases (S lo) (List.length v)) as [L|L].
    - assert (Eb : b = nth (S lo) v 0) by (apply nth_indep; exact L).
      rewrite Eb. split; [apply sorted_nth_mono; auto|].
      split; [apply sorted_nth_mono; auto; lia|auto].
    - assert (Eb : b = a) by (apply nth_overflow; exact L).
      rewrite Eb. split; [apply Qle_refl|].
      split; [apply sorted_nth_mono; auto; lia|intros; lia]. }
  destruct B as (Lab & Lb & Eb).
  assert (P0 : 0 <= (b - a) * frac) by (apply Qmult_le_0_compat; lra).
  assert (P1 : (b - a) * frac <= (b - a) * 1)
    by (apply Qmult_le_l_compat; lra).
  change (rank_value q v) with (a + (b - a) * frac).
  repeat split; auto; lra.
Qed.

Lemma rank_value_mono (q1 q2 : Q) (v : list Q) :
  StronglySorted Qle v -> v <> [] -> 0 <= q1 -> q1 <= q2 -> q2 <= 1 ->
  rank_value q1 v <= rank_value q2 v.
Proof.
  intros Sv N Q0 Q12 Q1.
  assert (Q1' : q1 <= 1) by lra. assert (Q0' : 0 <= q2) by lra.
  pose proof (rank_value_spec q1 v Sv N Q0 Q1') as S1.
  pose proof (rank_value_spec q2 v Sv N Q0' Q1) as S2.
  destruct (rank_parts q1 (List.length v) Q0 Q1') as ([F0 _] & _).
  destruct (rank_parts q2 (List.length v) Q0' Q1) as ([G0 _] & _).
  cbv zeta in S1, S2.
  set (pos1 := Qnat (List.length v - 1) * q1) in *.
  set (pos2 := Qnat (List.length v - 1) * q2) in *.
  assert (P12 : pos1 <= pos2).
  { apply Qmult_le_l_compat; auto.
    unfold Qnat. change 0 with (inject_Z 0). rewrite <- Zle_Qle. lia. }
  pose proof (Qfloor_resp_le _ _ P12) as F12.
  destruct S1 as (L1 & Lab1 & _ & Eb1 & _ & _ & La1 & Lb1).
  destruct S2 as (L2 & Lab2 & _ & _ & _ & _ & La2 & Lb2).
  destruct (Z.eq_dec (Qfloor pos1) (Qfloor pos2)) as [Ef|Nf].
  - unfold rank_value. fold pos1 pos2. rewrite <- Ef.
    set (a := nth (Z.to_nat (Qfloor pos1)) v 0) in *.
    set (b := nth (S (Z.to_nat (Qfloor pos1))) v a) in *.
    assert (M : (b - a) * (pos1 - inject_Z (Qfloor pos1))
                <= (b - a) * (pos2 - inject_Z (Qfloor pos1)))
      by (apply Qmult_le_l_compat; lra).
    lra.
  - assert (Lt : (S (Z.to_nat (Qfloor pos1)) <= Z.to_nat (Qfloor pos2))%nat) by lia.
    eapply Qle_trans; [exact Lb1|]. eapply Qle_trans; [|exact La2].
    rewrite Eb1 by lia. apply sorted_nth_mono; auto.
Qed.

Lemma series_quantile_value (q : Q) (l : list pyfloat) :
  dropna l <> [] ->
  series_quantile q l = Num (Qred (rank_value q (Qsort (dropna l)))) /\
  Qsort (dropna l) <> [].
Proof.
  intros N. unfold series_quantile.
  assert (M : Qsort (dropna l) <> []).
  { intros Z0. apply N. apply Permutation_nil.
    rewrite <- Z0. apply sort_by_perm. }
  destruct (Qsort (dropna l)); [congruence|]. auto.
Qed.

Lemma half_rank_even (k : nat) :
  (1 <= k)%nat ->
  Qfloor (Qnat (2 * k - 1) * (50 # 100)) = (Z.of_nat k - 1)%Z /\
  Qnat (2 * k - 1) * (50 # 100) - inject_Z (Z.of_nat k - 1) == 1 # 2.
Proof.
  intros K.
  assert (E : Qnat (2 * k - 1) == 2 * inject_Z (Z.of_nat k) - 1).
  { unfold Qnat. replace (Z.of_nat (2 * k - 1)) with (2 * Z.of_nat k + -1)%Z by lia.
    rewrite inject_Z_plus, inject_Z_mult. reflexivity. }
  assert (F : inject_Z (Z.of_nat k - 1) == inject_Z (Z.of_nat k) - 1).
  { replace (Z.of_nat k - 1)%Z with (Z.of_nat k + -1)%Z by lia.
    rewrite inject_Z_plus. reflexivity. }
  split.
  - apply Qfloor_unique.
    + rewrite F, E. lra.
    + replace (Z.of_nat k - 1 + 1)%Z with (Z.of_nat k) by lia. rewrite E. lra.
  - rewrite F, E. lra.
Qed.

Lemma half_rank_odd (k : nat) :
  Qfloor (Qnat (2 * k) * (50 # 100)) = Z.of_nat k /\
  Qnat (2 * k) * (50 # 100) - inject_Z (Z.of_nat k) == 0.
Proof.
  assert (E : Qnat (2 * k) == 2 * inject_Z (Z.of_nat k)).
  { unfold Qnat. rewrite Nat2Z.inj_mul, inject_Z_mult. reflexivity. }
  split.
  - apply Qfloor_unique.
    + rewrite E. lra.
    + rewrite inject_Z_plus, E. change (inject_Z 1) with 1. lra.
  - rewrite E. lra.
Qed.

(** The median is the quantile one half. *)
Lemma median_is_quantile (l : list pyfloat) :
  series_quantile (50 # 100) l = series_median l.
Proof.
  unfold series_median.
  destruct (Qsort (dropna l)) as [|x t] eqn:E.
  - unfold series_quantile. now rewrite E.
  - assert (N : dropna l <> []).
    { intros Z0. rewrite Z0 in E. discriminate. }
    destruct (series_quantile_value (50 # 100) l N) as [-> _]. rewrite E.
    set (v := x :: t).
    assert (En : List.length v = S (List.length t)) by reflexivity.
    set (m := List.length t) in En.
    unfold rank_value. rewrite En. cbv iota.
    destruct (Nat.even (S m)) eqn:Ev.
    + apply Nat.even_spec in Ev as [k Ek].
      assert (Hk : (S m / 2 = k)%nat)
        by (rewrite Ek, Nat.mul_comm; apply Nat.div_mul; lia).
      rewrite Hk. assert (Em : (S m - 1 = 2 * k - 1)%nat) by lia. rewrite Em.
      destruct (half_rank_even k) as [Ef Er]; [lia|].
      rewrite Ef. replace (Z.to_nat (Z.of_nat k - 1)) with (k - 1)%nat by lia.
      replace (S (k - 1)) with k by lia.
      rewrite (nth_indep v (nth (k - 1) v 0) 0) by (rewrite En; lia).
      f_equal. apply Qred_complete. rewrite Er. field.
    + assert (Od : Nat.odd (S m) = true)
        by (rewrite <- Nat.negb_even, Ev; reflexivity).
      apply Nat.odd_spec in Od as [k Ek].
      assert (Hk : (S m / 2 = k)%nat).
      { rewrite Ek, Nat.add_comm, Nat.mul_comm, Nat.div_add by lia. reflexivity. }
      rewrite Hk. assert (Em : (S m - 1 = 2 * k)%nat) by lia. rewrite Em.
      destruct (half_rank_odd k) as [Ef Er].
      rewrite Ef, Nat2Z.id.
      f_equal. apply Qred_complete. rewrite Er. ring.
Qed.

Lemma series_quantile_bounds (q : Q) (l : list pyfloat) (mn mx : Q) :
  dropna l <> [] -> 0 <= q -> q <= 1 ->
  (forall y, In y (dropna l) -> mn <= y /\ y <= mx) ->
  exists p, series_quantile q l = Num p /\
            p == rank_value q (Qsort (dropna l)) /\ mn <= p /\ p <= mx.
Proof.
  intros N Q0 Q1 B.
  destruct (series_quantile_value q l N) as [E M].
  pose proof (rank_value_spec q _ (Qsort_sorted (dropna l)) M Q0 Q1) as S.
  cbv zeta in S. destruct S as (Llo & _ & Lb & _ & _ & _ & La & Lv).
  assert (B' : forall i, (i < List.length (Qsort (dropna l)))%nat ->
                         mn <= nth i (Qsort (dropna l)) 0 /\
                         nth i (Qsort (dropna l)) 0 <= mx).
  { intros i Li. apply B. apply (in_sort_by Qle_bool). now apply nth_In. }
  destruct (B' _ Llo) as [L1 _].
  destruct (B' (List.length (Qsort (dropna l)) - 1)%nat) as [_ U1]; [lia|].
  eexists. split; [exact E|]. rewrite Qred_correct.
  split; [reflexivity|]. split; lra.
Qed.

Lemma series_quantile_mono (q1 q2 : Q) (l : list pyfloat) (p1 p2 : Q) :
  0 <= q1 -> q1 <= q2 -> q2 <= 1 ->
  series_quantile q1 l = Num p1 -> series_quantile q2 l = Num p2 -> p1 <= p2.
Proof.
  intros Q0 Q12 Q1 E1 E2.
  destruct (dropna l) as [|x t] eqn:D.
  - unfold series_quantile in E1. rewrite D in E1. discriminate.
  - assert (N : dropna l <> []) by (rewrite D; discriminate).
    destruct (series_quantile_value q1 l N) as [V1 M].
    destruct (series_quantile_value q2 l N) as [V2 _].
    rewrite V1 in E1. rewrite V2 in E2.
    apply (f_equal (fun f => match f with Num y => y | NaN => 0 end)) in E1, E2.
    rewrite <- E1, <- E2, !Qred_correct.
    apply rank_value_mono; auto. apply Qsort_sorted.
Qed.

(** X21.  For a subject with a graded record,
    [calculate_subject_statistics] reports percentiles in increasing order,
    between the minimum and the maximum; the median lies between the 25th
    and the 75th percentile; the interquartile range and the range are the
    differences of these values, and they are not negative. *)
Theorem subject_percentiles_ordered (df : DataFrame)
        (stats : list (option string * SubjectDetail.t)) :
  calculate_subject_statistics df = Ok stats ->
  Forall (fun e =>
            (exists g, In (Num g)
                          (map grade (filter (subject_is (fst e)) (rows df)))) ->
            exists mn p10 p25 p50 p75 p90 mx md iqr range,
              SubjectBasic.min (SubjectDetail.basic (snd e)) = Num mn /\
              SubjectBasic.max (SubjectDetail.basic (snd e)) = Num mx /\
              SubjectDetail.percentiles (snd e)
                = SubjectPercentiles.mk (Num p10) (Num p25) (Num p50)
                                        (Num p75) (Num p90) /\
              mn <= p10 /\ p10 <= p25 /\ p25 <= p50 /\ p50 <= p75 /\
              p75 <= p90 /\ p90 <= mx /\
              SubjectBasic.median (SubjectDetail.basic (snd e)) = Num md /\
              p25 <= md /\ md <= p75 /\
              SubjectBasic.iqr (SubjectDetail.basic (snd e))
                = pf_sub (Num p75) (Num p25) /\
              SubjectBasic.iqr (SubjectDetail.basic (snd e)) = Num iqr /\
              0 <= iqr /\
              SubjectBasic.range (SubjectDetail.basic (snd e))
                = pf_sub (Num mx) (Num mn) /\
              SubjectBasic.range (SubjectDetail.basic (snd e)) = Num range /\
              0 <= range)
         stats.
Proof.
  intros E. apply calculate_subject_statistics_ok in E as [_ F].
  rewrite Forall_forall. intros e I (g & Ig).
  destruct (Forall2_in_right _ _ _ _ F I) as (subj & _ & Es & D).
  apply subject_detail_fields in D as (Eb & _ & _ & _ & Ep).
  rewrite Es in Ig. rewrite Eb, Ep. clear Eb Ep.
  set (l := map grade (filter (subject_is subj) (rows df))) in *.
  assert (N : dropna l <> []).
  { apply in_dropna in Ig. intros Z0. now rewrite Z0 in Ig. }
  destruct (sorted_ends (dropna l) N) as (mn & mx & Hmn & Hmx & _ & _ & B).
  destruct (series_quantile_bounds (10 # 100) l mn mx N) as (p10 & E10 & _ & L10 & _);
    [lra|lra|exact B|].
  destruct (series_quantile_bounds (25 # 100) l mn mx N) as (p25 & E25 & _);
    [lra|lra|exact B|].
  destruct (series_quantile_bounds (50 # 100) l mn mx N) as (p50 & E50 & _);
    [lra|lra|exact B|].
  destruct (series_quantile_bounds (75 # 100) l mn mx N) as (p75 & E75 & _);
    [lra|lra|exact B|].
  destruct (series_quantile_bounds (90 # 100) l mn mx N) as (p90 & E90 & _ & _ & U90);
    [lra|lra|exact B|].
  assert (M12 : p10 <= p25)
    by (apply (series_quantile_mono (10 # 100) (25 # 100) l); auto; lra).
  assert (M23 : p25 <= p50)
    by (apply (series_quantile_mono (25 # 100) (50 # 100) l); auto; lra).
  assert (M34 : p50 <= p75)
    by (apply (series_quantile_mono (50 # 100) (75 # 100) l); auto; lra).
  assert (M45 : p75 <= p90)
    by (apply (series_quantile_mono (75 # 100) (90 # 100) l); auto; lra).
  exists mn, p10, p25, p50, p75, p90, mx, p50,
         (Qred (p75 - p25)), (Qred (mx - mn)).
  cbn [SubjectBasic.min SubjectBasic.max SubjectBasic.median SubjectBasic.iqr
       SubjectBasic.range].
  rewrite <- median_is_quantile, E10, E25, E50, E75, E90.
  rewrite (series_min_hd l mn Hmn), (series_max_hd l mx Hmx).
  pose proof (Qred_correct (p75 - p25)) as Ri.
  pose proof (Qred_correct (mx - mn)) as Rr.
  assert (Lx : mn <= mx) by lra.
  split; [reflexivity|]. split; [reflexivity|]. split; [reflexivity|].
  split; [exact L10|]. split; [exact M12|]. split; [exact M23|].
  split; [exact M34|]. split; [exact M45|]. split; [exact U90|].
  split; [reflexivity|]. split; [exact M23|]. split; [exact M34|].
  split; [reflexivity|]. split; [reflexivity|]. split; [lra|].
  split; [reflexivity|]. split; [reflexivity|]. lra.
Qed.

(* --------------------------------------------------------------- *)
(** *** The confidence without a current week *)

Lemma Zsorted_last_greatest (l : list Z) (x : Z) :
  StronglySorted Z.le (l ++ [x]) -> forall y, In y (l ++ [x]) -> (y <= x)%Z.
Proof.
  induction l as [|a t IH]; simpl; intros S y I.
  - destruct I as [<-|[]]. lia.
  - inversion S as [|? ? S' F]; subst. destruct I as [<-|I]; [|now apply IH].
    rewrite Forall_forall in F. apply F. apply in_or_app. simpl. auto.
Qed.

Lemma Zsort_sorted (l : list Z) : StronglySorted Z.le (Zsort l).
Proof.
  unfold Zsort. eapply StronglySorted_impl; [|apply sort_by_sorted].
  - intros a b. apply Z.leb_le.
  - intros a b. rewrite !Z.leb_le. lia.
  - intros a b c. rewrite !Z.leb_le. lia.
Qed.

(** The greatest week of a table that has a week. *)
Lemma max_week_greatest (df : DataFrame) (w : Z) :
  In (Some w) (map week (rows df)) ->
  exists M, max_week df = Num (inject_Z M) /\
            In (Some M) (map week (rows df)) /\
            forall x, In (Some x) (map week (rows df)) -> (x <= M)%Z.
Proof.
  intros I. unfold max_week.
  set (l := somes (map week (rows df))).
  assert (P : forall y, In y (Zsort l) <-> In (Some y) (map week (rows df))).
  { intros y. unfold Zsort. rewrite in_sort_by. apply in_somes. }
  pose proof (Zsort_sorted l) as S.
  destruct (rev (Zsort l)) as [|M r] eqn:R.
  - apply P in I. rewrite <- (rev_involutive (Zsort l)), R in I. destruct I.
  - assert (L : Zsort l = (rev r ++ [M])%list).
    { rewrite <- (rev_involutive (Zsort l)), R. reflexivity. }
    exists M. split; [reflexivity|]. split.
    + apply P. rewrite L. apply in_or_app. simpl. auto.
    + intros x Ix. apply P in Ix. rewrite L in S, Ix.
      apply (Zsorted_last_greatest _ _ S x Ix).
Qed.

(** Distinct numbers between 1 and [M] are [M] at most. *)
Lemma NoDup_range_length (l : list Z) (M : Z) :
  (0 <= M)%Z -> NoDup l -> (forall w, In w l -> (1 <= w <= M)%Z) ->
  (Z.of_nat (List.length l) <= M)%Z.
Proof.
  intros M0 N B.
  assert (Nn : NoDup (map Z.to_nat l)).
  { clear - N B. induction N as [|a t Na _ IH]; simpl; constructor.
    - intros I. apply in_map_iff in I as (b & E & Ib). apply Na.
      assert (1 <= a <= M)%Z by (apply B; now left).
      assert (1 <= b <= M)%Z by (apply B; now right).
      replace a with b by lia. exact Ib.
    - apply IH. intros w I. apply B. now right. }
  assert (In_ : incl (map Z.to_nat l) (seq 1 (Z.to_nat M))).
  { intros n I. apply in_map_iff in I as (w & <- & Iw).
    apply in_seq. specialize (B w Iw). lia. }
  pose proof (NoDup_incl_length Nn In_) as L.
  rewrite length_map, length_seq in L. lia.
Qed.

Lemma confidence_of_max (n : nat) (M : Z) (c : pyfloat) :
  (1 <= n)%nat -> (Z.of_nat n <= M)%Z ->
  confidence n (NpNumber (Num (inject_Z M))) = Ok c ->
  exists q, c = Num q /\ q == Qnat n / inject_Z M /\ 0 < q /\ q <= 1.
Proof.
  intros N L. unfold confidence.
  assert (Mq : 0 < inject_Z M)
    by (change 0 with (inject_Z 0); rewrite <- Zlt_Qlt; lia).
  assert (Nq : 0 < Qnat n)
    by (unfold Qnat; change 0 with (inject_Z 0); rewrite <- Zlt_Qlt; lia).
  assert (NM : Qnat n <= inject_Z M) by (unfold Qnat; now rewrite <- Zle_Qle).
  assert (P : 0 < Qnat n / inject_Z M) by (apply Qlt_shift_div_l; lra).
  assert (U : Qnat n / inject_Z M <= 1) by (apply Qle_shift_div_r; lra).
  destruct (Qeq_bool (inject_Z M) 0) eqn:Z0.
  - apply Qeq_bool_iff in Z0. lra.
  - intros C.
    assert (Ec : c = py_min (Num 1) (Num (Qred (Qnat n / inject_Z M))))
      by congruence.
    clear C. subst c.
    pose proof (Qred_correct (Qnat n / inject_Z M)) as Rc.
    set (r := Qred (Qnat n / inject_Z M)) in *.
    unfold py_min, pf_lt. destruct (Qltb r 1) eqn:Lt.
    + exists r. split; [reflexivity|]. split; [exact Rc|]. lra.
    + apply Qltb_ge in Lt. exists 1. split; [reflexivity|]. split; lra.
Qed.

(** X22.  Called without a current week on a table whose weeks are
    numbered from 1, [predict_final_grades] takes the greatest week of the
    table as the current week: the confidence of every row is the number of
    its weeks of data over that week, above 0 and at most 1. *)
Theorem default_week_confidence (df : DataFrame) (preds : list Prediction.t) :
  predict_final_grades df None = Ok preds ->
  has_column df "week" = true ->
  (forall r w, In r (rows df) -> week r = Some w -> (1 <= w)%Z) ->
  Forall (fun p =>
            exists M c,
              Prediction.current_week p = NpNumber (Num (inject_Z M)) /\
              In (Some M) (map week (rows df)) /\
              (forall w, In (Some w) (map week (rows df)) -> (w <= M)%Z) /\
              (Z.of_nat (Prediction.weeks_available p) <= M)%Z /\
              Prediction.prediction_confidence p = Num c /\
              c == Qnat (Prediction.weeks_available p) / inject_Z M /\
              0 < c /\ c <= 1)
         preds.
Proof.
  intros E W Pos. rewrite Forall_forall. intros p I.
  destruct (predict_final_grades_pair _ _ _ _ E I) as (sid & subj & P).
  apply predict_pair_fields in P as (_ & _ & Cw & L & Ew & C).
  unfold resolved_week in Cw, C. rewrite W in Cw, C.
  assert (Sub : forall w, In w (map fst (weekly_grades (pair_data df sid subj))) ->
                          In (Some w) (map week (rows df))).
  { intros w Iw. apply weeks_present in Iw.
    apply in_map_iff in Iw as (r & Er & Ir). unfold pair_data in Ir.
    apply filter_In in Ir as [Ir _]. apply filter_In in Ir as [Ir _].
    rewrite <- Er. now apply in_map. }
  destruct (weekly_grades (pair_data df sid subj)) as [|[w0 g0] t] eqn:Wg.
  { rewrite Ew in L. simpl in L. lia. }
  destruct (max_week_greatest df w0) as (M & Em & IM & Max).
  { apply Sub. now left. }
  assert (Len : (Z.of_nat (Prediction.weeks_available p) <= M)%Z).
  { rewrite Ew, <- (length_map fst). apply NoDup_range_length.
    - assert (1 <= w0)%Z.
      { assert (Iw : In (Some w0) (map week (rows df))) by (apply Sub; now left).
        apply in_map_iff in Iw as (r & Er & Ir). now apply (Pos r). }
      assert (w0 <= M)%Z by (apply Max, Sub; now left). lia.
    - rewrite <- Wg. apply weeks_NoDup.
    - intros w Iw. apply Sub in Iw. split; [|now apply Max].
      apply in_map_iff in Iw as (r & Er & Ir). now apply (Pos r). }
  rewrite Em in Cw, C.
  apply confidence_of_max in C as (c & Ec & Eq & C0 & C1); [|lia|exact Len].
  exists M, c. auto 10.
Qed.

(* --------------------------------------------------------------- *)
(** *** How many recommendations a student gets *)

Lemma prefix_strip (key s : string) :
  (forall c, In c (list_ascii_of_string key) -> numeric_char c = false) ->
  prefix key s = true -> prefix key (strip_numeric s) = true.
Proof.
  revert s. induction key as [|c k IH]; intros s K P.
  - now destruct (strip_numeric s).
  - destruct s as [|d t]; [discriminate|]. simpl in P.
    destruct (ascii_dec c d) as [<-|]; [|discriminate].
    simpl. rewrite (K c (or_introl eq_refl)). simpl.
    destruct (ascii_dec c c); [|congruence].
    apply IH; auto. intros x I. apply K. now right.
Qed.

Lemma contains_cons (key : string) (c : ascii) (s : string) :
  contains key s = true -> contains key (String c s) = true.
Proof. intros C. cbn [contains]. rewrite C. apply orb_true_r. Qed.

Lemma contains_unfold (key s : string) :
  contains key s
  = prefix key s || match s with
                    | EmptyString => false
                    | String _ t => contains key t
                    end.
Proof. destruct s; reflexivity. Qed.

(** A key without numeric characters that occurs in a text occurs in the
    text without its numeric characters. *)
Lemma contains_strip (key s : string) :
  (forall c, In c (list_ascii_of_string key) -> numeric_char c = false) ->
  contains key s = true -> contains key (strip_numeric s) = true.
Proof.
  intros K. induction s as [|d t IH]; intros C.
  - exact C.
  - rewrite contains_unfold in C. apply orb_true_iff in C as [P|C].
    + rewrite contains_unfold. apply orb_true_iff. left.
      apply prefix_strip; auto.
    + specialize (IH C). simpl. destruct (numeric_char d); auto.
      now apply contains_cons.
Qed.

Lemma strip_app (a b : string) :
  strip_numeric (a ++ b) = strip_numeric a ++ strip_numeric b.
Proof.
  induction a as [|c a IH]; simpl; auto.
  destruct (numeric_char c); simpl; now rewrite IH.
Qed.

Lemma strip_all_numeric (s : string) :
  all_numeric s = true -> strip_numeric s = "".
Proof.
  induction s as [|c s IH]; simpl; auto.
  intros A. apply andb_true_iff in A as [-> A]. auto.
Qed.

Lemma all_numeric_app (a b : string) :
  all_numeric (a ++ b) = all_numeric a && all_numeric b.
Proof.
  induction a as [|c a IH]; simpl; auto. now rewrite IH, andb_assoc.
Qed.

Lemma all_numeric_substring (n m : nat) (s : string) :
  all_numeric s = true -> all_numeric (substring n m s) = true.
Proof.
  revert n m. induction s as [|c s IH]; intros n m A.
  - now destruct n, m.
  - simpl in A. apply andb_true_iff in A as [Ac As].
    destruct n as [|n]; destruct m as [|m]; simpl; auto.
    now rewrite Ac, IH.
Qed.

Lemma all_numeric_zeros (n : nat) : all_numeric (zeros n) = true.
Proof. induction n as [|n IH]; simpl; auto. Qed.

Lemma all_numeric_uint (d : Decimal.uint) :
  all_numeric (NilEmpty.string_of_uint d) = true.
Proof. induction d; simpl; auto. Qed.

Lemma all_numeric_string_of_N (n : N) : all_numeric (string_of_N n) = true.
Proof.
  unfold string_of_N, NilZero.string_of_uint.
  destruct (N.to_uint n) eqn:E; try reflexivity;
    rewrite <- E; apply all_numeric_uint.
Qed.

Lemma all_numeric_render_fixed (k : nat) (neg : bool) (z : Z) :
  all_numeric (render_fixed k neg z) = true.
Proof.
  unfold render_fixed.
  assert (P : all_numeric
                (zeros (S k - String.length (string_of_N (Z.to_N (Z.abs z))))
                 ++ string_of_N (Z.to_N (Z.abs z))) = true)
    by (rewrite all_numeric_app, all_numeric_zeros, all_numeric_string_of_N;
        reflexivity).
  rewrite !all_numeric_app, !all_numeric_substring by exact P.
  now destruct neg.
Qed.

Lemma all_numeric_format_f (k : nat) (a : pyfloat) :
  all_numeric (format_f k a) = true.
Proof. destruct a; [reflexivity|apply all_numeric_render_fixed]. Qed.

Lemma all_numeric_format_sqrt_f (k : nat) (s : pysqrt) :
  all_numeric (format_sqrt_f k s) = true.
Proof. destruct s as [[|v]]; [reflexivity|apply all_numeric_render_fixed]. Qed.

Lemma key_not_numeric (j : nat) (c : ascii) :
  In c (list_ascii_of_string (nth j recommendation_keys "")) ->
  numeric_char c = false.
Proof.
  assert (A : forallb (fun k => forallb (fun c => negb (numeric_char c))
                                        (list_ascii_of_string k))
                      ("" :: recommendation_keys) = true)
    by (vm_compute; reflexivity).
  rewrite forallb_forall in A. intros I.
  assert (K : In (nth j recommendation_keys "") ("" :: recommendation_keys)).
  { destruct (Nat.lt_ge_cases j (List.length recommendation_keys)) as [L|L].
    - right. now apply nth_In.
    - left. symmetry. now apply nth_overflow. }
  specialize (A _ K). rewrite forallb_forall in A.
  apply negb_true_iff. now apply A.
Qed.

(** A key that does not occur in the wording of a text does not occur in
    the text, whatever the printed numbers are. *)
Lemma key_absent (j : nat) (f : string) :
  contains (nth j recommendation_keys "") (strip_numeric f) = false ->
  contains (nth j recommendation_keys "") f = false.
Proof.
  intros A. destruct (contains (nth j recommendation_keys "") f) eqn:C; auto.
  apply contains_strip in C; [congruence|]. apply key_not_numeric.
Qed.

Ltac strip_text :=
  rewrite ?strip_app;
  repeat match goal with
         | A : all_numeric ?v = true |- _ =>
           rewrite (strip_all_numeric v A); clear A
         end.

Lemma factor_text_keys (i : nat) (f : string) :
  factor_text i f ->
  forall j, (j < 5)%nat ->
            contains (nth j recommendation_keys "") f = (i =? j)%nat.
Proof.
  intros F j Lj.
  destruct i as [|[|[|[|[|i]]]]]; cbn [factor_text] in F; [| | | | |destruct F].
  - destruct F as (v & A & ->).
    destruct j as [|[|[|[|[|j]]]]]; [| | | | |lia]; cbn [Nat.eqb];
      [apply (contains_prefix_app "Низкая средняя оценка" (" (" ++ v ++ ")"))
      |apply key_absent; strip_text; vm_compute; reflexivity ..].
  - destruct F as (v & A & ->).
    destruct j as [|[|[|[|[|j]]]]]; [| | | | |lia]; cbn [Nat.eqb];
      [|apply (contains_prefix_app "Высокая изменчивость оценок" (" (σ=" ++ v ++ ")"))
       |..];
      apply key_absent; strip_text; vm_compute; reflexivity.
  - destruct F as (v & A & ->).
    destruct j as [|[|[|[|[|j]]]]]; [| | | | |lia]; cbn [Nat.eqb];
      [| |apply (contains_prefix_app "Снижение успеваемости"
                                     (" (тренд: " ++ v ++ "/неделю)"))
       |..];
      apply key_absent; strip_text; vm_compute; reflexivity.
  - destruct F as (v & w & A & B & ->).
    destruct j as [|[|[|[|[|j]]]]]; [| | | | |lia]; cbn [Nat.eqb];
      [| | |apply (contains_prefix_app "Резкое падение успеваемости"
                                       (" (" ++ v ++ " → " ++ w ++ ")"))
       |..];
      apply key_absent; strip_text; vm_compute; reflexivity.
  - destruct F as (v & A & ->).
    destruct j as [|[|[|[|[|j]]]]]; [| | | | |lia]; cbn [Nat.eqb];
      [| | | |apply (contains_prefix_app "Низкая посещаемость" (" (" ++ v ++ "%)"))];
      apply key_absent; strip_text; vm_compute; reflexivity.
Qed.

Lemma matched_lists_by_keys (f : string) :
  matched_lists f
  = List.concat
      (map (fun j => if contains (nth j recommendation_keys "") f
                     then advice j else [])
           [0; 1; 2; 3; 4]%nat).
Proof.
  unfold matched_lists, recommendations_map. cbn [filter fst map].
  change (nth 0 recommendation_keys "") with "Низкая средняя оценка".
  change (nth 1 recommendation_keys "") with "Высокая изменчивость оценок".
  change (nth 2 recommendation_keys "") with "Снижение успеваемости".
  change (nth 3 recommendation_keys "") with "Резкое падение успеваемости".
  change (nth 4 recommendation_keys "") with "Низкая посещаемость".
  destruct (contains "Низкая средняя оценка" f),
           (contains "Высокая изменчивость оценок" f),
           (contains "Снижение успеваемости" f),
           (contains "Резкое падение успеваемости" f),
           (contains "Низкая посещаемость" f); reflexivity.
Qed.

(** A factor of the [i]-th kind brings the advice of the [i]-th key, and
    no other. *)
Lemma factor_text_advice (i : nat) (f : string) :
  factor_text i f -> matched_lists f = advice i.
Proof.
  intros F. rewrite matched_lists_by_keys. cbn [map].
  rewrite !(factor_text_keys i f F) by lia.
  destruct i as [|[|[|[|[|i]]]]]; [reflexivity ..|destruct F].
Qed.

Lemma slots_recommendations (l0 l1 l2 l3 l4 : list string) :
  factor_slot 0 l0 -> factor_slot 1 l1 -> factor_slot 2 l2 ->
  factor_slot 3 l3 -> factor_slot 4 l4 ->
  let fs := (l0 ++ l1 ++ l2 ++ l3 ++ l4)%list in
  List.length (generate_recommendations fs)
    = Nat.min 5 (3 * List.length fs) /\
  (fs <> [] ->
   exists i, (i < 5)%nat /\ factor_text i (hd "" fs) /\
             firstn 3 (generate_recommendations fs) = advice i).
Proof.
  intros S0 S1 S2 S3 S4 fs.
  assert (G : generate_recommendations fs
              = firstn 5 (unique String.eqb (List.concat (map matched_lists fs)))).
  { unfold generate_recommendations. now rewrite collect_recommendations_concat. }
  rewrite G. clear G. unfold fs.
  destruct S0 as [->|(f0 & -> & F0)], S1 as [->|(f1 & -> & F1)],
           S2 as [->|(f2 & -> & F2)], S3 as [->|(f3 & -> & F3)],
           S4 as [->|(f4 & -> & F4)];
    cbn [app map List.concat hd];
    rewrite ?(factor_text_advice 0 f0 F0), ?(factor_text_advice 1 f1 F1),
            ?(factor_text_advice 2 f2 F2), ?(factor_text_advice 3 f3 F3),
            ?(factor_text_advice 4 f4 F4);
    (split; [vm_compute; reflexivity|]); intros N;
    first [ congruence
          | exists 0%nat; split; [lia|]; split; [assumption|reflexivity]
          | exists 1%nat; split; [lia|]; split; [assumption|reflexivity]
          | exists 2%nat; split; [lia|]; split; [assumption|reflexivity]
          | exists 3%nat; split; [lia|]; split; [assumption|reflexivity]
          | exists 4%nat; split; [lia|]; split; [assumption|reflexivity] ].
Qed.

Lemma trend_factors_slots (df_copy : DataFrame) (data : list row)
      (min_weeks : Z) (decline_threshold : Q) (fs : list string) :
  trend_factors df_copy data min_weeks decline_threshold = Ok fs ->
  exists l2 l3, fs = (l2 ++ l3)%list /\ factor_slot 2 l2 /\ factor_slot 3 l3.
Proof.
  unfold trend_factors.
  destruct (has_column df_copy "week" && _)%bool;
    [|intros E; injection E as <-; exists [], []; repeat split; now left].
  destruct (min_weeks <=? _)%Z;
    [|intros E; injection E as <-; exists [], []; repeat split; now left].
  destruct (polyfit _ _) as [fit|e]; cbn [rbind]; [|discriminate].
  intros E. apply (f_equal (fun r => match r with Ok v => v | Raise _ => fs end)) in E.
  subst fs. eexists _, _. split; [reflexivity|]. split.
  - destruct (pf_lt (fst fit) _); [right|now left].
    eexists. split; [reflexivity|]. cbn [factor_text].
    eexists. split; [|reflexivity]. apply all_numeric_format_f.
  - destruct (pf_gt _ _); [right|now left].
    eexists. split; [reflexivity|]. cbn [factor_text].
    eexists _, _. split; [|split; [|reflexivity]]; apply all_numeric_format_f.
Qed.

Lemma student_risk_factors_slots (df_copy : DataFrame) (data : list row)
      (threshold : Q) (min_weeks : Z) (decline_threshold : Q)
      (fs : list string) :
  student_risk_factors df_copy data threshold min_weeks decline_threshold = Ok fs ->
  exists l0 l1 l2 l3 l4,
    fs = (l0 ++ l1 ++ l2 ++ l3 ++ l4)%list /\
    factor_slot 0 l0 /\ factor_slot 1 l1 /\ factor_slot 2 l2 /\
    factor_slot 3 l3 /\ factor_slot 4 l4.
Proof.
  unfold student_risk_factors.
  destruct (trend_factors _ _ _ _) as [tr|e] eqn:T; cbn [rbind]; [|discriminate].
  apply trend_factors_slots in T as (l2 & l3 & -> & S2 & S3).
  intros E. apply (f_equal (fun r => match r with Ok v => v | Raise _ => fs end)) in E.
  subst fs. eexists _, _, l2, l3, _.
  split; [rewrite <- app_assoc; reflexivity|].
  split; [|split; [|split; [exact S2|split; [exact S3|]]]].
  - destruct (pf_lt _ _); [right|now left].
    eexists. split; [reflexivity|]. cbn [factor_text].
    eexists. split; [|reflexivity]. apply all_numeric_format_f.
  - destruct (sqrt_gt _ _); [right|now left].
    eexists. split; [reflexivity|]. cbn [factor_text].
    eexists. split; [|reflexivity]. apply all_numeric_format_sqrt_f.
  - destruct (has_column df_copy "attendance"); [|now left].
    destruct (pf_lt _ _); [right|now left].
    eexists. split; [reflexivity|]. cbn [factor_text].
    eexists. split; [|reflexivity]. apply all_numeric_format_f.
Qed.

(** X23.  A row of [identify_at_risk_students] with one risk factor
    carries three recommendations, and a row with two factors or more
    carries five: the advice is cut after the fifth.  The first three are
    always the advice of the dictionary for the first risk factor of the
    row. *)
Theorem recommendations_by_risk_score (df : DataFrame) (threshold : Q)
        (min_weeks : Z) (decline_threshold : Q) (risk : list RiskInfo.t) :
  identify_at_risk_students df threshold min_weeks decline_threshold = Ok risk ->
  Forall (fun r =>
            (RiskInfo.risk_score r = 1%nat ->
             List.length (RiskInfo.recommendations r) = 3%nat) /\
            ((2 <= RiskInfo.risk_score r)%nat ->
             List.length (RiskInfo.recommendations r) = 5%nat) /\
            exists i, (i < 5)%nat /\
                      factor_text i (hd "" (RiskInfo.risk_factors r)) /\
                      firstn 3 (RiskInfo.recommendations r) = advice i)
         risk.
Proof.
  unfold identify_at_risk_students.
  destruct (column (with_week df) "student_id" student_id) as [ids|e];
    cbn [rbind]; [|discriminate].
  destruct (rmap_list _ _) as [results|e] eqn:R; cbn [rbind]; [|discriminate].
  intros E. apply (f_equal (fun r => match r with Ok v => v | Raise _ => risk end)) in E.
  subst risk. apply rmap_list_ok in R.
  rewrite Forall_forall. intros r I. apply in_sort_by, in_somes in I.
  destruct (Forall2_in_right _ _ _ _ R I) as (sid & _ & A).
  apply assess_student_some in A as (_ & F & N & Sc & _ & Rec).
  apply student_risk_factors_slots in F as (l0 & l1 & l2 & l3 & l4 & Ef & S0 & S1 & S2 & S3 & S4).
  destruct (slots_recommendations l0 l1 l2 l3 l4 S0 S1 S2 S3 S4) as [Len Val].
  cbv zeta in Len, Val. rewrite <- Ef in Len, Val. rewrite <- Rec in Len, Val.
  rewrite <- Sc in Len.
  split; [intros E1; rewrite Len, E1; reflexivity|].
  split; [intros L; rewrite Len; lia|].
  apply Val, N.
Qed.

(* --------------------------------------------------------------- *)
(** *** [calculate_learning_metrics] *)

Lemma calculate_learning_metrics_fields (df : DataFrame) (m : Metrics.t) :
  calculate_learning_metrics df = Ok m ->
  let grades := map grade (rows df) in
  Metrics.overall_efficiency m
    = Efficiency.mk
        (series_mean grades)
        (mask_rate (map (at_least 5) grades))
        (mask_rate (map (at_least 9) grades))
        (mask_rate (map (fun g => pf_lt g (Num 5)) grades))
        (Efficiency.student_subject_ratio (Metrics.overall_efficiency m)) /\
  Metrics.grade_distribution m
    = GradeBins.mk (bin_share 0 4 grades) (bin_share 4 6 grades)
                   (bin_share 6 8 grades) (bin_share 8 10 grades).
Proof.
  unfold calculate_learning_metrics, column.
  destruct (has_column df "student_id"); cbn [rbind]; [|discriminate].
  destruct (has_column df "subject"); cbn [rbind]; [|discriminate].
  destruct (has_column df "grade"); cbn [rbind]; [|discriminate].
  intros E. apply (f_equal (fun r => match r with Ok v => v | Raise _ => m end)) in E.
  subst m. cbn. split; reflexivity.
Qed.

Lemma count_true_map {A} (p : A -> bool) (l : list A) :
  List.length (filter (fun b : bool => b) (map p l)) = List.length (filter p l).
Proof.
  induction l as [|a t IH]; simpl; auto. destruct (p a); simpl; now rewrite IH.
Qed.

Lemma mask_rate_value {A} (p : A -> bool) (l : list A) :
  l <> [] ->
  exists x, mask_rate (map p l) = Num x /\
            x == Qlen (filter p l) / Qlen l * 100.
Proof.
  intros N. destruct l as [|a t]; [congruence|].
  unfold mask_rate. cbn [map].
  change (p a :: map p t) with (map p (a :: t)).
  eexists. split; [reflexivity|]. rewrite Qred_correct.
  unfold Qlen. now rewrite count_true_map, length_map.
Qed.

Lemma Qlen_positive {A} (l : list A) : l <> [] -> 0 < Qlen l.
Proof.
  intros N. destruct l as [|a t]; [congruence|]. rewrite Qlen_cons.
  pose proof (Qlen_nonneg t). lra.
Qed.

Lemma filter_all {A} (p : A -> bool) (l : list A) :
  List.length (filter p l) = List.length l <-> forall a, In a l -> p a = true.
Proof.
  induction l as [|a t IH]; simpl; [tauto|].
  pose proof (filter_length_le p t) as L.
  destruct (p a) eqn:Pa; simpl.
  - split.
    + intros E b [<-|I]; [exact Pa|]. apply IH; [lia|exact I].
    + intros F. f_equal. apply IH. intros b I. apply F. now right.
  - split; [lia|]. intros F. rewrite (F a (or_introl eq_refl)) in Pa.
    discriminate.
Qed.

Lemma filter_none {A} (p : A -> bool) (l : list A) :
  List.length (filter p l) = 0%nat <-> forall a, In a l -> p a = false.
Proof.
  induction l as [|a t IH]; simpl; [tauto|].
  destruct (p a) eqn:Pa; simpl.
  - split; [lia|]. intros F. rewrite (F a (or_introl eq_refl)) in Pa.
    discriminate.
  - rewrite IH. split.
    + intros F b [<-|I]; auto.
    + intros F b I. apply F. now right.
Qed.

(** A share, in percent: between 0 and 100, 100 when the condition holds
    everywhere and 0 when it holds nowhere. *)
Lemma mask_rate_range {A} (p : A -> bool) (l : list A) :
  l <> [] ->
  exists x, mask_rate (map p l) = Num x /\
            0 <= x /\ x <= 100 /\
            (x == 100 <-> forall a, In a l -> p a = true) /\
            (x == 0 <-> forall a, In a l -> p a = false).
Proof.
  intros N. destruct (mask_rate_value p l N) as (x & E & V).
  exists x. split; [exact E|].
  pose proof (Qlen_positive l N) as P.
  pose proof (filter_length_le p l) as C.
  assert (C0 : 0 <= Qlen (filter p l)) by apply Qlen_nonneg.
  assert (C1 : Qlen (filter p l) <= Qlen l) by now apply Qnat_le.
  assert (S : x * Qlen l == Qlen (filter p l) * 100).
  { rewrite V. field. lra. }
  assert (Eq : forall k : nat,
             Qlen (filter p l) == Qnat k <-> List.length (filter p l) = k).
  { intros k. unfold Qlen, Qnat. rewrite inject_Z_injective. lia. }
  split; [|split; [|split]].
  - assert (0 <= x * Qlen l) by lra. nra.
  - assert (x * Qlen l <= 100 * Qlen l) by lra. nra.
  - rewrite <- filter_all, <- (Eq (List.length l)). fold (Qlen l).
    split; intros H0; nra.
  - rewrite <- filter_none, <- (Eq 0%nat). change (Qnat 0) with 0.
    split; intros H0; nra.
Qed.

(** X24.  On a table with a record, the pass rate, the failure rate
    and the excellence rate of [calculate_learning_metrics] lie between 0
    and 100, and the excellence rate is at most the pass rate.  The pass
    rate is 100 exactly when every record has a grade of 5 at least and 0
    exactly when none has; the failure rate is 100 exactly when every
    record has a grade below 5 and 0 exactly when none has.  A record
    without a grade counts for neither: with one, both rates are below
    100. *)
Theorem learning_rates (df : DataFrame) (m : Metrics.t) :
  calculate_learning_metrics df = Ok m -> rows df <> [] ->
  let grades := map grade (rows df) in
  exists p f e,
    Efficiency.pass_rate (Metrics.overall_efficiency m) = Num p /\
    Efficiency.failure_rate (Metrics.overall_efficiency m) = Num f /\
    Efficiency.excellence_rate (Metrics.overall_efficiency m) = Num e /\
    0 <= e /\ e <= p /\ p <= 100 /\ 0 <= f /\ f <= 100 /\
    (p == 100 <-> forall g, In g grades -> at_least 5 g = true) /\
    (p == 0 <-> forall g, In g grades -> at_least 5 g = false) /\
    (f == 100 <-> forall g, In g grades -> pf_lt g (Num 5) = true) /\
    (f == 0 <-> forall g, In g grades -> pf_lt g (Num 5) = false) /\
    (In NaN grades -> p < 100 /\ f < 100).
Proof.
  intros E N l. apply calculate_learning_metrics_fields in E as [E _].
  cbv zeta in E. fold l in E.
  assert (Fp : Efficiency.pass_rate (Metrics.overall_efficiency m)
               = mask_rate (map (at_least 5) l)) by (rewrite E; reflexivity).
  assert (Ff : Efficiency.failure_rate (Metrics.overall_efficiency m)
               = mask_rate (map (fun g => pf_lt g (Num 5)) l))
    by (rewrite E; reflexivity).
  assert (Fe : Efficiency.excellence_rate (Metrics.overall_efficiency m)
               = mask_rate (map (at_least 9) l)) by (rewrite E; reflexivity).
  rewrite Fp, Ff, Fe. clear E Fp Ff Fe.
  assert (Nl : l <> []).
  { unfold l. destruct (rows df); [congruence|discriminate]. }
  destruct (mask_rate_range (at_least 5) l Nl) as (p & Ep & P0 & P1 & Pall & Pnone).
  destruct (mask_rate_range (fun g => pf_lt g (Num 5)) l Nl)
    as (f & Ef & F0 & F1 & Fall & Fnone).
  destruct (mask_rate_range (at_least 9) l Nl) as (e & Ee & E0 & _).
  destruct (mask_rate_mono (at_least 9) (at_least 5) l Nl)
    as (e' & p' & Ee' & Ep' & L).
  { intros g. unfold at_least, pf_ge. destruct g as [|q]; simpl; auto.
    rewrite !Qle_bool_iff. lra. }
  assert (p' = p) by congruence. assert (e' = e) by congruence. subst p' e'.
  exists p, f, e.
  split; [exact Ep|]. split; [exact Ef|]. split; [exact Ee|].
  split; [exact E0|]. split; [exact L|]. split; [exact P1|].
  split; [exact F0|]. split; [exact F1|].
  split; [exact Pall|]. split; [exact Pnone|].
  split; [exact Fall|]. split; [exact Fnone|].
  intros I. split.
  - destruct (Qlt_le_dec p 100) as [Lt|Ge]; [exact Lt|exfalso].
    assert (Q1 : p == 100) by lra.
    pose proof (proj1 Pall Q1 NaN I) as X. discriminate X.
  - destruct (Qlt_le_dec f 100) as [Lt|Ge]; [exact Lt|exfalso].
    assert (Q1 : f == 100) by lra.
    pose proof (proj1 Fall Q1 NaN I) as X. discriminate X.
Qed.

(* --------------------------------------------------------------- *)
(** *** Rounding *)

Lemma Qmake_between (z n : Z) (d : positive) :
  (- Zpos d <= 2 * (z * Zpos d - n) <= Zpos d)%Z ->
  - (1 # 2) <= inject_Z z - (n # d) /\ inject_Z z - (n # d) <= 1 # 2.
Proof.
  intros [L U]. unfold Qle, Qminus, Qplus, Qopp, inject_Z. simpl.
  split; nia.
Qed.

(** The nearest integer is half a unit away at most. *)
Lemma round_half_even_close (q : Q) :
  - (1 # 2) <= inject_Z (round_half_even q) - q /\
  inject_Z (round_half_even q) - q <= 1 # 2.
Proof.
  destruct q as [n d]. apply Qmake_between.
  unfold round_half_even. cbn [Qnum Qden].
  pose proof (Z.div_mod n (Zpos d) ltac:(lia)) as DM.
  pose proof (Z.mod_pos_bound n (Zpos d) ltac:(lia)) as MB.
  set (f := (n / Zpos d)%Z) in *. set (r := (n mod Zpos d)%Z) in *.
  destruct (2 * (n - f * Z.pos d) <? Z.pos d)%Z eqn:E1;
    [apply Z.ltb_lt in E1; nia|apply Z.ltb_ge in E1].
  destruct (Z.pos d <? 2 * (n - f * Z.pos d))%Z eqn:E2;
    [apply Z.ltb_lt in E2; nia|apply Z.ltb_ge in E2].
  destruct (Z.even f); nia.
Qed.

Lemma round_to_close (x : Q) :
  exists r, round_to 2 (Num x) = Num r /\
            - (1 # 200) <= r - x /\ r - x <= 1 # 200.
Proof.
  unfold round_to, unscale, scaled_round. eexists. split; [reflexivity|].
  rewrite Qred_correct.
  destruct (round_half_even_close (x * inject_Z (pow10 2))) as [L U].
  change (inject_Z (pow10 2)) with 100 in *.
  set (z := inject_Z (round_half_even (x * 100))) in *.
  split.
  - apply Qle_minus_iff. apply Qle_minus_iff in L.
    setoid_replace (z / 100 - x + - - (1 # 200))
      with ((z - x * 100 + - - (1 # 2)) / 100) by field.
    apply Qle_shift_div_l; lra.
  - apply Qle_minus_iff. apply Qle_minus_iff in U.
    setoid_replace ((1 # 200) + - (z / 100 - x))
      with (((1 # 2) + - (z - x * 100)) / 100) by field.
    apply Qle_shift_div_l; lra.
Qed.

Lemma round_to_range (x : Q) :
  0 <= x -> x <= 100 ->
  exists r, round_to 2 (Num x) = Num r /\ 0 <= r /\ r <= 100.
Proof.
  intros X0 X1. unfold round_to, unscale, scaled_round.
  eexists. split; [reflexivity|]. rewrite Qred_correct.
  destruct (round_half_even_close (x * inject_Z (pow10 2))) as [L U].
  change (inject_Z (pow10 2)) with 100 in *.
  set (z := round_half_even (x * 100)) in *.
  assert (Z0 : (0 <= z)%Z).
  { assert (A : (-1 < z)%Z) by (rewrite Zlt_Qlt; change (inject_Z (-1)) with (-1); lra).
    lia. }
  assert (Z1 : (z <= 10000)%Z).
  { assert (A : (z < 10001)%Z)
      by (rewrite Zlt_Qlt; change (inject_Z 10001) with 10001; lra).
    lia. }
  rewrite Zle_Qle in Z0, Z1.
  change (inject_Z 0) with 0 in Z0. change (inject_Z 10000) with 10000 in Z1.
  split.
  - apply Qle_shift_div_l; lra.
  - apply Qle_shift_div_r; lra.
Qed.

Lemma in_bin_num (lo hi q : Q) :
  in_bin lo hi (Num q) = negb (Qle_bool q lo) && Qle_bool q hi.
Proof. reflexivity. Qed.

(** A grade in (0, 10] falls in exactly one of the four bins. *)
Lemma bins_partition (l : list pyfloat) :
  (List.length (filter (in_bin 0 4) l) + List.length (filter (in_bin 4 6) l)
   + List.length (filter (in_bin 6 8) l) + List.length (filter (in_bin 8 10) l))%nat
  = List.length (binned l).
Proof.
  unfold binned. induction l as [|[|q] t IH]; [reflexivity|exact IH|].
  cbn [filter]. rewrite !in_bin_num.
  destruct (Qle_bool q 0) eqn:E0, (Qle_bool q 4) eqn:E4, (Qle_bool q 6) eqn:E6,
           (Qle_bool q 8) eqn:E8, (Qle_bool q 10) eqn:E10;
    cbn [negb andb List.length]; rewrite <- ?IH; try lia;
    exfalso;
    repeat match goal with
           | E : Qle_bool _ _ = true |- _ => apply Qle_bool_iff in E
           | E : Qle_bool _ _ = false |- _ =>
             apply not_true_iff_false in E; rewrite Qle_bool_iff in E
           end; lra.
Qed.

Lemma bin_share_value (lo hi : Q) (l : list pyfloat) :
  binned l <> [] ->
  (List.length (filter (in_bin lo hi) l) <= List.length (binned l))%nat ->
  exists r,
    bin_share lo hi l = Num r /\ 0 <= r /\ r <= 100 /\
    - (1 # 200) <= r - Qlen (filter (in_bin lo hi) l) / Qlen (binned l) * 100 /\
    r - Qlen (filter (in_bin lo hi) l) / Qlen (binned l) * 100 <= 1 # 200.
Proof.
  intros N L. unfold bin_share.
  pose proof (Qlen_positive _ N) as P.
  destruct (binned l) as [|b t] eqn:B; [congruence|]. rewrite <- B in *.
  set (x := Qlen (filter (in_bin lo hi) l) / Qlen (binned l) * 100).
  assert (X0 : 0 <= x).
  { unfold x. apply Qmult_le_0_compat; [|lra].
    apply Qle_shift_div_l; auto. pose proof (Qlen_nonneg (filter (in_bin lo hi) l)). lra. }
  assert (X1 : x <= 100).
  { unfold x. apply Qnat_le in L. fold (Qlen (filter (in_bin lo hi) l)) in L.
    fold (Qlen (binned l)) in L.
    assert (Qlen (filter (in_bin lo hi) l) / Qlen (binned l) <= 1)
      by (apply Qle_shift_div_r; lra).
    lra. }
  pose proof (Qred_correct x) as Rx.
  destruct (round_to_range (Qred x)) as (r & Er & R0 & R1); [lra|lra|].
  destruct (round_to_close (Qred x)) as (r' & Er' & C0 & C1).
  assert (r' = r) by congruence. subst r'.
  exists r. split; [exact Er|]. repeat split; auto; lra.
Qed.

(** X25.  When some grade lies in (0, 10], the four percentages of the
    grade distribution of [calculate_learning_metrics] lie between 0 and
    100 and add up to 100, up to the rounding to two decimals.  Each
    rounding moves a share by 0.005 at most, the four of them by 0.02; the
    bound stated is 0.03, so that the last binary digits of the rounded
    shares do not matter. *)
Theorem grade_distribution_sums (df : DataFrame) (m : Metrics.t) :
  calculate_learning_metrics df = Ok m ->
  (exists g, In (Num g) (map grade (rows df)) /\ 0 < g /\ g <= 10) ->
  exists u s g e,
    Metrics.grade_distribution m = GradeBins.mk (Num u) (Num s) (Num g) (Num e) /\
    (0 <= u /\ u <= 100) /\ (0 <= s /\ s <= 100) /\
    (0 <= g /\ g <= 100) /\ (0 <= e /\ e <= 100) /\
    - (3 # 100) <= u + s + g + e - 100 /\ u + s + g + e - 100 <= 3 # 100.
Proof.
  intros E (g0 & I0 & G0 & G1).
  apply calculate_learning_metrics_fields in E as [_ E]. cbv zeta in E.
  set (l := map grade (rows df)) in *. rewrite E. clear E.
  assert (N : binned l <> []).
  { intros Z0. assert (I : In (Num g0) (binned l)).
    { apply filter_In. split; auto. unfold in_bin, pf_gt, pf_le, pf_lt.
      apply andb_true_iff. split; [now apply Qltb_lt|now apply Qle_bool_iff]. }
    now rewrite Z0 in I. }
  pose proof (bins_partition l) as Part.
  destruct (bin_share_value 0 4 l N) as (u & -> & U0 & U1 & Ul & Uu); [lia|].
  destruct (bin_share_value 4 6 l N) as (s & -> & S0 & S1 & Sl & Su); [lia|].
  destruct (bin_share_value 6 8 l N) as (g & -> & Gg0 & Gg1 & Gl & Gu); [lia|].
  destruct (bin_share_value 8 10 l N) as (e & -> & E0 & E1 & El & Eu); [lia|].
  exists u, s, g, e. split; [reflexivity|].
  pose proof (Qlen_positive _ N) as P.
  assert (Sum : Qlen (filter (in_bin 0 4) l) / Qlen (binned l) * 100
                + Qlen (filter (in_bin 4 6) l) / Qlen (binned l) * 100
                + Qlen (filter (in_bin 6 8) l) / Qlen (binned l) * 100
                + Qlen (filter (in_bin 8 10) l) / Qlen (binned l) * 100 == 100).
  { unfold Qlen at 2 4 6 8. rewrite <- Part.
    unfold Qlen, Qnat. rewrite !Nat2Z.inj_add, !inject_Z_plus. field.
    unfold Qlen, Qnat in P. rewrite <- Part in P.
    rewrite !Nat2Z.inj_add, !inject_Z_plus in P. lra. }
  repeat split; auto; lra.
Qed.
(* --------------------------------------------------------------- *)
(** *** [calculate_learning_metrics]: the improvement metrics *)

Lemma calculate_learning_metrics_improvement (df : DataFrame) (m : Metrics.t) :
  calculate_learning_metrics df = Ok m ->
  Metrics.improvement_metrics m = improvement_metrics df.
Proof.
  unfold calculate_learning_metrics, column.
  destruct (has_column df "student_id"); cbn [rbind]; [|discriminate].
  destruct (has_column df "subject"); cbn [rbind]; [|discriminate].
  destruct (has_column df "grade"); cbn [rbind]; [|discriminate].
  intros E. apply (f_equal (fun r => match r with Ok v => v | Raise _ => m end)) in E.
  subst m. reflexivity.
Qed.

(** The greatest element of a list is the head of its decreasing sort. *)
Lemma greatest_first (l : list Z) (M : Z) :
  In M l -> (forall x, In x l -> (x <= M)%Z) ->
  exists t, rev (Zsort l) = M :: t.
Proof.
  intros I G.
  assert (P : forall y, In y (Zsort l) <-> In y l)
    by (intros y; unfold Zsort; apply in_sort_by).
  pose proof (Zsort_sorted l) as Sd.
  destruct (rev (Zsort l)) as [|M' r] eqn:R.
  - apply P in I. rewrite <- (rev_involutive (Zsort l)), R in I. destruct I.
  - assert (L : Zsort l = (rev r ++ [M'])%list).
    { rewrite <- (rev_involutive (Zsort l)), R. reflexivity. }
    assert (In M' l) as I' by (apply P; rewrite L; apply in_or_app; simpl; auto).
    apply P in I. rewrite L in Sd, I.
    pose proof (Zsorted_last_greatest _ _ Sd M I).
    pose proof (G M' I').
    exists r. f_equal. lia.
Qed.

Lemma two_members_length {A} (l : list A) (a b : A) :
  In a l -> In b l -> a <> b -> (1 < List.length l)%nat.
Proof.
  destruct l as [|x [|y t]]; simpl; intros Ia Ib N; [destruct Ia| |lia].
  destruct Ia as [<-|[]], Ib as [<-|[]]. congruence.
Qed.

Lemma two_weeks_nunique (l : list (option Z)) (a b : Z) :
  In (Some a) l -> In (Some b) l -> a <> b -> (1 < nunique Z.eqb l)%nat.
Proof.
  intros Ia Ib N. unfold nunique.
  apply (two_members_length _ a b); auto;
    apply unique_loop_complete;
    try (intros x y E; now apply Z.eqb_eq); right; now apply in_somes.
Qed.

Lemma filter_inhabited {A} (p : A -> bool) (l : list A) :
  filter p l <> [] <-> exists x, In x l /\ p x = true.
Proof.
  split.
  - intros N. destruct (filter p l) as [|x t] eqn:E; [congruence|].
    exists x. apply filter_In. rewrite E. now left.
  - intros (x & I & Px) E.
    assert (In x (filter p l)) as F by (apply filter_In; auto).
    rewrite E in F. destruct F.
Qed.

Lemma week_at_most_some (h : Z) (l : list row) :
  (exists r, In r l /\ week_at_most h r = true)
  <-> exists w, In (Some w) (map week l) /\ (w <= h)%Z.
Proof.
  unfold week_at_most. split.
  - intros (r & I & E). destruct (week r) as [w|] eqn:W; [|discriminate].
    exists w. split; [|now apply Z.leb_le].
    rewrite <- W. now apply in_map.
  - intros (w & I & L). apply in_map_iff in I as (r & W & I).
    exists r. split; [exact I|]. rewrite W. now apply Z.leb_le.
Qed.

Lemma week_above_some (h : Z) (l : list row) :
  (exists r, In r l /\ week_above h r = true)
  <-> exists w, In (Some w) (map week l) /\ (h < w)%Z.
Proof.
  unfold week_above. split.
  - intros (r & I & E). destruct (week r) as [w|] eqn:W; [|discriminate].
    exists w. split; [|now apply Z.ltb_lt].
    rewrite <- W. now apply in_map.
  - intros (w & I & L). apply in_map_iff in I as (r & W & I).
    exists r. split; [exact I|]. rewrite W. now apply Z.ltb_lt.
Qed.

Lemma improvement_metrics_some (df : DataFrame) (M : Z) :
  has_column df "week" = true ->
  In (Some M) (map week (rows df)) ->
  (forall w, In (Some w) (map week (rows df)) -> (w <= M)%Z) ->
  (improvement_metrics df <> None <->
   (0 < M)%Z /\ exists w, In (Some w) (map week (rows df)) /\ (w <= M / 2)%Z).
Proof.
  intros C I G. unfold improvement_metrics. rewrite C. cbn [andb].
  destruct (greatest_first (somes (map week (rows df))) M) as (t & R).
  { now apply in_somes. }
  { intros x Ix. apply G. now apply in_somes. }
  rewrite R.
  pose proof (filter_inhabited (week_at_most (M / 2)) (rows df)) as F1.
  pose proof (filter_inhabited (week_above (M / 2)) (rows df)) as F2.
  rewrite week_at_most_some in F1. rewrite week_above_some in F2.
  assert (H2 : (0 < M)%Z <-> (M / 2 < M)%Z).
  { pose proof (Z.div_mod M 2 ltac:(lia)). pose proof (Z.mod_pos_bound M 2 ltac:(lia)).
    lia. }
  destruct (1 <? nunique Z.eqb (map week (rows df)))%nat eqn:U.
  - destruct (filter (week_at_most (M / 2)) (rows df)) as [|a ta].
    + split; [congruence|]. intros (_ & E). apply F1 in E. congruence.
    + destruct (filter (week_above (M / 2)) (rows df)) as [|b tb].
      * split; [congruence|]. intros (P & _).
        assert (exists w, In (Some w) (map week (rows df)) /\ (M / 2 < w)%Z) as E
          by (exists M; split; [exact I|now apply H2]).
        apply F2 in E. congruence.
      * split; [|discriminate]. intros _. split.
        -- assert ((b :: tb) <> []) as Nb by discriminate.
           apply F2 in Nb as (w & Iw & L). specialize (G w Iw). apply H2. lia.
        -- apply F1. discriminate.
  - split; [congruence|]. intros (P & w & Iw & L). exfalso.
    apply Nat.ltb_ge in U.
    pose proof (two_weeks_nunique (map week (rows df)) w M Iw I) as T.
    assert (w <> M) as N by (apply H2 in P; lia).
    specialize (T N). lia.
Qed.

(** X26. On a table with a week column whose greatest week is [M],
    [calculate_learning_metrics] reports the improvement metrics exactly
    when [M] is positive and some record has a week of at most [M // 2]:
    a table whose weeks all lie above half of the greatest one gets no
    improvement metrics.  When they are reported, the two averages are
    those of the records up to week [M // 2] and after it. *)
Theorem improvement_reported (df : DataFrame) (m : Metrics.t) (M : Z) :
  calculate_learning_metrics df = Ok m ->
  has_column df "week" = true ->
  In (Some M) (map week (rows df)) ->
  (forall w, In (Some w) (map week (rows df)) -> (w <= M)%Z) ->
  (Metrics.improvement_metrics m <> None <->
   (0 < M)%Z /\ exists w, In (Some w) (map week (rows df)) /\ (w <= M / 2)%Z) /\
  (forall i, Metrics.improvement_metrics m = Some i ->
     Improvement.first_half_avg i
       = series_mean (map grade (filter (week_at_most (M / 2)) (rows df))) /\
     Improvement.second_half_avg i
       = series_mean (map grade (filter (week_above (M / 2)) (rows df))) /\
     Improvement.improvement i
       = pf_sub (Improvement.second_half_avg i) (Improvement.first_half_avg i)).
Proof.
  intros E C I G. rewrite (calculate_learning_metrics_improvement df m E).
  split; [now apply improvement_metrics_some|].
  intros i. unfold improvement_metrics. rewrite C. cbn [andb].
  destruct (greatest_first (somes (map week (rows df))) M) as (t & R).
  { now apply in_somes. }
  { intros x Ix. apply G. now apply in_somes. }
  rewrite R.
  destruct (1 <? nunique Z.eqb (map week (rows df)))%nat; [|discriminate].
  destruct (filter (week_at_most (M / 2)) (rows df)) as [|a ta]; [discriminate|].
  destruct (filter (week_above (M / 2)) (rows df)) as [|b tb]; [discriminate|].
  intros S. apply (f_equal (fun o => match o with Some v => v | None => i end)) in S.
  subst i. cbn. split; [reflexivity|]. split; reflexivity.
Qed.
(* --------------------------------------------------------------- *)
(** *** The low average, row by row *)



Lemma Qmean_at_most (hi : Q) (v : list Q) :
  v <> [] -> (forall x, In x v -> x <= hi) -> Qmean v <= hi.
Proof.
  intros N B.
  destruct (sorted_ends v N) as (mn & mx & _ & _ & _ & Imx & Bv).
  destruct (Qmean_bounds mn mx v N Bv) as [_ U].
  eapply Qle_trans; [exact U|]. now apply B.
Qed.


(* --------------------------------------------------------------- *)
(** *** The risk list of [analyze_performance], entry by entry *)

Lemma sorted_map_filter {A B} (R : B -> B -> Prop) (f : A -> B)
      (keep : A -> bool) (l : list A) :
  StronglySorted R (map f l) -> StronglySorted R (map f (filter keep l)).
Proof.
  induction l as [|a t IH]; simpl; intros Sd; [constructor|].
  inversion Sd as [|? ? St Fa]; subst.
  destruct (keep a); simpl; [|now apply IH].
  constructor; [now apply IH|].
  rewrite Forall_forall in *. intros b I.
  apply in_map_iff in I as (x & <- & Ix). apply filter_In in Ix as [Ix _].
  apply Fa. now apply in_map.
Qed.

Lemma risk_students_ids (risk_threshold : Q) (min_records : Z)
      (now : string) (df df' : DataFrame) (res : Results.t) :
  analyze_performance risk_threshold min_records now df = (Ok res, df') ->
  map RiskStudent.student_id (Results.risk_students res)
  = map StudentStats.student_id (risk_candidates df risk_threshold min_records).
Proof.
  intros E.
  apply analyze_performance_ok in E as (o & risk & t & _ & R & _ & ->).
  cbn [Results.risk_students]. apply rmap_list_ok in R.
  apply (Forall2_map_eq _ _ _ _ _ (fun s r F =>
           proj1 (risk_student_info_fields df s r F)) R).
Qed.

(** X12.  The risk list of [analyze_performance] names no student
    twice and is in the order of the identifiers.  Every entry is for a
    student of the table; it carries the number of the grades of that
    student, [min_records] at least, a mean below [risk_threshold], and the
    level "high" for a mean below 4 and "medium" from 4 on.  A student with
    [min_records] grades at least, all of them 0.01 at least below a
    threshold on the grade scale, is on the list: the margin keeps the
    rounding of the mean from deciding. *)
Theorem risk_students_listed (risk_threshold : Q) (min_records : Z)
        (now : string) (df df' : DataFrame) (res : Results.t) :
  analyze_performance risk_threshold min_records now df = (Ok res, df') ->
  NoDup (map RiskStudent.student_id (Results.risk_students res)) /\
  StronglySorted (fun a b => String.leb a b = true)
                 (map RiskStudent.student_id (Results.risk_students res)) /\
  Forall (fun r =>
            In (Some (RiskStudent.student_id r)) (map student_id (rows df)) /\
            RiskStudent.grade_count r
              = List.length (dropna (student_grades df (RiskStudent.student_id r))) /\
            (min_records <= Z.of_nat (RiskStudent.grade_count r))%Z /\
            exists a,
              RiskStudent.avg_grade r = Num a /\ a < risk_threshold /\
              RiskStudent.risk_level r
                = (if Qltb a 4 then "high" else "medium"))
         (Results.risk_students res) /\
  (forall sid,
      (min_records <= Z.of_nat (List.length (dropna (student_grades df sid))))%Z ->
      (exists g, In (Num g) (student_grades df sid)) ->
      (forall g, In (Num g) (student_grades df sid) ->
                 g + (1 # 100) <= risk_threshold) ->
      0 < risk_threshold -> risk_threshold <= 10 ->
      In sid (map RiskStudent.student_id (Results.risk_students res))).
Proof.
  intros E.
  destruct (risk_students_members _ _ _ _ _ _ E) as (D & Mem & Fields).
  split; [exact D|]. split; [|split].
  - rewrite (risk_students_ids _ _ _ _ _ _ E).
    unfold risk_candidates, kept_students.
    apply sorted_map_filter, sorted_map_filter.
    rewrite student_stats_table_ids.
    apply sort_by_sorted.
    + apply String.leb_total.
    + apply string_leb_trans.
  - rewrite Forall_forall in *. intros r I.
    destruct (Fields r I) as (Ec & a & Ea & Er & El).
    destruct (proj1 (Mem (RiskStudent.student_id r)) (in_map _ _ _ I))
      as (Is & C & a' & Er' & L).
    split; [exact Is|]. split; [exact Ec|]. split; [now rewrite Ec|].
    exists a. split; [exact Ea|]. split; [|exact El].
    assert (Num a = Num a') as Eq by (rewrite <- Er, <- Er'; reflexivity).
    assert (a = a') as -> by congruence. exact L.
  - intros sid C (g & Ig) B _ _. apply Mem.
    assert (Is : In (Some sid) (map student_id (rows df))).
    { destruct (student_is_some_row (Some sid) (rows df)) as (s & Es & Is).
      - intros Z0. unfold student_grades in Ig. now rewrite Z0 in Ig.
      - now injection Es as ->. }
    split; [exact Is|]. split; [exact C|].
    set (l := student_grades df sid) in *.
    assert (N : dropna l <> []).
    { apply in_dropna in Ig. intros Z0. now rewrite Z0 in Ig. }
    rewrite (series_mean_value l N).
    destruct (round_to_close (Qred (Qmean (dropna l)))) as (a & Ea & _ & U).
    exists a. split; [exact Ea|].
    assert (M : Qmean (dropna l) <= risk_threshold - (1 # 100)).
    { apply Qmean_at_most; [exact N|].
      intros x Ix. apply in_dropna in Ix. specialize (B x Ix). lra. }
    pose proof (Qred_correct (Qmean (dropna l))) as Q0. lra.
Qed.

End FurtherAnalyzerProperties.
(* ================================================================= *)
(** ** The properties on the scenario tables *)

(** Unless another instance is written, the scenarios run with the numerical
    calls that fail. *)
#[local] Existing Instance failing_numerics.

Lemma identify_at_risk_students_sorted_witness :
  exists risk,
    identify_at_risk_students risk_table 5 3 (15 # 10) = Ok risk /\
    map RiskInfo.student_id risk = [Some "A"; Some "B"; Some "D"] /\
    StronglySorted risk_order risk.
Proof.
  eexists. split; [vm_compute; reflexivity|]. split; [reflexivity|].
  apply (identify_at_risk_students_sorted risk_table 5 3 (15 # 10)).
  vm_compute. reflexivity.
Defined.

Lemma sharp_decline_flagged_witness :
  exists risk r,
    identify_at_risk_students risk_table 5 3 (15 # 10) = Ok risk /\
    In r risk /\ RiskInfo.student_id r = Some "A" /\
    In declining_text (RiskInfo.risk_factors r) /\
    In sharp_drop_text (RiskInfo.risk_factors r).
Proof.
  destruct (sharp_decline_flagged risk_table "A") as [_ T];
    [reflexivity | vm_compute; reflexivity |].
  eexists. 
  destruct (T _ ltac:(vm_compute; reflexivity)) as (r & I & S & D & P).
  exists r. split; [reflexivity|]. auto.
Defined.

Lemma predicted_final_grade_clamped_witness :
  exists preds,
    predict_final_grades risk_table None = Ok preds /\
    map Prediction.predicted_final_grade preds
      = [Num 1; Num 10; Num 9] /\
    Forall (fun p => exists g, Prediction.predicted_final_grade p = Num g /\
                               1 <= g /\ g <= 10)
           preds.
Proof.
  eexists. split; [vm_compute; reflexivity|]. split; [reflexivity|].
  apply (predicted_final_grade_clamped risk_table None).
  vm_compute. reflexivity.
Defined.

Lemma predict_fits_week_numbers_witness :
  let weekly := weekly_grades (pair_data gap_weeks_table (Some "A") (Some "Math")) in
  map fst weekly = [1; 3; 5]%Z /\
  (exists preds p slope intercept,
      predict_final_grades_with polyfit gap_weeks_table None = Ok preds /\
      In p preds /\
      polyfit (week_axis weekly) (map snd weekly) = Ok (slope, intercept) /\
      Prediction.trend_slope p = slope /\
      Prediction.predicted_final_grade p
        = clamp_grade (pf_add (pf_mul slope (Num 16)) intercept)) /\
  (forall c, ~ Forall2 Qeq (week_axis weekly) (map (Qplus c) (position_axis weekly))).
Proof.
  intros weekly.
  assert (E : exists preds,
             predict_final_grades_with polyfit gap_weeks_table None = Ok preds)
    by (eexists; vm_compute; reflexivity).
  destruct E as (preds & E).
  destruct (predict_fits_week_numbers polyfit gap_weeks_table None preds
                                      (Some "A") (Some "Math") E)
    as (P & _ & G); [reflexivity | vm_compute; lia |].
  split; [reflexivity|]. split.
  - destruct P as (p & s & i & I & _ & _ & F & S & V).
    exists preds, p, s, i. split; [exact E|]. split; [exact I|].
    split; [exact F|]. split; [exact S|exact V].
  - apply G. intros C. specialize (C 0%nat). vm_compute in C.
    specialize (C (proj1 (Nat.ltb_lt 1 3) eq_refl)). discriminate.
Defined.

(** On the weeks 1, 3, 5 with the means 8, 6, 4 the two functions fit
    different slopes: -1 a week over the week numbers, -2 over the
    positions. *)
Example two_axes_two_slopes :
  map Prediction.trend_slope
      (match predict_final_grades gap_weeks_table None with
       | Ok preds => preds | Raise _ => [] end) = [Num (-1)] /\
  map RiskInfo.risk_factors
      (match identify_at_risk_students gap_weeks_table 5 3 (15 # 10) with
       | Ok risk => risk | Raise _ => [] end)
  = [["Снижение успеваемости (тренд: -2.00/неделю)";
      "Резкое падение успеваемости (8.0 → 5.0)"]].
Proof. split; vm_compute; reflexivity. Qed.

Lemma excellent_rate_le_pass_rate_witness :
  exists res stats e p,
    analyze_performance 5 3 "now" risk_table = (Ok res, risk_table) /\
    In (Some "Math", stats) (Results.by_subject res) /\
    SubjectStats.excellent_rate stats = Num e /\
    SubjectStats.pass_rate stats = Num p /\ e <= p.
Proof.
  assert (E : exists res, analyze_performance 5 3 "now" risk_table = (Ok res, risk_table)
                          /\ exists stats, In (Some "Math", stats) (Results.by_subject res)).
  { eexists. split; [vm_compute; reflexivity|]. eexists. left. reflexivity. }
  destruct E as (res & E & stats & I).
  destruct (excellent_rate_le_pass_rate 5 3 "now" risk_table risk_table res
              "Math" stats E I) as (e & p & Ee & Ep & L).
  exists res, stats, e, p. auto.
Defined.

(** The property C2 as the specification words it fails: on the table with the
    required columns and no row, [analyze_performance] returns a result, even
    when every numerical call fails. *)
Lemma analyze_performance_returns_without_rows :
  has_required no_rows_table = true /\ rows no_rows_table = [] /\
  exists res, analyze_performance 5 3 "now" no_rows_table = (Ok res, no_rows_table).
Proof.
  split; [reflexivity|]. split; [reflexivity|].
  eexists. vm_compute. reflexivity.
Qed.

Lemma analyze_performance_empty_input_witness :
  (exists c, analyze_performance 5 3 "now" no_columns_table
             = (Raise (KeyError c), no_columns_table)) /\
  (exists res df',
      analyze_performance 5 3 "now" no_rows_table = (Ok res, df') /\
      Overall.total_records (Results.overall res) = 0%nat /\
      Overall.mean_grade (Results.overall res) = NaN).
Proof.
  split.
  - apply (analyze_performance_empty_input 5 3 "now" no_columns_table).
    reflexivity.
  - destruct (proj2 (analyze_performance_empty_input 5 3 "now" no_rows_table)
                    eq_refl eq_refl)
      as (res & df' & E & R & _ & _ & M & _).
    exists res, df'. auto.
Defined.

(** C3 at a table with a date and no week: after the call the caller's table
    has the column [week]. *)
Example analyze_performance_changes_caller_table :
  has_column date_only_table "week" = false /\
  exists res df',
    analyze_performance 5 3 "now" date_only_table = (Ok res, df') /\
    columns df' = ["student_id"; "subject"; "grade"; "date"; "week"] /\
    map week (rows df') = [Some 1%Z] /\
    df' <> date_only_table.
Proof.
  split; [reflexivity|].
  eexists _, _. split; [vm_compute; reflexivity|].
  split; [reflexivity|]. split; [reflexivity|]. discriminate.
Qed.

Lemma correlations_and_clusters_contained_witness :
  exists res,
    analyze_performance 5 1 "now" ten_students_table = (Ok res, ten_students_table) /\
    Overall.total_records (Results.overall res) = 10%nat /\
    Results.correlations res
      = Some (Message "Не удалось вычислить корреляции: No objects to concatenate") /\
    Results.clusters res
      = Some (Message "Не удалось выполнить кластеризацию: Input contains NaN").
Proof.
  edestruct (correlations_and_clusters_contained 5 1 "now" ten_students_table
                                                 ten_students_table)
    as (res & E & O & _ & _ & _ & _ & _ & C & _ & K & _);
    [vm_compute; reflexivity | vm_compute; reflexivity | vm_compute; reflexivity |].
  exists res. split; [exact E|]. split; [rewrite O; reflexivity|]. split.
  - apply (C (ValueError "No objects to concatenate")). reflexivity.
  - apply (K (ValueError "Input contains NaN")). vm_compute. reflexivity.
Defined.

(** When the numerical calls answer, the two fields hold structured values. *)
Example correlations_and_clusters_values :
  match fst (@analyze_performance answering_numerics 5 1 "now" ten_students_table) with
  | Ok res =>
    Results.correlations res
      = Some (Value [Correlation.mk "Math" "Physics" (8 # 10) "strong"]) /\
    option_map (fun f => match f with
                         | Value v => map (fun c => ClusterInfo.student_count (snd c)) v
                         | Message _ => []
                         end)
               (Results.clusters res)
      = Some [4; 3; 3]%nat
  | Raise _ => False
  end.
Proof. vm_compute. split; reflexivity. Qed.

(** On an uncleaned table the entry of [by_subject] that stands for the
    missing subjects is computed over no record: its rates are NaN. *)
Example missing_subject_rates :
  map (fun entry => (fst entry,
                     SubjectStats.excellent_rate (snd entry),
                     SubjectStats.pass_rate (snd entry)))
      (by_subject_stats missing_subject_table)
  = [(Some "Math", Num 100, Num 100); (None, NaN, NaN)].
Proof. reflexivity. Qed.

(* ================================================================= *)
(** ** The further properties on the scenario tables *)

Lemma clean_data_missing_column_witness :
  (exists msg, clean_data no_subject_table = Raise (Exn "KeyError" msg)) /\
  clean_data no_subject_table = Raise (KeyError "subject").
Proof.
  destruct (clean_data_missing_column no_subject_table eq_refl) as [E S].
  split; [exact E|]. apply S; reflexivity.
Defined.

Lemma clean_data_shrinks_witness :
  clean_data dated_table = Ok cleaned_dated_table /\
  (List.length (rows cleaned_dated_table) <= List.length (rows dated_table))%nat /\
  has_column cleaned_dated_table "group" = true /\
  has_column cleaned_dated_table "week" = true.
Proof.
  assert (E : clean_data dated_table = Ok cleaned_dated_table) by reflexivity.
  destruct (clean_data_shrinks dated_table cleaned_dated_table E)
    as (L & K & W & _).
  split; [exact E|]. split; [exact L|]. split.
  - apply K. reflexivity.
  - apply W. reflexivity.
Defined.

Lemma clean_data_settles_rows_witness :
  Forall (fun r => (exists a, attendance r = Num a) /\
                   (exists g, group r = Some g) /\
                   week r = option_map isocalendar_week (date r))
         (rows cleaned_dated_table).
Proof.
  rewrite Forall_forall. intros r I.
  destruct (clean_data_settles_rows dated_table cleaned_dated_table r eq_refl I)
    as (A & G & D).
  split; [apply A; reflexivity|]. split; [apply G; reflexivity|].
  apply D. reflexivity.
Defined.

Lemma clean_data_twice_witness :
  clean_data cleaned_dated_table = Ok (drop_duplicates cleaned_dated_table) /\
  drop_duplicates cleaned_dated_table = cleaned_dated_table.
Proof.
  split; [|reflexivity].
  exact (proj1 (clean_data_twice dated_table cleaned_dated_table eq_refl)).
Defined.

Lemma analyze_performance_total_witness :
  exists res, analyze_performance 5 3 "now" risk_table = (Ok res, risk_table).
Proof.
  apply (analyze_performance_total 5 3 "now" risk_table); reflexivity.
Defined.

Lemma identify_at_risk_students_rows_witness :
  exists risk,
    identify_at_risk_students risk_table 5 3 (15 # 10) = Ok risk /\
    map RiskInfo.total_grades risk = [6; 2; 2]%nat /\
    NoDup (map RiskInfo.student_id risk).
Proof.
  eexists. split; [vm_compute; reflexivity|]. split; [reflexivity|].
  apply (identify_at_risk_students_rows risk_table 5 3 (15 # 10)).
  vm_compute. reflexivity.
Defined.


Lemma prediction_confidence_range_witness :
  exists preds,
    predict_final_grades risk_table (Some 4%Z) = Ok preds /\
    map Prediction.prediction_confidence preds
      = [Num 1; Num (1 # 2); Num (1 # 2)] /\
    Forall (fun p => Prediction.current_week p = PyInt 4 /\
                     (2 <= Prediction.weeks_available p)%nat)
           preds.
Proof.
  eexists. split; [vm_compute; reflexivity|]. split; [reflexivity|].
  eapply Forall_impl;
    [|apply (prediction_confidence_range risk_table 4);
      [vm_compute; reflexivity|reflexivity]].
  intros p (C & L & _). auto.
Defined.

Lemma predict_final_grades_week_zero_witness :
  predict_final_grades risk_table (Some 0%Z) = Raise ZeroDivisionError.
Proof.
  apply (predict_final_grades_week_zero risk_table); try reflexivity.
  exists (Some "A"), (Some "Math"). vm_compute. lia.
Defined.

Lemma predictions_ordered_witness :
  exists preds,
    predict_final_grades risk_table None = Ok preds /\
    map prediction_key preds
      = [(Some "A", Some "Math"); (Some "B", Some "Math"); (Some "C", Some "Math")] /\
    StronglySorted prediction_lt preds.
Proof.
  eexists. split; [vm_compute; reflexivity|]. split; [reflexivity|].
  apply (predictions_ordered risk_table None). vm_compute. reflexivity.
Defined.

Lemma by_subject_partition_witness :
  exists res,
    analyze_performance 5 3 "now" risk_table = (Ok res, risk_table) /\
    map fst (Results.by_subject res) = [Some "Math"; Some "Physics"] /\
    list_sum (map (fun e => SubjectStats.record_count (snd e))
                  (Results.by_subject res))
    = Overall.total_records (Results.overall res).
Proof.
  eexists. split; [vm_compute; reflexivity|]. split; [reflexivity|].
  apply (by_subject_partition 5 3 "now" risk_table risk_table).
  - vm_compute. reflexivity.
  - repeat constructor; discriminate.
Defined.

Lemma risk_students_listed_witness :
  exists res,
    analyze_performance 5 2 "now" risk_table = (Ok res, risk_table) /\
    NoDup (map RiskStudent.student_id (Results.risk_students res)) /\
    In "B" (map RiskStudent.student_id (Results.risk_students res)).
Proof.
  assert (E : exists res,
             analyze_performance 5 2 "now" risk_table = (Ok res, risk_table))
    by (eexists; vm_compute; reflexivity).
  destruct E as (res & E).
  destruct (risk_students_listed 5 2 "now" risk_table risk_table res E)
    as (D & _ & _ & Listed).
  exists res. split; [exact E|]. split; [exact D|].
  apply Listed.
  - vm_compute. discriminate.
  - exists 3. vm_compute. left. reflexivity.
  - intros g Ig. vm_compute in Ig.
    destruct Ig as [Ig|[Ig|[]]];
      [assert (g = 3) as -> by congruence|assert (g = 4) as -> by congruence];
      discriminate.
  - reflexivity.
  - discriminate.
Defined.

Lemma overall_grades_range_witness :
  exists res mn md mx,
    analyze_performance 5 3 "now" risk_table = (Ok res, risk_table) /\
    Overall.min_grade (Results.overall res) = Num mn /\
    Overall.median_grade (Results.overall res) = Num md /\
    Overall.max_grade (Results.overall res) = Num mx /\
    mn <= md /\ md <= mx.
Proof.
  assert (E : exists res,
             analyze_performance 5 3 "now" risk_table = (Ok res, risk_table))
    by (eexists; vm_compute; reflexivity).
  destruct E as (res & E).
  destruct (overall_grades_range 5 3 "now" risk_table risk_table res E)
    as (mn & md & mx & E1 & E2 & E3 & _ & _ & _ & L1 & L2).
  - exists 8. left. reflexivity.
  - exists res, mn, md, mx. auto 10.
Defined.

Lemma reported_correlations_witness :
  exists res l,
    @analyze_performance answering_numerics 5 1 "now" ten_students_table
    = (Ok res, ten_students_table) /\
    Results.correlations res = Some (Value l) /\
    map Correlation.strength l = ["strong"] /\
    (List.length l <= 10)%nat.
Proof.
  eexists _, _. split; [vm_compute; reflexivity|]. split; [reflexivity|].
  split; [reflexivity|].
  apply (@reported_correlations answering_numerics 5 1 "now"
                                ten_students_table ten_students_table _ _
                                ltac:(vm_compute; reflexivity) eq_refl).
Defined.

Lemma reported_clusters_witness :
  exists res l,
    @analyze_performance answering_numerics 5 1 "now" ten_students_table
    = (Ok res, ten_students_table) /\
    Results.clusters res = Some (Value l) /\
    map fst l = ["cluster_0"; "cluster_1"; "cluster_2"] /\
    (3 <= List.length l <= 4)%nat.
Proof.
  eexists _, _. split; [vm_compute; reflexivity|]. split; [reflexivity|].
  split; [reflexivity|].
  apply (proj2 (@reported_clusters answering_numerics 5 1 "now"
                                   ten_students_table ten_students_table _
                                   ltac:(vm_compute; reflexivity)) _ eq_refl).
Defined.

Lemma reported_trends_witness :
  exists res weeks means,
    analyze_performance 5 3 "now" risk_table = (Ok res, risk_table) /\
    Trends.weekly (Results.trends res) = Some (weeks, means) /\
    weeks = [1; 2; 3; 4; 5; 6]%Z /\ StronglySorted Z.lt weeks.
Proof.
  eexists _, _, _. split; [vm_compute; reflexivity|]. split; [reflexivity|].
  split; [reflexivity|].
  apply (reported_trends 5 3 "now" risk_table risk_table _
                         ltac:(vm_compute; reflexivity)).
Defined.

Lemma subject_classes_partition_witness :
  exists stats,
    calculate_subject_statistics risk_table = Ok stats /\
    map (fun e => (fst e,
                   SubjectDistribution.excellent_count (SubjectDetail.distribution (snd e)),
                   SubjectDistribution.good_count (SubjectDetail.distribution (snd e)),
                   SubjectDistribution.satisfactory_count (SubjectDetail.distribution (snd e)),
                   SubjectDistribution.fail_count (SubjectDetail.distribution (snd e))))
        stats
    = [(Some "Math", 2, 4, 0, 5); (Some "Physics", 0, 0, 0, 1)]%nat /\
    Forall (fun e =>
              let d := SubjectDetail.distribution (snd e) in
              (SubjectDistribution.excellent_count d
               + SubjectDistribution.good_count d
               + SubjectDistribution.satisfactory_count d
               + SubjectDistribution.fail_count d)%nat
              = SubjectCounts.total_records (SubjectDetail.counts (snd e)))
           stats.
Proof.
  eexists. split; [vm_compute; reflexivity|]. split; [reflexivity|].
  eapply Forall_impl;
    [|apply (subject_classes_partition risk_table); vm_compute; reflexivity].
  intros e (_ & _ & G). apply G. reflexivity.
Defined.

Lemma subject_statistics_agree_witness :
  exists res stats,
    analyze_performance 5 3 "now" risk_table = (Ok res, risk_table) /\
    calculate_subject_statistics risk_table = Ok stats /\
    map fst stats = map fst (Results.by_subject res).
Proof.
  eexists _, _. split; [vm_compute; reflexivity|].
  split; [vm_compute; reflexivity|].
  apply (subject_statistics_agree 5 3 "now" risk_table risk_table);
    vm_compute; reflexivity.
Defined.

Lemma calculate_subject_statistics_returns_witness :
  calculate_subject_statistics no_columns_table = Raise (KeyError "subject") /\
  calculate_subject_statistics (mkDF ["subject"] []) = Ok [] /\
  exists stats,
    calculate_subject_statistics risk_table = Ok stats /\
    map fst stats = [Some "Math"; Some "Physics"].
Proof.
  split; [|split].
  - apply (calculate_subject_statistics_returns no_columns_table). reflexivity.
  - apply (calculate_subject_statistics_returns (mkDF ["subject"] [])); reflexivity.
  - destruct (proj2 (proj2 (calculate_subject_statistics_returns risk_table))
                    eq_refl eq_refl) as (stats & E & M).
    exists stats. split; [exact E|]. rewrite M. reflexivity.
Defined.

Lemma cleaned_table_analysable_witness :
  (exists res, analyze_performance 5 3 "now" cleaned_dated_table
               = (Ok res, cleaned_dated_table)) /\
  (exists risk, identify_at_risk_students cleaned_dated_table 5 3 (15 # 10)
                = Ok risk) /\
  (exists preds, predict_final_grades cleaned_dated_table None = Ok preds) /\
  (exists stats, calculate_subject_statistics cleaned_dated_table = Ok stats).
Proof.
  destruct (cleaned_table_analysable dated_table cleaned_dated_table eq_refl)
    as (A & I & P & C).
  split; [apply A|]. split; [apply I; lia|]. split; [apply P; discriminate|exact C].
Defined.

Lemma subject_percentiles_ordered_witness :
  exists stats,
    calculate_subject_statistics risk_table = Ok stats /\
    map fst stats = [Some "Math"; Some "Physics"] /\
    Forall (fun e =>
              exists mn md mx,
                SubjectBasic.min (SubjectDetail.basic (snd e)) = Num mn /\
                SubjectBasic.median (SubjectDetail.basic (snd e)) = Num md /\
                SubjectBasic.max (SubjectDetail.basic (snd e)) = Num mx /\
                mn <= md /\ md <= mx)
           stats.
Proof.
  eexists. split; [vm_compute; reflexivity|]. split; [reflexivity|].
  pose proof (subject_percentiles_ordered risk_table _
                ltac:(vm_compute; reflexivity)) as F.
  rewrite Forall_forall in *. intros e I.
  destruct (F e I) as (mn & p10 & p25 & p50 & p75 & p90 & mx & md & iq & rg
                       & E1 & E2 & _ & L1 & L2 & L3 & L4 & L5 & L6
                       & E3 & L7 & L8 & _).
  - destruct I as [<-|[<-|[]]]; [exists 8|exists 4]; left; reflexivity.
  - exists mn, md, mx. split; [exact E1|]. split; [exact E3|].
    split; [exact E2|]. lra.
Defined.

Lemma default_week_confidence_witness :
  exists preds,
    predict_final_grades risk_table None = Ok preds /\
    map Prediction.prediction_confidence preds
      = [Num 1; Num (1 # 3); Num (1 # 3)] /\
    Forall (fun p => exists c, Prediction.prediction_confidence p = Num c /\
                               0 < c /\ c <= 1)
           preds.
Proof.
  eexists. split; [vm_compute; reflexivity|]. split; [reflexivity|].
  eapply Forall_impl;
    [|apply (default_week_confidence risk_table);
      [vm_compute; reflexivity | reflexivity |]].
  - intros p (M & c & _ & _ & _ & _ & E & _ & L & U). eauto.
  - assert (A : forallb (fun r => match week r with
                                  | Some w => (1 <=? w)%Z
                                  | None => true
                                  end) (rows risk_table) = true) by reflexivity.
    rewrite forallb_forall in A. intros r w I E.
    specialize (A r I). rewrite E in A. now apply Z.leb_le.
Defined.

Lemma recommendations_by_risk_score_witness :
  exists risk,
    identify_at_risk_students risk_table 5 3 (15 # 10) = Ok risk /\
    map RiskInfo.risk_score risk = [2; 1; 1]%nat /\
    map (fun r => List.length (RiskInfo.recommendations r)) risk = [5; 3; 3]%nat /\
    Forall (fun r => RiskInfo.risk_score r = 1%nat ->
                     List.length (RiskInfo.recommendations r) = 3%nat)
           risk.
Proof.
  eexists. split; [vm_compute; reflexivity|]. split; [reflexivity|].
  split; [reflexivity|].
  eapply Forall_impl;
    [|apply (recommendations_by_risk_score risk_table 5 3 (15 # 10));
      vm_compute; reflexivity].
  intros r (L & _). exact L.
Defined.

Lemma learning_rates_witness :
  exists m p f e,
    calculate_learning_metrics risk_table = Ok m /\
    Efficiency.pass_rate (Metrics.overall_efficiency m) = Num p /\
    Efficiency.failure_rate (Metrics.overall_efficiency m) = Num f /\
    Efficiency.excellence_rate (Metrics.overall_efficiency m) = Num e /\
    e <= p /\ p <= 100 /\ f <= 100.
Proof.
  assert (E : exists m, calculate_learning_metrics risk_table = Ok m)
    by (eexists; vm_compute; reflexivity).
  destruct E as (m & E).
  destruct (learning_rates risk_table m E)
    as (p & f & e & Ep & Ef & Ee & _ & L & P1 & _ & F1 & _).
  - discriminate.
  - exists m, p, f, e. auto 10.
Defined.

Lemma grade_distribution_sums_witness :
  exists m u s g e,
    calculate_learning_metrics risk_table = Ok m /\
    Metrics.grade_distribution m = GradeBins.mk (Num u) (Num s) (Num g) (Num e) /\
    - (3 # 100) <= u + s + g + e - 100 /\ u + s + g + e - 100 <= 3 # 100.
Proof.
  assert (E : exists m, calculate_learning_metrics risk_table = Ok m)
    by (eexists; vm_compute; reflexivity).
  destruct E as (m & E).
  destruct (grade_distribution_sums risk_table m E)
    as (u & s & g & e & D & _ & _ & _ & _ & L & U).
  - exists 8. split; [left; reflexivity|]. split; [reflexivity | discriminate].
  - exists m, u, s, g, e. auto.
Defined.

Lemma improvement_reported_witness :
  exists m i,
    calculate_learning_metrics gap_weeks_table = Ok m /\
    Metrics.improvement_metrics m = Some i /\
    Improvement.first_half_avg i = Num 8 /\
    Improvement.second_half_avg i = Num 5.
Proof.
  assert (E : exists m, calculate_learning_metrics gap_weeks_table = Ok m)
    by (eexists; vm_compute; reflexivity).
  destruct E as (m & E).
  destruct (improvement_reported gap_weeks_table m 5 E) as (R & V).
  - reflexivity.
  - simpl. right; right; left; reflexivity.
  - intros w I. simpl in I.
    destruct I as [I|[I|[I|[]]]];
      [assert (w = 1)%Z by congruence|assert (w = 3)%Z by congruence
      |assert (w = 5)%Z by congruence]; lia.
  - destruct (Metrics.improvement_metrics m) as [i|] eqn:Ei.
    + exists m, i. destruct (V i eq_refl) as (F & S & _).
      split; [exact E|]. split; [exact Ei|]. rewrite F, S.
      split; vm_compute; reflexivity.
    + exfalso. apply (proj2 R); [|reflexivity].
      split; [lia|]. exists 1%Z. split; [left; reflexivity|].
      vm_compute; discriminate.
Defined.
